(** * Cin7 to Smartsheet uploader: normalisation and synchronisation pipeline

    A shallow embedding of [cin7_smartsheet_uploader_v5.py]: the header
    reconciliation, the Cin7 column mapper, the numeric cleaning pass and the
    row filter of [process_cin7_excel_data], and the batched clear and upload
    protocol of [clear_smartsheet_data_enhanced] and [upload_data_enhanced].

    Python strings are Rocq strings (bytes, the ASCII part of the behaviour),
    a pandas DataFrame is an index length with an ordered list of labelled
    columns, the remote sheet is a list of rows held in an explicit world
    state that the API calls read and write. *)

From Stdlib Require Import ZArith QArith String Ascii List Bool Lia.
From Stdlib Require Import Decimal DecimalString DecimalZ DecimalN DecimalPos.
From Stdlib Require Import Floats.SpecFloat.
From stdpp Require Import base option list strings gmap.

Local Open Scope Z_scope.

(** ** Python string primitives *)

Module Py.

(** [str.isspace] on ASCII: tab, line feed, vertical tab, form feed, carriage
    return, the four separators 0x1c-0x1f and the blank.  The regular
    expression class [\s] is the same set. *)
Definition is_space (c : ascii) : bool :=
  let n := nat_of_ascii c in
  ((9 <=? n)%nat && (n <=? 13)%nat) || ((28 <=? n)%nat && (n <=? 32)%nat).

(** The regular expression class [\d] on ASCII. *)
Definition is_digit (c : ascii) : bool :=
  let n := nat_of_ascii c in (48 <=? n)%nat && (n <=? 57)%nat.

Definition lower_char (c : ascii) : ascii :=
  let n := nat_of_ascii c in
  if (65 <=? n)%nat && (n <=? 90)%nat then ascii_of_nat (n + 32) else c.

(** [s.lower()] *)
Fixpoint lower (s : string) : string :=
  match s with
  | EmptyString => EmptyString
  | String c s' => String (lower_char c) (lower s')
  end.

Fixpoint is_prefix (p s : string) : bool :=
  match p, s with
  | EmptyString, _ => true
  | String a p', String b s' => Ascii.eqb a b && is_prefix p' s'
  | String _ _, EmptyString => false
  end.

(** [pat in s] *)
Fixpoint contains (pat s : string) : bool :=
  is_prefix pat s ||
  match s with
  | EmptyString => false
  | String _ s' => contains pat s'
  end.

Fixpoint lstrip_by (p : ascii -> bool) (s : string) : string :=
  match s with
  | EmptyString => EmptyString
  | String c s' => if p c then lstrip_by p s' else s
  end.

Fixpoint rev_onto (s acc : string) : string :=
  match s with
  | EmptyString => acc
  | String c s' => rev_onto s' (String c acc)
  end.

Definition reverse (s : string) : string := rev_onto s EmptyString.

Definition rstrip_by (p : ascii -> bool) (s : string) : string :=
  reverse (lstrip_by p (reverse s)).

(** [s.strip()] *)
Definition strip (s : string) : string :=
  rstrip_by is_space (lstrip_by is_space s).

Fixpoint mem_char (c : ascii) (chars : string) : bool :=
  match chars with
  | EmptyString => false
  | String d chars' => Ascii.eqb c d || mem_char c chars'
  end.

(** [s.strip(chars)] *)
Definition strip_chars (chars s : string) : string :=
  rstrip_by (fun c => mem_char c chars) (lstrip_by (fun c => mem_char c chars) s).

(** [re.sub(cls, '', s)] for a one-character class [cls]. *)
Fixpoint remove_class (cls : ascii -> bool) (s : string) : string :=
  match s with
  | EmptyString => EmptyString
  | String c s' => if cls c then remove_class cls s' else String c (remove_class cls s')
  end.

(** Longest prefix of characters in a class, and the rest. *)
Fixpoint span (p : ascii -> bool) (s : string) : string * string :=
  match s with
  | EmptyString => (EmptyString, EmptyString)
  | String c s' =>
      if p c then let '(a, b) := span p s' in (String c a, b)
      else (EmptyString, s)
  end.

(** Every character of the string is in the class. *)
Fixpoint all_chars (q : ascii -> bool) (s : string) : bool :=
  match s with
  | EmptyString => true
  | String c s' => q c && all_chars q s'
  end.

(** The characters of a decimal integer. *)
Definition sign_or_digit (c : ascii) : bool := is_digit c || Ascii.eqb c "-".

(** Truthiness of a string. *)
Definition truthy (s : string) : bool :=
  match s with EmptyString => false | _ => true end.

Definition zeros (n : nat) : string := string_of_list_ascii (repeat "0"%char n).

(** [str(z)] for a Python int. *)
Definition str_int (z : Z) : string := NilZero.string_of_int (Z.to_int z).

(** [s.isascii()].  On such a string the functions above are those of
    Python; beyond ASCII Python also trims the other white space of Unicode,
    reads its other digits and lowers its other letters, which the bytes of
    a Rocq string do not show. *)
Definition is_ascii (s : string) : bool :=
  all_chars (fun c => (nat_of_ascii c <? 128)%nat) s.

End Py.

(** ** Numbers

    An [int64] value is a [Z]; its wrap-around at 2^63 is not modelled.  A
    finite [float64] value of pandas is kept as the decimal [m * 10^e] of its
    shortest representation ([m] not divisible by ten, zero being
    [0 * 10^0]), which is what [str] prints and what parsing a decimal
    literal of at most fifteen significant digits yields; the arithmetic of
    pandas on it is exact decimal arithmetic, which is that of the machine
    on integers of at most 53 bits and not beyond them.  The sign of zero is
    not kept.  Python's own [float], whose result is sent to the service, is
    rounded to binary64 ([binary64] below). *)

Module Num.

Inductive float64 : Type :=
| FNaN
| FInf (neg : bool)
| FFin (m e : Z).

Inductive num : Type :=
| NInt (z : Z)
| NFloat (f : float64).

(** Remove trailing decimal zeros of the mantissa. *)
Fixpoint strip10 (fuel : nat) (m e : Z) : Z * Z :=
  match fuel with
  | O => (m, e)
  | S fuel' => if m mod 10 =? 0 then strip10 fuel' (m / 10) (e + 1) else (m, e)
  end.

Definition mk_fin (m e : Z) : float64 :=
  if m =? 0 then FFin 0 0
  else let '(m', e') := strip10 (Z.to_nat (Z.log2 (Z.abs m))) m e in FFin m' e'.

(** [float(z)] *)
Definition of_int (z : Z) : float64 := mk_fin z 0.

Definition to_float (n : num) : float64 :=
  match n with
  | NInt z => of_int z
  | NFloat f => f
  end.

Definition is_finite (f : float64) : bool :=
  match f with FFin _ _ => true | _ => false end.

(** [a - b] on floats. *)
Definition fsub (a b : float64) : float64 :=
  match a, b with
  | FNaN, _ | _, FNaN => FNaN
  | FInf s, FInf t => if Bool.eqb s t then FNaN else FInf s
  | FInf s, FFin _ _ => FInf s
  | FFin _ _, FInf t => FInf (negb t)
  | FFin m1 e1, FFin m2 e2 =>
      let e := Z.min e1 e2 in
      mk_fin (m1 * 10 ^ (e1 - e) - m2 * 10 ^ (e2 - e)) e
  end.

(** [int(f)] for a finite float: truncation toward zero. *)
Definition trunc (m e : Z) : Z :=
  if 0 <=? e then m * 10 ^ e else Z.quot m (10 ^ (- e)).

Definition digits_of (m : Z) : string :=
  NilEmpty.string_of_uint (N.to_uint (Z.abs_N m)).

Definition pad2 (s : string) : string :=
  if (String.length s <? 2)%nat then "0" +:+ s else s.

(** The position of the decimal point after the first digit of [m * 10^e]
    written without exponent. *)
Definition decimal_point (m e : Z) : Z :=
  Z.of_nat (String.length (digits_of m)) + e.

(** [str] writes the float without exponent. *)
Definition positional (f : float64) : bool :=
  match f with
  | FFin m e =>
      (m =? 0) || ((-4 <? decimal_point m e) && (decimal_point m e <=? 16))
  | _ => false
  end.

(** The mantissa of a finite float carries no trailing zero. *)
Definition normal (f : float64) : Prop :=
  match f with
  | FFin m e => (m = 0 /\ e = 0) \/ m mod 10 <> 0
  | _ => True
  end.

(** [str(f)] and [repr(f)] of a Python float: positional notation when the
    decimal point position is in (-4, 16], exponent notation otherwise. *)
Definition repr (f : float64) : string :=
  match f with
  | FNaN => "nan"
  | FInf false => "inf"
  | FInf true => "-inf"
  | FFin m e =>
      if m =? 0 then "0.0"
      else
        let ds := digits_of m in
        let n := Z.of_nat (String.length ds) in
        let decpt := decimal_point m e in
        (if m <? 0 then "-" else "") +:+
        (if (-4 <? decpt) && (decpt <=? 16) then
           if decpt <=? 0 then "0." +:+ Py.zeros (Z.to_nat (- decpt)) +:+ ds
           else if decpt <? n then
             substring 0 (Z.to_nat decpt) ds +:+ "." +:+
             substring (Z.to_nat decpt) (Z.to_nat (n - decpt)) ds
           else ds +:+ Py.zeros (Z.to_nat (decpt - n)) +:+ ".0"
         else
           let ex := decpt - 1 in
           substring 0 1 ds +:+
           (if 1 <? n then "." +:+ substring 1 (Z.to_nat (n - 1)) ds else "") +:+
           "e" +:+ (if ex <? 0 then "-" else "+") +:+ pad2 (Py.str_int (Z.abs ex)))
  end.

(** *** Parsing, as [pandas.to_numeric] does for a string element *)

Definition digit_value (c : ascii) : Z := Z.of_nat (nat_of_ascii c - 48).

Fixpoint digits_acc (acc : Z) (ds : string) : Z :=
  match ds with
  | EmptyString => acc
  | String c r => digits_acc (10 * acc + digit_value c) r
  end.

(** The number a string of digits denotes. *)
Definition digits_value (ds : string) : Z := digits_acc 0 ds.

Definition parse_sign (s : string) : bool * string :=
  match s with
  | String "-" r => (true, r)
  | String "+" r => (false, r)
  | _ => (false, s)
  end.

Definition signed (neg : bool) (z : Z) : Z := if neg then - z else z.

Definition is_exp_char (c : ascii) : bool :=
  Ascii.eqb c "e" || Ascii.eqb c "E".

(** A decimal literal: sign, digits, optional fraction, optional exponent,
    nothing else.  Without fraction and exponent the result is an integer. *)
Definition parse_decimal (s : string) : option num :=
  let '(neg, s1) := parse_sign s in
  let '(ip, s2) := Py.span Py.is_digit s1 in
  let '(dot, fp, s3) :=
    match s2 with
    | String "." r => let '(f, r') := Py.span Py.is_digit r in (true, f, r')
    | _ => (false, EmptyString, s2)
    end in
  if (String.length ip + String.length fp =? 0)%nat then None
  else
    let mant := signed neg (digits_value (ip +:+ fp)) in
    let scale := Z.of_nat (String.length fp) in
    match s3 with
    | EmptyString =>
        if dot then Some (NFloat (mk_fin mant (- scale))) else Some (NInt mant)
    | String c r =>
        if is_exp_char c then
          let '(eneg, r1) := parse_sign r in
          let '(ed, r2) := Py.span Py.is_digit r1 in
          if (String.length ed =? 0)%nat || Py.truthy r2 then None
          else Some (NFloat (mk_fin mant (signed eneg (digits_value ed) - scale)))
        else None
    end.

(** White space of the C parser: tab to carriage return, and the blank. *)
Definition is_cspace (c : ascii) : bool :=
  let n := nat_of_ascii c in
  ((9 <=? n)%nat && (n <=? 13)%nat) || (n =? 32)%nat.

(** The special words, compared without case. *)
Definition parse_word (s : string) : option float64 :=
  let w := Py.lower s in
  if String.eqb w "inf" || String.eqb w "+inf" ||
     String.eqb w "infinity" || String.eqb w "+infinity"
  then Some (FInf false)
  else if String.eqb w "-inf" || String.eqb w "-infinity" then Some (FInf true)
  else None.

(** *** Rounding to binary64, as [float] does on a decimal literal

    The value read is the binary64 number nearest to the decimal, ties going
    to the even mantissa; it is kept as the decimal that is equal to it. *)

(** The integer part of the binary logarithm of [a / d], for positive [a]
    and [d]. *)
Definition log2_ratio (a d : Z) : Z :=
  let t := Z.log2 a - Z.log2 d in
  if a * 2 ^ Z.max 0 (- t) <? d * 2 ^ Z.max 0 t then t - 1 else t.

(** The binary64 number nearest to [a / d], for [0 <= a] and [0 < d], as a
    mantissa of at most 53 bits and a binary exponent of at least -1074;
    [None] when the rounded value is 2^1024 or more. *)
Definition nearest64 (a d : Z) : option (Z * Z) :=
  if a =? 0 then Some (0, 0)
  else
    let x := Z.max (log2_ratio a d - 52) (-1074) in
    let n := a * 2 ^ Z.max 0 (- x) in
    let k := d * 2 ^ Z.max 0 x in
    let q := n / k in
    let r := n mod k in
    let q' := if (k <? 2 * r) || ((k =? 2 * r) && Z.odd q) then q + 1 else q in
    if 2 ^ 1024 <=? q' * 2 ^ Z.max 0 x then None else Some (q', x).

(** The decimal equal to [q * 2^x]. *)
Definition of_binary (neg : bool) (q x : Z) : float64 :=
  if 0 <=? x then mk_fin (signed neg (q * 2 ^ x)) 0
  else mk_fin (signed neg (q * 5 ^ (- x))) x.

(** The binary64 number nearest to a decimal; an infinity on overflow. *)
Definition binary64 (f : float64) : float64 :=
  match f with
  | FFin m e =>
      match nearest64 (Z.abs m * 10 ^ Z.max 0 e) (10 ^ Z.max 0 (- e)) with
      | Some (q, x) => of_binary (m <? 0) q x
      | None => FInf (m <? 0)
      end
  | _ => f
  end.

(** One string element under [errors='coerce']: what cannot be parsed is NaN. *)
Definition to_numeric_str (s : string) : num :=
  match parse_decimal (Py.rstrip_by is_cspace (Py.lstrip_by is_cspace s)) with
  | Some n => n
  | None =>
      match parse_word s with
      | Some f => NFloat f
      | None => NFloat FNaN
      end
  end.

End Num.


(** ** The part of pandas the pipeline uses *)

Module Pandas.
Import Num.

(** A cell holds a Python string, an integer or a float; the missing value
    NaN is the float [FNaN]. *)
Inductive cell : Type :=
| CStr (s : string)
| CInt (z : Z)
| CFloat (f : float64).

Definition NaN : cell := CFloat FNaN.

Definition Series : Type := list cell.

(** A frame: the length of its index and its labelled columns, in order.
    The index is the default range index throughout the pipeline. *)
Record DataFrame : Type := mkFrame {
  index_len : nat;
  columns : list (string * Series)
}.

(** [pd.DataFrame()] *)
Definition empty_frame : DataFrame := mkFrame 0 [].

Definition labels (df : DataFrame) : list string := map fst (columns df).

(** [len(df)] *)
Definition len (df : DataFrame) : nat := index_len df.

(** [df[label]]: a missing label raises KeyError, a label carried by several
    columns selects a frame and not a series. *)
Inductive selection : Type :=
| KeyError
| OneColumn (s : Series)
| ManyColumns (ss : list Series).

Definition getitem (df : DataFrame) (label : string) : selection :=
  match List.filter (fun c => String.eqb (fst c) label) (columns df) with
  | [] => KeyError
  | [c] => OneColumn (snd c)
  | cs => ManyColumns (map snd cs)
  end.

(** Conform a series to an index of length [n]: positions beyond the series
    are missing, positions beyond the index are dropped. *)
Definition reindex (n : nat) (s : Series) : Series :=
  take n (s ++ repeat NaN (n - length s)).

Fixpoint set_column (label : string) (s : Series) (cols : list (string * Series))
  : list (string * Series) :=
  match cols with
  | [] => [(label, s)]
  | (l, c) :: rest =>
      if String.eqb l label then (l, s) :: rest
      else (l, c) :: set_column label s rest
  end.

(** [df[label] = scalar]: the scalar is broadcast over the index as it is at
    that moment; on a frame whose index is empty the column has no element. *)
Definition setitem_scalar (df : DataFrame) (label : string) (v : cell) : DataFrame :=
  mkFrame (index_len df) (set_column label (repeat v (index_len df)) (columns df)).

(** [df[label] = series]: a frame with an empty index first takes the index
    of a non-empty series, its existing columns being conformed to it (all
    missing); then the series is aligned on the index. *)
Definition setitem_series (df : DataFrame) (label : string) (s : Series) : DataFrame :=
  let df1 :=
    if (index_len df =? 0)%nat && negb (length s =? 0)%nat
    then mkFrame (length s) (map (fun c => (fst c, reindex (length s) (snd c))) (columns df))
    else df in
  mkFrame (index_len df1) (set_column label (reindex (index_len df1) s) (columns df1)).

(** [str(value)] *)
Definition cell_str (c : cell) : string :=
  match c with
  | CStr s => s
  | CInt z => Py.str_int z
  | CFloat f => repr f
  end.

(** [series.astype(str)] *)
Definition astype_str (s : Series) : Series := map (fun c => CStr (cell_str c)) s.

(** [series.str.replace(cls, '', regex=True)] on a series of strings. *)
Definition str_remove (cls : ascii -> bool) (s : Series) : Series :=
  map (fun c => match c with CStr x => CStr (Py.remove_class cls x) | _ => c end) s.

(** [series.replace(olds, new)] on whole string values. *)
Definition replace_values (olds : list string) (new : string) (s : Series) : Series :=
  map (fun c => match c with
                | CStr x => if existsb (String.eqb x) olds then CStr new else c
                | _ => c
                end) s.

Definition cell_num (c : cell) : num :=
  match c with
  | CStr s => to_numeric_str s
  | CInt z => NInt z
  | CFloat f => NFloat f
  end.

Definition is_int (n : num) : bool :=
  match n with NInt _ => true | NFloat _ => false end.

Definition of_num (n : num) : cell :=
  match n with NInt z => CInt z | NFloat f => CFloat f end.

(** [pd.to_numeric(series, errors='coerce')]: an integer series when every
    element is an integer, a float series otherwise. *)
Definition to_numeric (s : Series) : Series :=
  let ns := map cell_num s in
  if forallb is_int ns then map of_num ns
  else map (fun n => CFloat (to_float n)) ns.

(** [series.fillna(0)] on a numeric series. *)
Definition fillna0 (s : Series) : Series :=
  map (fun c => match c with CFloat FNaN => CFloat (FFin 0 0) | _ => c end) s.

(** [df.fillna('')] *)
Definition fillna_empty (df : DataFrame) : DataFrame :=
  mkFrame (index_len df)
    (map (fun c => (fst c, map (fun x => match x with
                                          | CFloat FNaN => CStr ""
                                          | _ => x
                                          end) (snd c))) (columns df)).

Definition is_cint (c : cell) : bool :=
  match c with CInt _ => true | _ => false end.

Definition cell_float (c : cell) : float64 := to_float (cell_num c).

(** [a - b] on two numeric series over the same index. *)
Definition sub (a b : Series) : Series :=
  if forallb is_cint a && forallb is_cint b
  then zip_with (fun x y => match x, y with
                            | CInt p, CInt q => CInt (p - q)
                            | _, _ => NaN
                            end) a b
  else zip_with (fun x y => CFloat (fsub (cell_float x) (cell_float y))) a b.

(** [series.astype(int)] on a numeric series; a float series that holds a
    non-finite value raises. *)
Definition astype_int (s : Series) : option Series :=
  if forallb (fun c => match c with
                       | CInt _ => true
                       | CFloat f => is_finite f
                       | CStr _ => false
                       end) s
  then Some (map (fun c => match c with
                           | CFloat (FFin m e) => CInt (trunc m e)
                           | _ => c
                           end) s)
  else None.

(** Every column has one element per position of the index. *)
Definition rectangular (df : DataFrame) : Prop :=
  Forall (fun c => length (snd c) = index_len df) (columns df).

(** A frame is well formed when it is rectangular and no label is carried
    by two columns. *)
Definition well_formed (m : DataFrame) : Prop :=
  rectangular m /\ List.NoDup (labels m).

(** [df.empty] *)
Definition is_empty (df : DataFrame) : bool :=
  (index_len df =? 0)%nat || (length (columns df) =? 0)%nat.

(** The rows of a frame, each a list of (label, value) in column order, as
    [df.iterrows()] and [row.items()] give them. *)
Definition row_at (df : DataFrame) (i : nat) : list (string * cell) :=
  map (fun c => (fst c, nth i (snd c) NaN)) (columns df).

Definition rows (df : DataFrame) : list (list (string * cell)) :=
  map (row_at df) (seq 0 (index_len df)).

(** The labels of a row and the strings of its values are ASCII. *)
Definition ascii_row (row : list (string * cell)) : bool :=
  forallb (fun it => Py.is_ascii (fst it) && Py.is_ascii (cell_str (snd it))) row.

Definition ascii_frame (df : DataFrame) : bool := forallb ascii_row (rows df).

(** [df[mask]]: keep the positions where the mask holds. *)
Definition select_rows (mask : list bool) (df : DataFrame) : DataFrame :=
  let keep (s : Series) := map snd (List.filter (fun p : bool * cell => fst p) (zip mask s)) in
  mkFrame (length (List.filter (fun b : bool => b) (take (index_len df) mask)))
          (map (fun c => (fst c, keep (snd c))) (columns df)).

End Pandas.

(** ** Events put on the message queue

    The text of a log entry is kept as a constructor with its parameters;
    [severity_of] gives the tag the source attaches to it. *)

Inductive severity : Type := INFO | SUCCESS | WARNING | ERROR | DEBUG.

Inductive message : Type :=
| MsgVerbatimMode
| MsgStandardMode
| MsgMultiLevelHeaders
| MsgCleaningColumns (cols : list string)
| MsgCleanedColumn (col : string)
| MsgCouldNotClean (col : string)
| MsgMappingStart
| MsgMapped (target source : string)
| MsgDefaulted (target : string)
| MsgAvailableCalculated
| MsgAvailableDefault
| MsgMappingComplete (mapped : nat)
| MsgMappingError
| MsgFilteredOut (removed : nat)
| MsgFinalData (nrows ncols : nat)
| MsgProcessingError
| MsgClearing
| MsgRetryGetSheet (attempt : nat)
| MsgNoRowsToClear
| MsgClearingPlan (nrows nbatches : nat)
| MsgRetryDelete (attempt batch : nat)
| MsgClearedBatch (batch total nrows : nat)
| MsgClearedAll (nrows : nat)
| MsgClearError
| MsgUploadStart (nrows nbatches : nat)
| MsgUploadCancelled
| MsgTimeoutRetry (batch attempt : nat)
| MsgErrorRetry (batch attempt : nat)
| MsgBatchFailed (batch retries : nat)
| MsgBatchUploaded (batch total nrows uploaded : nat)
| MsgUploadError
| MsgUploadFailed
| MsgUploadCompleted
| MsgUploadProcessFailed.

Definition severity_of (m : message) : severity :=
  match m with
  | MsgVerbatimMode | MsgStandardMode | MsgMultiLevelHeaders
  | MsgCleaningColumns _ | MsgCleanedColumn _ | MsgMappingStart
  | MsgMapped _ _ | MsgAvailableCalculated | MsgFilteredOut _
  | MsgClearing | MsgNoRowsToClear | MsgClearingPlan _ _
  | MsgClearedBatch _ _ _ | MsgUploadStart _ _ => INFO
  | MsgMappingComplete _ | MsgFinalData _ _ | MsgClearedAll _
  | MsgBatchUploaded _ _ _ _ | MsgUploadCompleted => SUCCESS
  | MsgCouldNotClean _ | MsgDefaulted _ | MsgAvailableDefault
  | MsgMappingError | MsgRetryGetSheet _ | MsgRetryDelete _ _
  | MsgUploadCancelled | MsgTimeoutRetry _ _ | MsgErrorRetry _ _ => WARNING
  | MsgProcessingError | MsgClearError | MsgBatchFailed _ _
  | MsgUploadError | MsgUploadFailed | MsgUploadProcessFailed => ERROR
  end.

(** ** The processing half: [process_cin7_excel_data] and its helpers *)

Module Cin7.
Import Num Pandas.

(** [self.cin7_column_mapping]; a dict, iterated in insertion order. *)
Definition cin7_column_mapping : list (string * list string) :=
  [ ("ProductCode", ["productcode"; "product_code"; "product code"]);
    ("Product", ["product"; "description"; "product description"]);
    ("Branch", ["branch"; "location"; "warehouse"]);
    ("SOH", ["soh"; "4 - soh"; "stock on hand"; "soh_stock qty"]);
    ("Incoming NOT paid",
       ["incoming"; "5 -"; "open po"; "incoming not paid"; "incoming_not_paid_stock qty"]);
    ("Open Sales", ["open sales"; "6 -"; "allocated"; "open_sales_stock qty"]);
    ("Grand Total", ["grand total"; "7 -"; "total"; "grand_total_stock qty"]) ].

Definition patterns_of (target : string) : list string :=
  match List.find (fun e => String.eqb (fst e) target) cin7_column_mapping with
  | Some e => snd e
  | None => []
  end.

(** [any(pattern in str(col).lower() for pattern in patterns)] *)
Definition matches_any (patterns : list string) (col : string) : bool :=
  existsb (fun p => Py.contains p (Py.lower col)) patterns.

Definition mem_string (x : string) (l : list string) : bool :=
  existsb (String.eqb x) l.

(** *** Header reconciliation (the MultiIndex branch) *)

(** A frame read with two header rows: each column is labelled by a pair. *)
Record MultiFrame : Type := mkMulti {
  mindex_len : nat;
  mcolumns : list ((string * string) * Series)
}.

(** The body of the loop over [working_df.columns]. *)
Definition flat_label (col : string * string) : string :=
  let '(outer, inner) := col in
  if Py.truthy outer && Py.truthy inner &&
     negb (String.eqb (Py.strip outer) (Py.strip inner))
  then Py.strip_chars "_" (outer +:+ "_" +:+ inner)
  else Py.strip (if Py.truthy inner then inner else outer).

Definition flatten_headers (mf : MultiFrame) : DataFrame :=
  mkFrame (mindex_len mf) (map (fun c => (flat_label (fst c), snd c)) (mcolumns mf)).

(** *** Numeric cleaning *)

Definition numeric_columns : list string :=
  ["SOH"; "Incoming NOT paid"; "Open Sales"; "Grand Total"; "Available"].

Definition numeric_keywords : list string :=
  ["stock qty"; "stock value"; "qty"; "total"; "incoming"; "sales"].

Definition potential_numeric_cols (df : DataFrame) : list string :=
  List.filter (matches_any numeric_keywords) (labels df).

(** [list(set(numeric_columns + potential_numeric_cols))].  Python leaves the
    iteration order of a set open; the order of first occurrence is taken. *)
Definition all_numeric_columns (df : DataFrame) : list string :=
  remove_dups (numeric_columns ++ potential_numeric_cols df).

Definition columns_to_clean (df : DataFrame) : list string :=
  List.filter (fun c => mem_string c (labels df)) (all_numeric_columns df).

(** The class [[,$\s]]. *)
Definition separators (c : ascii) : bool :=
  Ascii.eqb c "," || Ascii.eqb c "$" || Py.is_space c.

(** The class [[^\d.-]]. *)
Definition not_numeric_char (c : ascii) : bool :=
  negb (Py.is_digit c || Ascii.eqb c "." || Ascii.eqb c "-").

(** The five assignments to [df[col]] inside the [try]. *)
Definition clean_series (s : Series) : Series :=
  let s1 := astype_str s in
  let s2 := str_remove separators s1 in
  let s3 := str_remove not_numeric_char s2 in
  let s4 := replace_values [""; "nan"; "None"; "null"] "0" s3 in
  fillna0 (to_numeric s4).

Definition update_columns (label : string) (f : Series -> Series)
  (cols : list (string * Series)) : list (string * Series) :=
  map (fun c => if String.eqb (fst c) label then (fst c, f (snd c)) else c) cols.

(** One iteration of the loop over [columns_to_clean].  When the label is
    carried by several columns, [df[col]] is a frame: the first assignment
    turns those columns into strings, the [.str] accessor then raises, the
    handler logs a warning and the loop goes on. *)
Definition clean_column (acc : DataFrame * list message) (col : string)
  : DataFrame * list message :=
  let '(df, log) := acc in
  match getitem df col with
  | OneColumn _ =>
      (mkFrame (index_len df) (update_columns col clean_series (columns df)),
       log ++ [MsgCleanedColumn col])
  | ManyColumns _ =>
      (mkFrame (index_len df) (update_columns col astype_str (columns df)),
       log ++ [MsgCouldNotClean col])
  | KeyError => (df, log ++ [MsgCouldNotClean col])
  end.

Definition clean_numeric_data (df : DataFrame) : DataFrame * list message :=
  fold_left clean_column (columns_to_clean df)
            (df, [MsgCleaningColumns (columns_to_clean df)]).

(** *** Column mapping *)

Definition quantity_columns : list string :=
  ["SOH"; "Incoming NOT paid"; "Open Sales"; "Grand Total"].

Definition default_value (target : string) : string :=
  if mem_string target quantity_columns then "0" else "N/A".

(** The inner loop: the first source column, in frame order, whose lowered
    label contains one of the patterns. *)
Definition find_source (patterns : list string) (df : DataFrame) : option string :=
  List.find (matches_any patterns) (labels df).

(** State of the mapping loop: the frame being built, [mapping_results] and
    the log. *)
Record mapping_state : Type := mkMapping {
  mapped_df : DataFrame;
  mapping_results : list (string * string);
  mapping_log : list message
}.

(** One iteration of the loop over [cin7_column_mapping.items()].  The
    result is on the right, with the log written so far, when the
    assignment raises (the source label selects several columns). *)
Definition map_target (df : DataFrame) (st : mapping_state)
  (entry : string * list string) : mapping_state + list message :=
  let '(target_col, search_patterns) := entry in
  match find_source search_patterns df with
  | Some source_col =>
      if Py.truthy source_col then
        match getitem df source_col with
        | OneColumn s =>
            inl (mkMapping (setitem_series (mapped_df st) target_col s)
                           (mapping_results st ++ [(target_col, source_col)])
                           (mapping_log st ++ [MsgMapped target_col source_col]))
        | _ => inr (mapping_log st)
        end
      else
        inl (mkMapping
               (setitem_scalar (mapped_df st) target_col (CStr (default_value target_col)))
               (mapping_results st ++ [(target_col, "Not found (using default)")])
               (mapping_log st ++ [MsgDefaulted target_col]))
  | None =>
      inl (mkMapping
             (setitem_scalar (mapped_df st) target_col (CStr (default_value target_col)))
             (mapping_results st ++ [(target_col, "Not found (using default)")])
             (mapping_log st ++ [MsgDefaulted target_col]))
  end.

Fixpoint map_targets (df : DataFrame) (entries : list (string * list string))
  (st : mapping_state) : mapping_state + list message :=
  match entries with
  | [] => inl st
  | entry :: rest =>
      match map_target df st entry with
      | inl st' => map_targets df rest st'
      | inr log => inr log
      end
  end.

(** The inner [try]: [(soh - open_sales).astype(int).astype(str)]. *)
Definition available_series (soh open_sales : Series) : option Series :=
  let soh_numeric := fillna0 (to_numeric soh) in
  let open_sales_numeric := fillna0 (to_numeric open_sales) in
  option_map astype_str (astype_int (sub soh_numeric open_sales_numeric)).

(** An operand as the subtraction sees it: the number read by
    [pd.to_numeric], and 0 where it reads none. *)
Definition coerced (c : cell) : float64 :=
  match cell_float c with
  | FNaN => FFin 0 0
  | f => f
  end.

(** The integer part of [SOH - Open Sales] for one row; [None] when the
    difference is not finite. *)
Definition available_of (soh open_sales : cell) : option Z :=
  match fsub (coerced soh) (coerced open_sales) with
  | FFin m e => Some (trunc m e)
  | _ => None
  end.

Definition has_difference (p : cell * cell) : bool :=
  match available_of (fst p) (snd p) with Some _ => true | None => false end.

(** The Available cell of a row whose difference is finite. *)
Definition available_cell (soh open_sales : cell) : cell :=
  CStr (Py.str_int (default 0 (available_of soh open_sales))).

Definition add_available (st : mapping_state) : mapping_state :=
  let m := mapped_df st in
  if forallb (fun col => mem_string col (labels m)) ["SOH"; "Open Sales"] then
    match getitem m "SOH", getitem m "Open Sales" with
    | OneColumn soh, OneColumn open_sales =>
        match available_series soh open_sales with
        | Some av =>
            mkMapping (setitem_series m "Available" av) (mapping_results st)
                      (mapping_log st ++ [MsgAvailableCalculated])
        | None =>
            mkMapping (setitem_scalar m "Available" (CStr "0")) (mapping_results st)
                      (mapping_log st ++ [MsgAvailableDefault])
        end
    | _, _ =>
        mkMapping (setitem_scalar m "Available" (CStr "0")) (mapping_results st)
                  (mapping_log st ++ [MsgAvailableDefault])
    end
  else st.

(** [apply_cin7_column_mapping]: when the loop raises, the handler logs a
    warning and the frame given is returned as it was. *)
Definition apply_cin7_column_mapping (df : DataFrame) : DataFrame * list message :=
  match map_targets df cin7_column_mapping (mkMapping empty_frame [] [MsgMappingStart]) with
  | inl st =>
      let st' := add_available st in
      (mapped_df st',
       mapping_log st' ++ [MsgMappingComplete (length (mapping_results st'))])
  | inr log => (df, log ++ [MsgMappingError])
  end.

(** *** Row filter *)

Definition footer_markers : list string := ["Grand Total"; "Total"; "ProductCode"].

(** [re.search('Grand Total|Total|ProductCode', s, re.IGNORECASE)]: one of
    the alternatives occurs in [s], case put aside. *)
Definition contains_footer_marker (s : string) : bool :=
  existsb (fun m => Py.contains (Py.lower m) (Py.lower s)) footer_markers.

(** A series whose elements are all numbers has a numeric dtype, and no
    [.str] accessor; a series without elements is taken as one of strings,
    as [astype(str)] leaves it. *)
Definition numeric_dtype (s : Series) : bool :=
  match s with
  | [] => false
  | _ => forallb (fun c => match c with
                           | CInt _ => true
                           | CFloat FNaN => false
                           | CFloat _ => true
                           | CStr _ => false
                           end) s
  end.

Definition cell_is (c : cell) (s : string) : bool :=
  match c with CStr x => String.eqb x s | _ => false end.

(** The mask of the filter for one cell of the primary-key column;
    [str.contains] gives [na] (here False) on what is not a string. *)
Definition keep_cell (c : cell) : bool :=
  negb (cell_is c "") && negb (cell_is c "nan") &&
  negb (match c with CStr s => contains_footer_marker s | _ => false end).

(** The negation of the mask: the key is empty, is ["nan"], or has a footer
    marker in it. *)
Definition invalid_key (c : cell) : bool :=
  cell_is c "" || cell_is c "nan" ||
  match c with CStr s => contains_footer_marker s | _ => false end.

(** The test of the key as the specification words it, to be compared with
    [contains_footer_marker]: the cell is one of the literal markers, case
    put aside. *)
Definition is_footer_marker (s : string) : bool :=
  existsb (fun m => String.eqb (Py.lower m) (Py.lower s)) footer_markers.

(** The value a row holds under a label. *)
Definition key_of (label : string) (row : list (string * cell)) : cell :=
  match List.find (fun it => String.eqb (fst it) label) row with
  | Some it => snd it
  | None => NaN
  end.

Definition find_product_code_col (df : DataFrame) : option string :=
  List.find (matches_any (patterns_of "ProductCode")) (labels df).

(** The block under [if not self.verbatim_var.get()]; [None] when it raises. *)
Definition remove_invalid_rows (df : DataFrame) : option (DataFrame * list message) :=
  match find_product_code_col df with
  | Some product_code_col =>
      if Py.truthy product_code_col then
        match getitem df product_code_col with
        | OneColumn s =>
            if numeric_dtype s then None
            else
              let out := select_rows (map keep_cell s) df in
              let removed_rows := (len df - len out)%nat in
              Some (out, if (0 <? removed_rows)%nat then [MsgFilteredOut removed_rows] else [])
        | _ => None
        end
      else Some (df, [])
  | None => Some (df, [])
  end.

(** *** The whole of [process_cin7_excel_data] *)

(** The toggles read from the UI variables. *)
Record toggles : Type := mkToggles {
  verbatim_var : bool;
  column_mapping_var : bool
}.

Definition stringify_non_numeric (df : DataFrame) : DataFrame :=
  let nums := all_numeric_columns df in
  mkFrame (index_len df)
    (map (fun c => if mem_string (fst c) nums then c else (fst c, astype_str (snd c)))
         (columns df)).

(** [df] is the frame read with one header row, [df_multi] the one read with
    two, when that reading succeeded.  [None] is the result of the outer
    handler. *)
Definition process_cin7_excel_data (t : toggles) (df : DataFrame)
  (df_multi : option MultiFrame) : option DataFrame * list message :=
  let '(working_df, log0) :=
    if verbatim_var t then
      match df_multi with
      | Some mf => (flatten_headers mf, [MsgVerbatimMode; MsgMultiLevelHeaders])
      | None => (df, [MsgVerbatimMode])
      end
    else (df, [MsgStandardMode]) in
  let working_df := fillna_empty working_df in
  let '(working_df, log1) := clean_numeric_data working_df in
  let working_df := stringify_non_numeric working_df in
  let '(working_df, log2) :=
    if column_mapping_var t then apply_cin7_column_mapping working_df
    else (working_df, []) in
  let filtered :=
    if negb (verbatim_var t) then remove_invalid_rows working_df
    else Some (working_df, []) in
  match filtered with
  | Some (working_df, log3) =>
      (Some working_df,
       log0 ++ log1 ++ log2 ++ log3 ++
       [MsgFinalData (len working_df) (length (columns working_df))])
  | None => (None, log0 ++ log1 ++ log2 ++ [MsgProcessingError])
  end.

End Cin7.

(** ** The synchronisation half: clearing and uploading *)

Module Sync.
Import Num Pandas.

(** [self.upload_config], the entries the two phases read. *)
Record upload_config : Type := mkConfig {
  batch_size : nat;
  max_retries : nat;
  retry_delay : Q;
  rate_limit_delay : Q
}.

Definition default_config : upload_config := mkConfig 20 3 2 (1 # 2).

(** What a remote call can raise, and the exceptions of the interpreter that
    the two functions can meet. *)
Inductive exn : Type :=
| Timeout
| ServiceError
| UnboundLocalError
| ZeroDivisionError
| OverflowError.

(** The value of a submitted cell; a float is kept as the decimal equal to
    it. *)
Inductive cell_value : Type :=
| VInt (z : Z)
| VFloat (f : float64)
| VStr (s : string).

Record remote_cell : Type := mkCell {
  column_id : Z;
  value : cell_value
}.

(** [smartsheet.models.Row] with [to_bottom = True]. *)
Record remote_row : Type := mkRow {
  to_bottom : bool;
  cells : list remote_cell
}.

Inductive api_call : Type :=
| GetSheet
| DeleteRows (ids : list nat)
| AddRows (rows : list remote_row).

Inductive event : Type :=
| Log (m : message)
| ProgressUpdate (uploaded total : nat) (pct : Q).

(** The environment of one run: how the service answers each attempt, when
    the user asks for cancellation, and the columns of the connected sheet.
    [cancel_at = Some t] makes [self.upload_cancelled] read True from tick [t]
    of the worker's clock on; the flag is never reset during a run. *)
Record env : Type := mkEnv {
  config : upload_config;
  get_sheet_outcome : nat -> option exn;
  delete_rows_outcome : nat -> nat -> option exn;
  add_rows_outcome : nat -> nat -> option exn;
  cancel_at : option nat;
  sheet_columns : list (string * Z)
}.

(** The state the worker acts on.  The clock counts its effects: reads of
    the cancellation flag, remote calls and sleeps. *)
Record world : Type := mkWorld {
  sheet_rows : list (nat * remote_row);
  next_row_id : nat;
  clock : nat;
  sleeps : list Q;
  queue : list event;
  calls : list (api_call * option exn)
}.

Definition initial_world (rows : list (nat * remote_row)) (next : nat) : world :=
  mkWorld rows next 0 [] [] [].

(** *** A state and exception monad for the worker *)

Inductive result (A : Type) : Type :=
| Ret (a : A)
| Raise (e : exn).
Arguments Ret {A} a.
Arguments Raise {A} e.

Definition M (A : Type) : Type := world -> result A * world.

Definition ret {A} (a : A) : M A := fun w => (Ret a, w).

Definition raise {A} (e : exn) : M A := fun w => (Raise e, w).

Definition bind {A B} (m : M A) (k : A -> M B) : M B :=
  fun w => match m w with
           | (Ret a, w') => k a w'
           | (Raise e, w') => (Raise e, w')
           end.

(** [try: m  except Exception as e: h e] *)
Definition try_except {A} (m : M A) (h : exn -> M A) : M A :=
  fun w => match m w with
           | (Ret a, w') => (Ret a, w')
           | (Raise e, w') => h e w'
           end.

Declare Scope sync_scope.
Delimit Scope sync_scope with sync.
Notation "'let*' x ':=' m 'in' k" := (bind m (fun x => k))
  (at level 10, x name, m at level 100, k at level 200) : sync_scope.
Notation "'exec' m 'in' k" := (bind m (fun _ => k))
  (at level 10, m at level 100, k at level 200) : sync_scope.
Local Open Scope sync_scope.

Definition tick (w : world) : world :=
  mkWorld (sheet_rows w) (next_row_id w) (S (clock w)) (sleeps w) (queue w) (calls w).

(** [self.message_queue.put(("log", ..., ...))] *)
Definition log (m : message) : M unit :=
  fun w => (Ret tt, mkWorld (sheet_rows w) (next_row_id w) (clock w) (sleeps w)
                            (queue w ++ [Log m]) (calls w)).

Definition put (e : event) : M unit :=
  fun w => (Ret tt, mkWorld (sheet_rows w) (next_row_id w) (clock w) (sleeps w)
                            (queue w ++ [e]) (calls w)).

(** [time.sleep(d)] *)
Definition sleep (d : Q) : M unit :=
  fun w => (Ret tt, mkWorld (sheet_rows w) (next_row_id w) (S (clock w))
                            (sleeps w ++ [d]) (queue w) (calls w)).

Definition record_call (c : api_call) (r : option exn) (w : world) : world :=
  mkWorld (sheet_rows w) (next_row_id w) (S (clock w)) (sleeps w) (queue w)
          (calls w ++ [(c, r)]).

(** A row stays on the sheet when a delete call does not name it. *)
Definition survives (ids : list nat) (r : nat * remote_row) : bool :=
  negb (existsb (Nat.eqb (fst r)) ids).

(** The batches whose deletion succeeded, in a trace of calls. *)
Fixpoint deleted_batches (tr : list (api_call * option exn)) : list (list nat) :=
  match tr with
  | [] => []
  | (DeleteRows ids, None) :: rest => ids :: deleted_batches rest
  | _ :: rest => deleted_batches rest
  end.

(** The identifiers of every delete call of a trace, failed or not. *)
Fixpoint delete_calls (tr : list (api_call * option exn)) : list (list nat) :=
  match tr with
  | [] => []
  | (DeleteRows ids, _) :: rest => ids :: delete_calls rest
  | _ :: rest => delete_calls rest
  end.

Section Worker.
Context (E : env).

(** The value of [self.upload_cancelled] in a world. *)
Definition cancel_requested (w : world) : bool :=
  match cancel_at E with
  | Some t => (t <=? clock w)%nat
  | None => false
  end.

(** Reading [self.upload_cancelled]. *)
Definition upload_cancelled : M bool :=
  fun w => (Ret (cancel_requested w), tick w).

(** [Sheets.get_sheet]: the identifiers of the rows on the sheet. *)
Definition get_sheet (attempt : nat) : M (list nat) :=
  fun w => match get_sheet_outcome E attempt with
           | None => (Ret (map fst (sheet_rows w)), record_call GetSheet None w)
           | Some e => (Raise e, record_call GetSheet (Some e) w)
           end.

(** [Sheets.delete_rows]: a call that succeeds removes the rows named. *)
Definition delete_rows (batch_num attempt : nat) (ids : list nat) : M unit :=
  fun w => match delete_rows_outcome E batch_num attempt with
           | None =>
               let w' := record_call (DeleteRows ids) None w in
               (Ret tt,
                mkWorld (List.filter (survives ids) (sheet_rows w'))
                        (next_row_id w') (clock w') (sleeps w') (queue w') (calls w'))
           | Some e => (Raise e, record_call (DeleteRows ids) (Some e) w)
           end.

Definition number_from (start : nat) (rows : list remote_row) : list (nat * remote_row) :=
  zip (seq start (length rows)) rows.

(** [Sheets.add_rows]: a call that succeeds appends the rows at the bottom. *)
Definition add_rows (batch_num attempt : nat) (rows : list remote_row) : M unit :=
  fun w => match add_rows_outcome E batch_num attempt with
           | None =>
               let w' := record_call (AddRows rows) None w in
               (Ret tt,
                mkWorld (sheet_rows w' ++ number_from (next_row_id w') rows)
                        (next_row_id w' + length rows) (clock w') (sleeps w')
                        (queue w') (calls w'))
           | Some e => (Raise e, record_call (AddRows rows) (Some e) w)
           end.

(** [l[a:b]] *)
Definition slice {A} (a b : nat) (l : list A) : list A := take (b - a) (drop a l).

(** *** [clear_smartsheet_data_enhanced] *)

(** The first retry loop; [n] iterations are left and [attempt] is the loop
    variable.  The result is the list [[row.id for row in sheet.rows]];
    [None] is the loop running out with [sheet] never bound. *)
Fixpoint get_sheet_loop (n attempt : nat) : M (option (list nat)) :=
  match n with
  | O => ret None
  | S n' =>
      try_except (let* ids := get_sheet attempt in ret (Some ids))
        (fun e =>
           if (attempt =? max_retries (config E) - 1)%nat then raise e
           else
             exec log (MsgRetryGetSheet (attempt + 1)) in
             exec sleep (retry_delay (config E)) in
             get_sheet_loop n' (S attempt))
  end.

(** The retry loop around [delete_rows]. *)
Fixpoint delete_loop (batch_num : nat) (batch_ids : list nat) (n attempt : nat) : M unit :=
  match n with
  | O => ret tt
  | S n' =>
      try_except (delete_rows batch_num attempt batch_ids)
        (fun e =>
           if (attempt =? max_retries (config E) - 1)%nat then raise e
           else
             exec log (MsgRetryDelete (attempt + 1) (batch_num + 1)) in
             exec sleep (retry_delay (config E)) in
             delete_loop batch_num batch_ids n' (S attempt))
  end.

Definition clear_batch_size : nat := 400.

(** [(n + size - 1) // size] *)
Definition batch_count (n size : nat) : nat := (n + size - 1) / size.

(** [row_ids[start_idx:end_idx]] for one batch of the clearing loop. *)
Definition clear_batch_ids (row_ids : list nat) (batch_num : nat) : list nat :=
  slice (batch_num * clear_batch_size)
        (Nat.min ((batch_num + 1) * clear_batch_size) (length row_ids)) row_ids.

(** The body of the loop over [range(total_batches)] for one batch:
    [false] when the function returns on cancellation. *)
Definition clear_batch (row_ids : list nat) (total_batches batch_num : nat) : M bool :=
  let* c := upload_cancelled in
  if c then ret false
  else
    let batch_ids := clear_batch_ids row_ids batch_num in
    exec delete_loop batch_num batch_ids (max_retries (config E)) 0 in
    exec log (MsgClearedBatch (batch_num + 1) total_batches (length batch_ids)) in
    exec (if (batch_num <? total_batches - 1)%nat
          then sleep (rate_limit_delay (config E)) else ret tt) in
    ret true.

(** The loop itself, [n] batches being left; [true] when it ran to its end. *)
Fixpoint clear_batches (row_ids : list nat) (total_batches n batch_num : nat) : M bool :=
  match n with
  | O => ret true
  | S n' =>
      let* continue := clear_batch row_ids total_batches batch_num in
      if continue then clear_batches row_ids total_batches n' (S batch_num)
      else ret false
  end.

Definition clear_smartsheet_data_enhanced : M unit :=
  try_except
    (exec log MsgClearing in
     let* sheet := get_sheet_loop (max_retries (config E)) 0 in
     match sheet with
     | None => raise UnboundLocalError
     | Some row_ids =>
         if (length row_ids =? 0)%nat then log MsgNoRowsToClear
         else
           let total_batches := batch_count (length row_ids) clear_batch_size in
           exec log (MsgClearingPlan (length row_ids) total_batches) in
           let* finished := clear_batches row_ids total_batches total_batches 0 in
           if finished then log (MsgClearedAll (length row_ids)) else ret tt
     end)
    (fun e => exec log MsgClearError in raise e).

(** *** [upload_data_enhanced] *)

(** [{col.title: col.id for col in self.smartsheet_sheet.columns}] *)
Definition column_map : gmap string Z :=
  fold_left (fun m c => <[fst c := snd c]> m) (sheet_columns E) ∅.

(** The guard of the loop over [row.items()]. *)
Definition sendable (col_name : string) (v : cell) : bool :=
  bool_decide (is_Some (column_map !! col_name)) &&
  Py.truthy (Py.strip (cell_str v)) &&
  negb (String.eqb (cell_str v) "nan").

(** A row has a cell to send. *)
Definition has_sendable_cell (row : list (string * cell)) : bool :=
  existsb (fun it => sendable (fst it) (snd it)) row.

(** Underscores between two digits, which [float] accepts. *)
Fixpoint drop_digit_underscores (after_digit : bool) (s : string) : string :=
  match s with
  | EmptyString => EmptyString
  | String c r =>
      if Ascii.eqb c "_" && after_digit &&
         match r with String d _ => Py.is_digit d | EmptyString => false end
      then drop_digit_underscores false r
      else String c (drop_digit_underscores (Py.is_digit c) r)
  end.

(** [float(text)] on a stripped ASCII string; [None] is ValueError.  A
    decimal literal is rounded to binary64: the result is the decimal equal
    to the float, or an infinity when the literal is too large. *)
Definition py_float (text : string) : option float64 :=
  match parse_decimal (drop_digit_underscores false text) with
  | Some n => Some (binary64 (to_float n))
  | None =>
      match parse_word text with
      | Some f => Some f
      | None =>
          let w := Py.lower text in
          if String.eqb w "nan" || String.eqb w "+nan" || String.eqb w "-nan"
          then Some FNaN else None
      end
  end.

(** The value given to [cell.value].  [int] of an infinity raises
    OverflowError, which the inner handler does not catch. *)
Definition cell_value_of (numeric : list string) (col_name : string) (v : cell)
  : result cell_value :=
  let text := Py.strip (cell_str v) in
  if Cin7.mem_string col_name numeric then
    match py_float text with
    | Some (FFin m e) =>
        if 0 <=? e then Ret (VInt (m * 10 ^ e)) else Ret (VFloat (FFin m e))
    | Some (FInf _) => Raise OverflowError
    | Some FNaN => Ret (VStr text)
    | None => Ret (VStr text)
    end
  else Ret (VStr text).

(** The loop over [row.items()]. *)
Fixpoint build_cells (numeric : list string) (items : list (string * cell))
  : result (list remote_cell) :=
  match items with
  | [] => Ret []
  | (col_name, v) :: rest =>
      if sendable col_name v then
        match cell_value_of numeric col_name v with
        | Ret x =>
            match build_cells numeric rest with
            | Ret cs => Ret (mkCell (default 0 (column_map !! col_name)) x :: cs)
            | Raise e => Raise e
            end
        | Raise e => Raise e
        end
      else build_cells numeric rest
  end.

(** The loop over [batch_df.iterrows()]: a row whose cell list is empty is
    not appended. *)
Fixpoint prepare_rows (numeric : list string) (batch : list (list (string * cell)))
  : result (list remote_row) :=
  match batch with
  | [] => Ret []
  | row :: rest =>
      match build_cells numeric row with
      | Ret cs =>
          match prepare_rows numeric rest with
          | Ret rs => Ret (match cs with [] => rs | _ => mkRow true cs :: rs end)
          | Raise e => Raise e
          end
      | Raise e => Raise e
      end
  end.

Definition lift {A} (r : result A) : M A := fun w => (r, w).

(** How the retry loop of one batch ends: [success] set, the loop run out
    with [success] still False, or [return False] on cancellation. *)
Inductive attempt_result : Type := Uploaded | RanOut | Returned.

Fixpoint add_rows_loop (batch_num : nat) (rows_to_add : list remote_row)
  (n attempt : nat) : M attempt_result :=
  match n with
  | O => ret RanOut
  | S n' =>
      let* c := upload_cancelled in
      if c then ret Returned
      else
        try_except
          (exec add_rows batch_num attempt rows_to_add in ret Uploaded)
          (fun e =>
             if (attempt <? max_retries (config E) - 1)%nat then
               exec log (match e with
                         | Timeout => MsgTimeoutRetry (batch_num + 1) (attempt + 1)
                         | _ => MsgErrorRetry (batch_num + 1) (attempt + 1)
                         end) in
               exec sleep (retry_delay (config E) * inject_Z (Z.of_nat (attempt + 1))) in
               add_rows_loop batch_num rows_to_add n' (S attempt)
             else raise e)
  end.

(** [40 + (uploaded_rows / total_rows) * 50] *)
Definition progress_pct (uploaded_rows total_rows : nat) : Q :=
  40 + (Z.of_nat uploaded_rows # Pos.of_nat total_rows) * 50.

(** The body of the loop over [range(total_batches)] for one batch: [None]
    when the function returns False inside it, the new value of
    [uploaded_rows] otherwise. *)
Definition upload_batch (df : DataFrame) (total_rows total_batches : nat)
  (batch_num uploaded_rows : nat) : M (option nat) :=
  let* c := upload_cancelled in
  if c then exec log MsgUploadCancelled in ret None
  else
    let start_idx := (batch_num * batch_size (config E))%nat in
    let end_idx := Nat.min ((batch_num + 1) * batch_size (config E)) total_rows in
    let batch_df := slice start_idx end_idx (rows df) in
    let* rows_to_add := lift (prepare_rows (Cin7.all_numeric_columns df) batch_df) in
    let* r := add_rows_loop batch_num rows_to_add (max_retries (config E)) 0 in
    match r with
    | Returned => ret None
    | RanOut =>
        exec log (MsgBatchFailed (batch_num + 1) (max_retries (config E))) in
        ret None
    | Uploaded =>
        let uploaded_rows := (uploaded_rows + length rows_to_add)%nat in
        exec log (MsgBatchUploaded (batch_num + 1) total_batches
                                   (length rows_to_add) uploaded_rows) in
        exec put (ProgressUpdate uploaded_rows total_rows
                                 (progress_pct uploaded_rows total_rows)) in
        exec (if (batch_num <? total_batches - 1)%nat
              then sleep (rate_limit_delay (config E)) else ret tt) in
        ret (Some uploaded_rows)
    end.

(** The loop itself, [n] batches being left.  The result is whether the
    loop ran to its end, with the value of [uploaded_rows] at that point. *)
Fixpoint upload_batches (df : DataFrame) (total_rows total_batches : nat)
  (n batch_num uploaded_rows : nat) : M (bool * nat) :=
  match n with
  | O => ret (true, uploaded_rows)
  | S n' =>
      let* r := upload_batch df total_rows total_batches batch_num uploaded_rows in
      match r with
      | Some uploaded_rows' =>
          upload_batches df total_rows total_batches n' (S batch_num) uploaded_rows'
      | None => ret (false, uploaded_rows)
      end
  end.

Definition upload_data_enhanced (df : DataFrame) : M bool :=
  try_except
    (let total_rows := len df in
     if (batch_size (config E) =? 0)%nat then raise ZeroDivisionError
     else
       let total_batches := batch_count total_rows (batch_size (config E)) in
       exec log (MsgUploadStart total_rows total_batches) in
       let* r := upload_batches df total_rows total_batches total_batches 0 0 in
       ret (fst r))
    (fun e => exec log MsgUploadError in ret false).

(** *** The end of [upload_process], from step 3 on *)

Inductive outcome : Type :=
| Success (rows_uploaded : nat)
| Cancelled
| Failure.

Definition cancelled_or_failed : M outcome :=
  let* c := upload_cancelled in
  if c then exec log MsgUploadCancelled in ret Cancelled
  else exec log MsgUploadFailed in ret Failure.

(** [overwrite] is [self.overwrite_var.get()]; an exception of the clearing
    phase reaches the handler of [upload_process].  Of what these lines put
    on the queue the log entries that tell the outcome are kept; the
    [progress_update] events of the steps (30, 40 and 100) and the entry that
    carries the traceback, which follows the one of the failure, are left
    out. *)
Definition upload_process (overwrite : bool) (processed_df : DataFrame) : M outcome :=
  try_except
    (exec (if overwrite then clear_smartsheet_data_enhanced else ret tt) in
     let* success := upload_data_enhanced processed_df in
     if success then
       let* c := upload_cancelled in
       if negb c then exec log MsgUploadCompleted in ret (Success (len processed_df))
       else cancelled_or_failed
     else cancelled_or_failed)
    (fun e => exec log MsgUploadProcessFailed in ret Failure).

End Worker.

End Sync.

(** ** Concrete inputs used by the examples below *)

Module Scenarios.
Import Num Pandas Sync.

(** A frame whose only column is a product description. *)
Definition description_only : DataFrame :=
  mkFrame 1 [("Description", [CStr "Widget"])].

(** Stock on hand written with a thousands separator, under the Cin7 header
    ["4 - SOH"]; the second row has a stock that is not a number. *)
Definition separator_stock : DataFrame :=
  mkFrame 2 [("ProductCode", [CStr "A1"; CStr "B2"]);
             ("4 - SOH", [CStr "1,200"; CStr "abc"]);
             ("Open Sales", [CStr "50"; CStr "5"])].

(** A stock column with a small quantity. *)
Definition small_stock : DataFrame :=
  mkFrame 1 [("SOH", [CStr "0.00001"])].

(** Keys of every kind the filter looks at. *)
Definition footer_frame : DataFrame :=
  mkFrame 6 [("ProductCode", [CStr "A1"; CStr ""; CStr "nan"; CStr "Grand Total";
                              CStr "B2"; CStr "Subtotal-7"]);
             ("SOH", [CInt 3; CInt 0; CInt 0; CInt 12; CInt 9; CInt 4])].

Definition one_remote_row : list (nat * remote_row) := [(0%nat, mkRow true [])].

(** A service whose calls fail twice and then succeed. *)
Definition fails_twice (_ attempt : nat) : option exn :=
  if (attempt <? 2)%nat then Some ServiceError else None.

Definition always_ok (_ _ : nat) : option exn := None.

Definition flaky_env : env :=
  mkEnv default_config (fun _ => None) fails_twice fails_twice None
        [("ProductCode", 11); ("SOH", 12)].

Definition one_product : DataFrame :=
  mkFrame 1 [("ProductCode", [CStr "A1"]); ("SOH", [CInt 3])].

Definition many_remote_rows : list (nat * remote_row) :=
  zip (seq 0 801) (repeat (mkRow true []) 801).





Definition quiet_env : env :=
  mkEnv default_config (fun _ => None) always_ok always_ok None
        [("ProductCode", 11); ("SOH", 12)].

(** The second row has nothing to send: a blank code and a missing stock. *)
Definition blank_rows : DataFrame :=
  mkFrame 2 [("ProductCode", [CStr "A1"; CStr " "]); ("SOH", [CInt 3; NaN])].

End Scenarios.

(** ** More concrete inputs *)

Module MoreScenarios.
Import Num Pandas Sync Scenarios.

(** The user cancels at tick 3, while the first batch of a clearing is
    being deleted. *)
Definition cancel_while_clearing : env :=
  mkEnv default_config (fun _ => None) always_ok always_ok (Some 3%nat)
        [("ProductCode", 11)].

(** Every attempt to delete the third batch fails. *)
Definition third_delete_down : env :=
  mkEnv default_config (fun _ => None)
        (fun batch_num _ => if (batch_num =? 2)%nat then Some ServiceError else None)
        always_ok None [("ProductCode", 11)].

(** A retry budget of zero. *)
Definition no_retries : env :=
  mkEnv (mkConfig 20 0 2 (1 # 2)) (fun _ => None) always_ok always_ok None
        [("ProductCode", 11)].

(** A stock too large for a float: [float] reads it as an infinity. *)
Definition overflowing_stock : DataFrame :=
  mkFrame 2 [("ProductCode", [CStr "A1"; CStr "B2"]);
             ("SOH", [CInt 3; CStr "1e309"])].

(** A table that already has the canonical columns. *)
Definition canonical_table : DataFrame :=
  mkFrame 2 [("ProductCode", [CStr "A1"; CStr "B2"]);
             ("Product", [CStr "Axle"; CStr "Brake"]);
             ("Branch", [CStr "North"; CStr "South"]);
             ("SOH", [CInt 5; CInt 7]);
             ("Incoming NOT paid", [CInt 0; CInt 1]);
             ("Open Sales", [CInt 2; CInt 3]);
             ("Grand Total", [CInt 5; CInt 8])].

End MoreScenarios.

(** ** What a run of the worker may do to the world *)

Module Effects.
Import Num Pandas Sync.
Local Open Scope nat_scope.

Definition is_add_rows (c : api_call * option exn) : bool :=
  match fst c with AddRows _ => true | _ => false end.

(** A progress event of the upload loop: the total is the number of rows of
    the table, the counter is within it and the percentage between 40 and
    90. *)
Definition progress_in_range (total : nat) (e : event) : Prop :=
  match e with
  | Log _ => True
  | ProgressUpdate uploaded t pct =>
      t = total /\ uploaded <= total /\ (40 <= pct)%Q /\ (pct <= 90)%Q
  end.

(** From [w] to [w'] rows were only appended to the sheet, every call made
    was an [add_rows], every event put on the queue satisfies [P], and the
    clock did not go back. *)
Record extends (P : event -> Prop) (w w' : world) : Prop := mkExtends {
  ext_rows : exists added, sheet_rows w' = sheet_rows w ++ added;
  ext_calls : exists tr, calls w' = calls w ++ tr /\ forallb is_add_rows tr = true;
  ext_queue : exists evs, queue w' = queue w ++ evs /\ Forall P evs;
  ext_clock : clock w <= clock w'
}.

(** From [w] to [w'] no call made was an [add_rows], the rows left on the
    sheet are those that no delete that succeeded names, and the clock did
    not go back. *)
Record shrinks (w w' : world) : Prop := mkShrinks {
  shr_calls : exists tr,
    calls w' = calls w ++ tr /\
    existsb is_add_rows tr = false /\
    sheet_rows w' = List.filter (survives (concat (deleted_batches tr))) (sheet_rows w);
  shr_next : next_row_id w' = next_row_id w;
  shr_clock : clock w <= clock w'
}.

(** A computation that takes every world to one related to it by [Rel] and
    whose result satisfies [Q]. *)
Definition maintains {A} (Rel : world -> world -> Prop) (m : M A)
  (Q : result A -> Prop) : Prop :=
  forall w, Rel w (snd (m w)) /\ Q (fst (m w)).

End Effects.

(** ** The log of the mapper *)

Module MapperSpec.
Import Num Pandas Cin7.
(** The entry the mapping loop puts in the log for one canonical column. *)
Definition diagnostic (df : DataFrame) (entry : string * list string) : message :=
  match find_source (snd entry) df with
  | Some source_col =>
      if Py.truthy source_col then MsgMapped (fst entry) source_col
      else MsgDefaulted (fst entry)
  | None => MsgDefaulted (fst entry)
  end.

(** The labels of a frame produced by the mapper. *)
Definition canonical_labels : list string :=
  map fst cin7_column_mapping ++ ["Available"].
End MapperSpec.

(** ** The sheet identifier of an address: [extract_sheet_id_enhanced] *)

Module Url.
Import Py.

(** The text after the first [n] characters. *)
Fixpoint skip (n : nat) (s : string) : string :=
  match n, s with
  | O, _ => s
  | S _, EmptyString => EmptyString
  | S k, String _ r => skip k r
  end.

(** The text before and the text after the first occurrence of a non-empty
    separator; [None] when it does not occur. *)
Fixpoint cut (sep s : string) : option (string * string) :=
  match s with
  | EmptyString => None
  | String c r =>
      if is_prefix sep s then Some (EmptyString, skip (String.length sep) s)
      else match cut sep r with
           | Some (a, b) => Some (String c a, b)
           | None => None
           end
  end.

(** [s.split(sep)] for a non-empty separator: the text is cut at each
    occurrence, found from left to right.  Every cut removes a character, so
    the length of the text is fuel enough. *)
Fixpoint split_fuel (fuel : nat) (sep s : string) : list string :=
  match fuel with
  | O => [s]
  | S fuel' =>
      match cut sep s with
      | Some (a, b) => a :: split_fuel fuel' sep b
      | None => [s]
      end
  end.

Definition split (sep s : string) : list string := split_fuel (String.length s) sep s.

(** The digits at the head of a text. *)
Definition digit_run (s : string) : string := fst (span is_digit s).

(** [re.search(r'\d{n}', s).group()] for [n > 0]: the first [n] digits of the
    leftmost place where [n] digits follow one another. *)
Fixpoint search_digits (n : nat) (s : string) : option string :=
  match s with
  | EmptyString => None
  | String _ r =>
      if (n <=? String.length (digit_run s))%nat then Some (substring 0 n s)
      else search_digits n r
  end.

(** [re.search(r'\d{n,}', s).group()] for [n > 0]: the whole run of digits
    at the leftmost place where at least [n] digits follow one another. *)
Fixpoint search_digits_from (n : nat) (s : string) : option string :=
  match s with
  | EmptyString => None
  | String _ r =>
      if (n <=? String.length (digit_run s))%nat then Some (digit_run s)
      else search_digits_from n r
  end.

(** What the function gives: a string, [None] after no exception, or [None]
    from the handler, which logs an error. *)
Inductive extraction : Type :=
| SheetId (id : string)
| NoSheetId
| ExtractionError.

Definition extract_sheet_id_enhanced (url : string) : extraction :=
  if contains "/sheets/" url then
    match split "/sheets/" url !! 1%nat with
    | Some after =>
        match split "?" after !! 0%nat with
        | Some before_query =>
            match split "/" before_query !! 0%nat with
            | Some id => SheetId id
            | None => ExtractionError
            end
        | None => ExtractionError
        end
    | None => ExtractionError
    end
  else if contains "/b/publish?EQBCT=" url then
    match split "EQBCT=" url !! 1%nat with
    | Some after =>
        match split "&" after !! 0%nat with
        | Some id => SheetId id
        | None => ExtractionError
        end
    | None => ExtractionError
    end
  else
    match search_digits 19 url with
    | Some id => SheetId id
    | None =>
        match search_digits_from 10 url with
        | Some id => SheetId id
        | None => NoSheetId
        end
    end.

(** The text before the first occurrence of the separator, the whole text
    when there is none. *)
Definition before (sep s : string) : string :=
  match cut sep s with
  | Some (a, _) => a
  | None => s
  end.

(** The characters that end the identifier in a [/sheets/] address. *)
Definition ends_id (c : ascii) : bool := Ascii.eqb c "/" || Ascii.eqb c "?".

End Url.

(** ** The worker thread up to the confirmation: the head of [upload_process] *)

Module Session.
Import Pandas Sync.

(** The two variables that the worker shares with the main thread. *)
Record shared : Type := mkShared {
  upload_cancelled_flag : bool;
  confirmation_result : option bool
}.

(** What the main thread writes to them, one assignment at a time:
    [self.upload_cancelled = True] in [cancel_upload] and [on_closing],
    [self.confirmation_result = result] in the confirmation dialog, and
    [self.confirmation_result = False] in [cancel_upload] and in the handler
    of the dialog.  Nothing in the main thread stores None. *)
Inductive main_write : Type :=
| SetCancelled
| SetConfirmation (result : bool).

Definition apply_write (v : shared) (x : main_write) : shared :=
  match x with
  | SetCancelled => mkShared true (confirmation_result v)
  | SetConfirmation result => mkShared (upload_cancelled_flag v) (Some result)
  end.

(** The two assignments of [cancel_upload] while a run is in progress. *)
Definition cancel_upload : list main_write := [SetCancelled; SetConfirmation false].

(** A list of writes that leaves [confirmation_result] alone. *)
Definition keeps_confirmation (l : list main_write) : bool :=
  forallb (fun x => match x with SetCancelled => true | SetConfirmation _ => false end) l.

(** What the head puts in the message queue. *)
Inductive notice : Type :=
| UploadStarted
| StartingUpload
| Stage (pct : nat)
| Processing (m : message)
| NoDataToUpload
| ProcessedRows (total_rows : nat)
| CancelledByUser.

(** The user interface during one run.  [main_thread k] holds the writes
    that the main thread makes after the worker's access number [k - 1] to
    the shared variables and before its access number [k]: every
    interleaving of the two threads is one such schedule. *)
Record ui : Type := mkUi {
  main_thread : nat -> list main_write;
  overwrite_var : bool;
  processing_toggles : Cin7.toggles
}.

(** The state of the head: the shared variables, the number of accesses the
    worker has made to them, the number of times it slept in the wait loop,
    and what it has put in the queue. *)
Record session : Type := mkSession {
  vars : shared;
  accesses : nat;
  polls : nat;
  notices : list notice
}.

(** Binary64 arithmetic for [wait_time]. *)
Definition of_int (z : Z) : spec_float := binary_normalize 53 1024 z 0 false.

Definition float_add (x y : spec_float) : spec_float := SFadd 53 1024 x y.

(** The literal [0.1]. *)
Definition tenth : spec_float := SFdiv 53 1024 (of_int 1) (of_int 10).

Definition confirmation_timeout : Z := 30.

(** The value of [wait_time] after [i] additions of [0.1] to [0]. *)
Fixpoint wait_time_after (i : nat) : spec_float :=
  match i with
  | O => of_int 0
  | S j => float_add (wait_time_after j) tenth
  end.

Section Thread.
Context (U : ui) (E : env).

(** The main thread's writes that come before the worker's next access. *)
Definition sync (s : session) : session :=
  mkSession (fold_left apply_write (main_thread U (accesses s)) (vars s))
            (S (accesses s)) (polls s) (notices s).

Definition read_confirmation (s : session) : option bool * session :=
  let s' := sync s in (confirmation_result (vars s'), s').

Definition read_cancelled (s : session) : bool * session :=
  let s' := sync s in (upload_cancelled_flag (vars s'), s').

Definition write (f : shared -> shared) (s : session) : session :=
  let s' := sync s in mkSession (f (vars s')) (accesses s') (polls s') (notices s').

Definition put (l : list notice) (s : session) : session :=
  mkSession (vars s) (accesses s) (polls s) (notices s ++ l).

(** [time.sleep(0.1)] *)
Definition sleep_tenth (s : session) : session :=
  mkSession (vars s) (accesses s) (S (polls s)) (notices s).

(** How the wait loop ends: its condition is false, or the function returns
    inside it. *)
Inductive wait_end : Type := LoopDone | ReturnInLoop | OutOfFuel.

(** [while self.confirmation_result is None and wait_time < confirmation_timeout] *)
Fixpoint wait_loop (fuel : nat) (wait_time : spec_float) (s : session)
  : wait_end * session :=
  let '(c, s1) := read_confirmation s in
  if negb (bool_decide (is_Some c)) && SFltb wait_time (of_int confirmation_timeout) then
    match fuel with
    | O => (OutOfFuel, s1)
    | S fuel' =>
        let s2 := sleep_tenth s1 in
        let wait_time := float_add wait_time tenth in
        let '(cancelled, s3) := read_cancelled s2 in
        if cancelled then (ReturnInLoop, s3)
        else wait_loop fuel' wait_time s3
    end
  else (LoopDone, s1).

(** The loop body runs at most 300 times: [wait_time] is 30 or more after
    300 additions. *)
Definition wait_fuel : nat := 300.

(** How a run of the worker ends. *)
Inductive run_end : Type :=
| NoData
| ReturnedWhileWaiting
| NotConfirmed
| Finished (r : result outcome).

(** The environment of steps 3 and 4: a cancellation flag that is set when
    the head ends stays set. *)
Definition tail_env (v : shared) : env :=
  if upload_cancelled_flag v
  then mkEnv (config E) (get_sheet_outcome E) (delete_rows_outcome E)
             (add_rows_outcome E) (Some 0%nat) (sheet_columns E)
  else E.

(** Steps 3 and 4, after [self.confirmation_result = None]. *)
Definition proceed (processed_df : DataFrame) (s : session) (w : world)
  : run_end * session * world :=
  let s := write (fun v => mkShared (upload_cancelled_flag v) None) s in
  let '(r, w') :=
    Sync.upload_process (tail_env (vars s)) (overwrite_var U) processed_df w in
  (Finished r, s, w').

(** The end of the head, from [if self.confirmation_result != True] on. *)
Definition after_wait (processed_df : DataFrame) (s : session) (w : world)
  : run_end * session * world :=
  let '(c, s) := read_confirmation s in
  match c with
  | Some true => proceed processed_df s w
  | _ => (NotConfirmed, put [CancelledByUser] s, w)
  end.

(** The wait for the dialog and what follows it.  The loop does not run out
    of fuel (lemma [wait_loop_ends]). *)
Definition confirm_and_upload (processed_df : DataFrame) (s : session) (w : world)
  : run_end * session * world :=
  let '(e, s) := wait_loop wait_fuel (of_int 0) s in
  match e with
  | ReturnInLoop | OutOfFuel => (ReturnedWhileWaiting, s, w)
  | LoopDone => after_wait processed_df s w
  end.

(** The nested function [upload_process] of [start_upload_threaded], run on
    the frames read from the file.  The result holds how the run ended, the
    state in which the head ended and the state of the service. *)
Definition upload_process_thread (df : DataFrame) (df_multi : option Cin7.MultiFrame)
  (v : shared) (w : world) : run_end * session * world :=
  let s := write (fun v => mkShared false (confirmation_result v))
                 (mkSession v 0 0 []) in
  let s := put [UploadStarted; StartingUpload; Stage 10] s in
  let '(processed_df, processing_log) :=
    Cin7.process_cin7_excel_data (processing_toggles U) df df_multi in
  let s := put (map Processing processing_log) s in
  match processed_df with
  | None => (NoData, put [NoDataToUpload] s, w)
  | Some processed_df =>
      if is_empty processed_df then (NoData, put [NoDataToUpload] s, w)
      else
        let s := put [ProcessedRows (len processed_df); Stage 20] s in
        confirm_and_upload processed_df s w
  end.

End Thread.

(** A main thread that writes nothing. *)
Definition idle : nat -> list main_write := fun _ => [].

(** A main thread whose only writes are [l], before the worker's access
    number [k]. *)
Definition only_at (k : nat) (l : list main_write) : nat -> list main_write :=
  fun i => if (i =? k)%nat then l else [].

End Session.

(** ** Concrete sessions *)

Module SessionScenarios.
Import Pandas Sync Session.

(** Append mode, verbatim copy, no column mapping. *)
Definition append_verbatim (main : nat -> list main_write) : ui :=
  mkUi main false (Cin7.mkToggles true false).

(** The variables when the application starts. *)
Definition fresh : shared := mkShared false None.

(** The variables after a dialog was answered No. *)
Definition declined : shared := mkShared false (Some false).

End SessionScenarios.

(** ** The file selected and the file analysed *)

Module Files.
Import Pandas.

(** The frame read with one header row and, when that reading succeeded,
    the frame read with two. *)
Definition reading : Type := DataFrame * option Cin7.MultiFrame.

(** What the reading block ([read_csv], or [read_excel] once or twice) gets
    from a path at some moment; [None] when it raises. *)
Definition disk : Type := string -> option reading.

(** [self.excel_file_path] and [self.file_analysis]; [None] stands for the
    attribute [file_analysis] not existing, which is how the object starts. *)
Record selection : Type := mkSelection {
  excel_file_path : string;
  file_analysis : option reading
}.

Definition initial : selection := mkSelection "" None.

(** [browse_file], the dialog returning [file_path]. *)
Definition browse_file (file_path : string) (st : selection) : selection :=
  if Py.truthy file_path then mkSelection file_path (file_analysis st) else st.

(** [analyze_file_threaded]: the analysis is stored when the reading did not
    raise. *)
Definition analyze_file (D : disk) (st : selection) : selection :=
  if negb (Py.truthy (excel_file_path st)) then st
  else
    match D (excel_file_path st) with
    | Some r => mkSelection (excel_file_path st) (Some r)
    | None => st
    end.

(** The frames that [process_cin7_excel_data] works on: the stored analysis
    if there is one, what it reads from the selected path otherwise.  [None]
    is the reading raising, which makes the function return None. *)
Definition frames_to_process (D : disk) (st : selection) : option reading :=
  match file_analysis st with
  | Some r => Some r
  | None => D (excel_file_path st)
  end.

(** What the user does between two uploads; an analysis sees the disk as it
    is when it runs. *)
Inductive action : Type :=
| Browse (file_path : string)
| Analyze (D : disk).

Definition step (st : selection) (a : action) : selection :=
  match a with
  | Browse file_path => browse_file file_path st
  | Analyze D => analyze_file D st
  end.

Definition run (acts : list action) (st : selection) : selection :=
  fold_left step acts st.

(** No analysis of [acts] gets a reading, [path] being selected when they
    start. *)
Fixpoint no_analysis_succeeds (path : string) (acts : list action) : Prop :=
  match acts with
  | [] => True
  | Browse file_path :: rest =>
      no_analysis_succeeds (if Py.truthy file_path then file_path else path) rest
  | Analyze D :: rest => D path = None /\ no_analysis_succeeds path rest
  end.

(** The path selected after [acts]. *)
Fixpoint selected (path : string) (acts : list action) : string :=
  match acts with
  | [] => path
  | Browse file_path :: rest => selected (if Py.truthy file_path then file_path else path) rest
  | Analyze _ :: rest => selected path rest
  end.

End Files.

(** ** Concrete selections *)

Module FilesScenarios.
Import Pandas Files Scenarios.

(** A disk on which only [stock.xlsx] can be read. *)
Definition only_stock : disk :=
  fun path => if String.eqb path "stock.xlsx" then Some (one_product, None) else None.

(** The user selects a second file, which cannot be read. *)
Definition select_unreadable : list action :=
  [Browse "other.xlsx"; Analyze only_stock].

End FilesScenarios.

(** * Properties *)

#[local] Arguments String.append !_ _ / : simpl nomatch.

(** ** Strings *)

Module PyFacts.
Import Py.

Lemma append_nil_r (s : string) : s +:+ "" = s.
Proof. induction s as [|c s IH]; simpl; [reflexivity | now rewrite IH]. Qed.

Lemma append_assoc (a b c : string) : (a +:+ b) +:+ c = a +:+ (b +:+ c).
Proof. induction a as [|x a IH]; simpl; [reflexivity | now rewrite IH]. Qed.

Lemma rev_onto_app (s acc : string) : rev_onto s acc = reverse s +:+ acc.
Proof.
  unfold reverse. revert acc.
  induction s as [|c s IH]; intros acc; simpl; [reflexivity |].
  rewrite IH, (IH (String c "")), append_assoc. reflexivity.
Qed.

Lemma reverse_cons (c : ascii) (s : string) :
  reverse (String c s) = reverse s +:+ String c "".
Proof. unfold reverse at 1. simpl. apply rev_onto_app. Qed.

Lemma reverse_app (a b : string) : reverse (a +:+ b) = reverse b +:+ reverse a.
Proof.
  induction a as [|c a IH]; simpl.
  - change (reverse "") with "". now rewrite append_nil_r.
  - now rewrite !reverse_cons, IH, append_assoc.
Qed.

Lemma reverse_involutive (s : string) : reverse (reverse s) = s.
Proof.
  induction s as [|c s IH]; [reflexivity |].
  rewrite reverse_cons, reverse_app, IH. reflexivity.
Qed.

Lemma lstrip_by_head (p : ascii -> bool) (c : ascii) (s : string) :
  p c = false -> lstrip_by p (String c s) = String c s.
Proof. intros H. simpl. now rewrite H. Qed.

(** Stripping leaves alone a string that neither starts nor ends with a
    character of the class. *)
Lemma strip_by_fixed (p : ascii -> bool) (s : string) (a b : ascii) (u v : string) :
  s = String a u -> reverse s = String b v -> p a = false -> p b = false ->
  rstrip_by p (lstrip_by p s) = s.
Proof.
  intros Hs Hr Ha Hb. unfold rstrip_by.
  rewrite Hs, (lstrip_by_head p a u Ha), <- Hs, Hr, (lstrip_by_head p b v Hb), <- Hr.
  apply reverse_involutive.
Qed.

Lemma remove_class_fixed (cls : ascii -> bool) (s : string) :
  forallb (fun c => negb (cls c)) (list_ascii_of_string s) = true ->
  remove_class cls s = s.
Proof.
  induction s as [|c s IH]; simpl; [reflexivity |].
  intros H. apply andb_true_iff in H as [Hc Hs].
  apply negb_true_iff in Hc. rewrite Hc, (IH Hs). reflexivity.
Qed.

Lemma truthy_spec (s : string) : truthy s = true <-> s <> "".
Proof. destruct s; simpl; split; congruence. Qed.

Lemma is_prefix_underscore (c : ascii) (s : string) :
  is_prefix "_" (String c s) = false -> mem_char c "_" = false.
Proof.
  cbn [is_prefix mem_char]. intros H.
  rewrite Ascii.eqb_sym. destruct (Ascii.eqb "_" c); [| reflexivity].
  destruct s; discriminate.
Qed.

Lemma all_chars_app (q : ascii -> bool) (a b : string) :
  all_chars q (a +:+ b) = all_chars q a && all_chars q b.
Proof.
  induction a as [|c a IH]; simpl; [reflexivity |].
  now rewrite IH, andb_assoc.
Qed.

Lemma all_chars_reverse (q : ascii -> bool) (s : string) :
  all_chars q (reverse s) = all_chars q s.
Proof.
  induction s as [|c s IH]; [reflexivity |].
  rewrite reverse_cons, all_chars_app, IH. simpl.
  rewrite andb_true_r. apply andb_comm.
Qed.

Lemma all_chars_impl (p q : ascii -> bool) (s : string) :
  (forall c, p c = true -> q c = true) ->
  all_chars p s = true -> all_chars q s = true.
Proof.
  intros Hpq. induction s as [|c s IH]; simpl; [reflexivity |].
  intros H. apply andb_true_iff in H as [Hc Hs].
  now rewrite (Hpq c Hc), IH.
Qed.

Lemma lstrip_by_none (p : ascii -> bool) (s : string) :
  all_chars (fun c => negb (p c)) s = true -> lstrip_by p s = s.
Proof.
  destruct s as [|c s]; simpl; [reflexivity |].
  intros H. apply andb_true_iff in H as [Hc _].
  apply negb_true_iff in Hc. now rewrite Hc.
Qed.

Lemma rstrip_by_none (p : ascii -> bool) (s : string) :
  all_chars (fun c => negb (p c)) s = true -> rstrip_by p s = s.
Proof.
  intros H. unfold rstrip_by.
  rewrite lstrip_by_none by (now rewrite all_chars_reverse).
  apply reverse_involutive.
Qed.

Lemma remove_class_none (cls : ascii -> bool) (s : string) :
  all_chars (fun c => negb (cls c)) s = true -> remove_class cls s = s.
Proof.
  induction s as [|c s IH]; simpl; [reflexivity |].
  intros H. apply andb_true_iff in H as [Hc Hs].
  apply negb_true_iff in Hc. now rewrite Hc, (IH Hs).
Qed.

Lemma span_all (p : ascii -> bool) (s : string) :
  all_chars p s = true -> span p s = (s, "").
Proof.
  induction s as [|c s IH]; simpl; [reflexivity |].
  intros H. apply andb_true_iff in H as [Hc Hs].
  now rewrite Hc, (IH Hs).
Qed.

Lemma length_append (a b : string) :
  String.length (a +:+ b) = (String.length a + String.length b)%nat.
Proof. induction a as [|c a IH]; simpl; [reflexivity | now rewrite IH]. Qed.

Lemma length_zeros (k : nat) : String.length (zeros k) = k.
Proof. induction k as [|k IH]; [reflexivity |]. unfold zeros in *. simpl. now rewrite IH. Qed.

Lemma zeros_digits (k : nat) : all_chars is_digit (zeros k) = true.
Proof. induction k as [|k IH]; [reflexivity |]. unfold zeros in *. simpl. exact IH. Qed.

Lemma substring_split (k : nat) :
  forall s, (k <= String.length s)%nat ->
  substring 0 k s +:+ substring k (String.length s - k) s = s.
Proof.
  induction k as [|k IH]; intros s Hk.
  - rewrite Nat.sub_0_r. destruct s as [|c s]; [reflexivity |].
    cbn [substring String.append String.length]. f_equal.
    clear. induction s as [|d s IH]; [reflexivity |]. simpl. now rewrite IH.
  - destruct s as [|c s]; simpl in Hk; [lia |].
    cbn [substring String.append String.length Nat.sub]. f_equal. apply IH. lia.
Qed.

Lemma substring_length (k : nat) :
  forall s, (k <= String.length s)%nat -> String.length (substring 0 k s) = k.
Proof.
  induction k as [|k IH]; intros s Hk.
  - now destruct s.
  - destruct s as [|c s]; simpl in Hk; [lia |]. simpl. f_equal. apply IH. lia.
Qed.

Lemma span_stop (p : ascii -> bool) (a : string) (c : ascii) (r : string) :
  all_chars p a = true -> p c = false -> span p (a +:+ String c r) = (a, String c r).
Proof.
  intros Ha Hc. induction a as [|x a IH]; simpl in *.
  - now rewrite Hc.
  - apply andb_true_iff in Ha as [-> Ha]. now rewrite IH.
Qed.

(** What stripping removes: a run of characters of the class at each end,
    as long as it can be, and nothing else. *)
Lemma lstrip_by_spec (p : ascii -> bool) (s : string) :
  exists a,
    s = a +:+ lstrip_by p s /\ all_chars p a = true /\
    forall c r, lstrip_by p s = String c r -> p c = false.
Proof.
  induction s as [|c s (a & Hs & Ha & Hc)]; simpl.
  - exists "". repeat split. discriminate.
  - destruct (p c) eqn:Hp.
    + exists (String c a). simpl. rewrite <- Hs, Hp, Ha. repeat split. exact Hc.
    + exists "". repeat split. now intros c' r [= <- _].
Qed.

Lemma rstrip_by_spec (p : ascii -> bool) (s : string) :
  exists b,
    s = rstrip_by p s +:+ b /\ all_chars p b = true /\
    forall c r, reverse (rstrip_by p s) = String c r -> p c = false.
Proof.
  destruct (lstrip_by_spec p (reverse s)) as (a & Hs & Ha & Hc).
  exists (reverse a). unfold rstrip_by. split; [| split].
  - rewrite <- reverse_app, <- Hs. symmetry. apply reverse_involutive.
  - now rewrite all_chars_reverse.
  - rewrite reverse_involutive. exact Hc.
Qed.

Lemma strip_by_spec (p : ascii -> bool) (s : string) :
  exists a b,
    s = a +:+ rstrip_by p (lstrip_by p s) +:+ b /\
    all_chars p a = true /\ all_chars p b = true /\
    (forall c r, rstrip_by p (lstrip_by p s) = String c r -> p c = false) /\
    (forall c r, reverse (rstrip_by p (lstrip_by p s)) = String c r -> p c = false).
Proof.
  destruct (lstrip_by_spec p s) as (a & Hs & Ha & Hc).
  destruct (rstrip_by_spec p (lstrip_by p s)) as (b & Ht & Hb & Hd).
  exists a, b. split; [| split; [exact Ha | split; [exact Hb | split; [| exact Hd]]]].
  - rewrite <- Ht. exact Hs.
  - intros c r Hr. rewrite Hr in Ht. apply (Hc c (r +:+ b)). exact Ht.
Qed.

End PyFacts.

(** ** Numbers *)

Module NumFacts.
Import Py PyFacts Num.

Lemma strip10_value (fuel : nat) :
  forall m e m' e',
  strip10 fuel m e = (m', e') -> e <= e' /\ m = m' * 10 ^ (e' - e).
Proof.
  induction fuel as [|fuel IH]; intros m e m' e'; simpl.
  - intros [= <- <-]. rewrite Z.sub_diag. simpl. lia.
  - destruct (Z.eqb_spec (m mod 10) 0) as [Hmod | _].
    + intros H. apply IH in H as [Hle Hm]. split; [lia |].
      replace (e' - e) with (Z.succ (e' - (e + 1))) by lia.
      rewrite Z.pow_succ_r by lia.
      rewrite (Z.div_mod m 10) by lia. rewrite Hmod, Hm. ring.
    + intros [= <- <-]. rewrite Z.sub_diag. simpl. lia.
Qed.

Lemma mk_fin_value (m e : Z) :
  exists m' e',
    mk_fin m e = FFin m' e' /\
    ((m = 0 /\ m' = 0 /\ e' = 0) \/ (e <= e' /\ m = m' * 10 ^ (e' - e))).
Proof.
  unfold mk_fin. destruct (Z.eqb_spec m 0) as [-> | Hm].
  - exists 0, 0. split; [reflexivity | now left].
  - destruct (strip10 _ m e) as [m' e'] eqn:Hs.
    exists m', e'. split; [reflexivity | right]. now apply strip10_value in Hs.
Qed.

Lemma of_int_value (p : Z) :
  exists m e, of_int p = FFin m e /\ 0 <= e /\ p = m * 10 ^ e.
Proof.
  unfold of_int. destruct (mk_fin_value p 0) as (m & e & -> & [(-> & -> & ->) | [He Hp]]).
  - exists 0, 0. repeat split; lia.
  - exists m, e. rewrite Z.sub_0_r in Hp. repeat split; assumption.
Qed.

Lemma trunc_fsub_of_int (p q : Z) :
  exists m e, fsub (of_int p) (of_int q) = FFin m e /\ trunc m e = p - q.
Proof.
  destruct (of_int_value p) as (m1 & e1 & -> & He1 & ->).
  destruct (of_int_value q) as (m2 & e2 & -> & He2 & ->).
  cbn [fsub].
  set (e := Z.min e1 e2).
  assert (He : 0 <= e) by (unfold e; lia).
  assert (Hsplit1 : 10 ^ e1 = 10 ^ (e1 - e) * 10 ^ e).
  { rewrite <- Z.pow_add_r by (unfold e; lia). f_equal. lia. }
  assert (Hsplit2 : 10 ^ e2 = 10 ^ (e2 - e) * 10 ^ e).
  { rewrite <- Z.pow_add_r by (unfold e; lia). f_equal. lia. }
  destruct (mk_fin_value (m1 * 10 ^ (e1 - e) - m2 * 10 ^ (e2 - e)) e)
    as (m & e' & -> & [(H0 & -> & ->) | [Hle Hm]]).
  - exists 0, 0. split; [reflexivity |]. unfold trunc. simpl.
    rewrite Hsplit1, Hsplit2. 
    replace (m1 * (10 ^ (e1 - e) * 10 ^ e) - m2 * (10 ^ (e2 - e) * 10 ^ e))
      with ((m1 * 10 ^ (e1 - e) - m2 * 10 ^ (e2 - e)) * 10 ^ e) by ring.
    rewrite H0. ring.
  - exists m, e'. split; [reflexivity |]. unfold trunc.
    destruct (Z.leb_spec 0 e') as [_ | Hneg]; [| lia].
    rewrite Hsplit1, Hsplit2.
    replace (m1 * (10 ^ (e1 - e) * 10 ^ e) - m2 * (10 ^ (e2 - e) * 10 ^ e))
      with ((m1 * 10 ^ (e1 - e) - m2 * 10 ^ (e2 - e)) * 10 ^ e) by ring.
    rewrite Hm, <- Z.mul_assoc, <- Z.pow_add_r by lia. f_equal. f_equal. lia.
Qed.

Lemma of_int_not_nan (p : Z) : of_int p <> FNaN.
Proof. destruct (of_int_value p) as (m & e & -> & _). discriminate. Qed.

Lemma digits_acc_uint (d : uint) :
  forall acc : positive,
  digits_acc (Z.pos acc) (NilEmpty.string_of_uint d) = Z.pos (Pos.of_uint_acc d acc).
Proof.
  induction d; intros acc; cbn [NilEmpty.string_of_uint digits_acc Pos.of_uint_acc];
    try reflexivity;
    rewrite <- IHd; f_equal; vm_compute digit_value; lia.
Qed.

Lemma digits_value_uint (d : uint) :
  digits_value (NilEmpty.string_of_uint d) = Z.of_uint d.
Proof.
  unfold digits_value, Z.of_uint.
  induction d; cbn [NilEmpty.string_of_uint digits_acc Pos.of_uint];
    try reflexivity; try exact IHd;
    match goal with
    | |- _ = Z.of_N (N.pos (Pos.of_uint_acc d ?k)) => exact (digits_acc_uint d k)
    end.
Qed.

Lemma digits_all (d : uint) : all_chars is_digit (NilEmpty.string_of_uint d) = true.
Proof. induction d; simpl; auto. Qed.

Lemma str_int_shape (z : Z) :
  exists (neg : bool) (d : uint),
    str_int z = (if neg then "-" else "") +:+ NilEmpty.string_of_uint d /\
    d <> Nil /\
    signed neg (Z.of_uint d) = z.
Proof.
  unfold str_int. pose proof (DecimalZ.of_to z) as Hz.
  destruct z as [|p|p]; simpl in *.
  - exists false, (D0 Nil). repeat split. discriminate.
  - exists false, (Pos.to_uint p). repeat split.
    + unfold NilZero.string_of_uint.
      pose proof (DecimalPos.Unsigned.to_uint_nonnil p).
      destruct (Pos.to_uint p); [contradiction | reflexivity..].
    + apply DecimalPos.Unsigned.to_uint_nonnil.
    + exact Hz.
  - exists true, (Pos.to_uint p). repeat split.
    + unfold NilZero.string_of_uint.
      pose proof (DecimalPos.Unsigned.to_uint_nonnil p).
      destruct (Pos.to_uint p); [contradiction | reflexivity..].
    + apply DecimalPos.Unsigned.to_uint_nonnil.
    + exact Hz.
Qed.

Lemma str_int_chars (z : Z) : all_chars sign_or_digit (str_int z) = true.
Proof.
  destruct (str_int_shape z) as (neg & d & -> & _ & _).
  rewrite all_chars_app. apply andb_true_iff. split.
  - now destruct neg.
  - apply all_chars_impl with (p := is_digit); [| apply digits_all].
    intros c Hc. unfold sign_or_digit. now rewrite Hc.
Qed.

Lemma digits_nonempty (d : uint) :
  d <> Nil -> exists c r, NilEmpty.string_of_uint d = String c r /\ is_digit c = true.
Proof. destruct d; intros H; [contradiction | simpl; eauto..]. Qed.

Lemma parse_decimal_digits (neg : bool) (d : uint) :
  d <> Nil ->
  parse_decimal ((if neg then "-" else "") +:+ NilEmpty.string_of_uint d)
  = Some (NInt (signed neg (Z.of_uint d))).
Proof.
  intros Hd. destruct (digits_nonempty d Hd) as (c & r & Hs & Hc).
  unfold parse_decimal.
  assert (Hsign : parse_sign ((if neg then "-" else "") +:+ NilEmpty.string_of_uint d)
                  = (neg, NilEmpty.string_of_uint d)).
  { destruct neg; [reflexivity |]. simpl. rewrite Hs.
    destruct c as [[|] [|] [|] [|] [|] [|] [|] [|]]; try discriminate; reflexivity. }
  rewrite Hsign, (span_all _ _ (digits_all d)).
  rewrite Hs at 1. cbn [String.length Nat.add Nat.eqb].
  rewrite append_nil_r, digits_value_uint. reflexivity.
Qed.

Lemma digits_acc_app (a b : string) :
  forall acc, digits_acc acc (a +:+ b) = digits_acc (digits_acc acc a) b.
Proof. induction a as [|c a IH]; intros acc; simpl; [reflexivity | apply IH]. Qed.

Lemma digits_acc_zeros (k : nat) :
  forall acc, digits_acc acc (zeros k) = acc * 10 ^ Z.of_nat k.
Proof.
  induction k as [|k IH]; intros acc.
  - simpl. lia.
  - change (zeros (S k)) with (String "0" (zeros k)). cbn [digits_acc].
    rewrite IH, Nat2Z.inj_succ, Z.pow_succ_r by lia.
    change (digit_value "0") with 0. ring.
Qed.

Lemma digits_of_value (m : Z) : digits_value (digits_of m) = Z.abs m.
Proof.
  unfold digits_of. rewrite digits_value_uint. unfold Z.of_uint.
  change (Pos.of_uint (N.to_uint (Z.abs_N m))) with (N.of_uint (N.to_uint (Z.abs_N m))).
  rewrite DecimalN.Unsigned.of_to. apply N2Z.inj_abs_N.
Qed.

Lemma digits_of_digits (m : Z) : all_chars is_digit (digits_of m) = true.
Proof. apply digits_all. Qed.

Lemma digits_of_nonempty (m : Z) : m <> 0 -> (0 < String.length (digits_of m))%nat.
Proof.
  intros Hm. unfold digits_of.
  destruct (Z.abs_N m) as [|p] eqn:Hp; [lia |]. simpl.
  pose proof (DecimalPos.Unsigned.to_uint_nonnil p).
  destruct (Pos.to_uint p); [contradiction | simpl; lia ..].
Qed.

Lemma strip10_keeps (fuel : nat) (m e : Z) :
  m mod 10 <> 0 -> strip10 fuel m e = (m, e).
Proof.
  intros H. destruct fuel; simpl; [reflexivity |].
  destruct (Z.eqb_spec (m mod 10) 0); [contradiction | reflexivity].
Qed.

Lemma strip10_pow (k : nat) :
  forall fuel m e, m mod 10 <> 0 -> (k <= fuel)%nat ->
  strip10 fuel (m * 10 ^ Z.of_nat k) e = (m, e + Z.of_nat k).
Proof.
  induction k as [|k IH]; intros fuel m e Hm Hk.
  - simpl. rewrite Z.mul_1_r, Z.add_0_r. now apply strip10_keeps.
  - destruct fuel as [|fuel]; [lia |]. cbn [strip10].
    rewrite Nat2Z.inj_succ, Z.pow_succ_r by lia.
    replace (m * (10 * 10 ^ Z.of_nat k)) with (m * 10 ^ Z.of_nat k * 10) by ring.
    rewrite Z.mod_mul, Z.div_mul by lia. simpl.
    rewrite IH by (assumption || lia). f_equal. lia.
Qed.

Lemma strip10_complete (fuel : nat) :
  forall m e m' e', m <> 0 -> Z.abs m < 2 ^ Z.of_nat (S fuel) ->
  strip10 fuel m e = (m', e') -> m' mod 10 <> 0.
Proof.
  induction fuel as [|fuel IH]; intros m e m' e' Hm Hlt; cbn [strip10].
  - intros [= <- <-]. change (2 ^ Z.of_nat 1) with 2 in Hlt.
    assert (m = 1 \/ m = -1) as [-> | ->] by lia; discriminate.
  - destruct (Z.eqb_spec (m mod 10) 0) as [Hmod | Hmod].
    + pose proof (Z.div_mod m 10 ltac:(lia)) as Hdm. rewrite Hmod in Hdm.
      apply IH; [lia |].
      rewrite (Nat2Z.inj_succ (S fuel)), Z.pow_succ_r in Hlt by lia. lia.
    + now intros [= <- <-].
Qed.

Lemma mk_fin_normal (m e : Z) : normal (mk_fin m e).
Proof.
  unfold mk_fin. destruct (Z.eqb_spec m 0) as [-> | Hm]; [left; split; reflexivity |].
  destruct (strip10 _ m e) as [m' e'] eqn:Hs. right.
  eapply strip10_complete; [exact Hm | | exact Hs].
  rewrite Nat2Z.inj_succ, Z2Nat.id by apply Z.log2_nonneg.
  apply Z.log2_spec. lia.
Qed.

Lemma mk_fin_keeps (m e : Z) : m mod 10 <> 0 -> mk_fin m e = FFin m e.
Proof.
  intros H. unfold mk_fin.
  destruct (Z.eqb_spec m 0) as [-> | _]; [now rewrite Z.mod_0_l in H |].
  now rewrite strip10_keeps.
Qed.

Lemma mk_fin_pow (m e : Z) (k : nat) :
  m mod 10 <> 0 -> mk_fin (m * 10 ^ Z.of_nat k) e = FFin m (e + Z.of_nat k).
Proof.
  intros H. unfold mk_fin.
  assert (Hm : m <> 0) by (intros ->; now rewrite Z.mod_0_l in H).
  assert (Hp : 0 < 10 ^ Z.of_nat k) by (apply Z.pow_pos_nonneg; lia).
  destruct (Z.eqb_spec (m * 10 ^ Z.of_nat k) 0) as [H0 | _]; [nia |].
  rewrite strip10_pow; [reflexivity | exact H |].
  apply Nat2Z.inj_le. rewrite Z2Nat.id by apply Z.log2_nonneg.
  rewrite <- (Z.log2_pow2 (Z.of_nat k)) at 1 by lia.
  apply Z.log2_le_mono.
  assert (2 ^ Z.of_nat k <= 10 ^ Z.of_nat k) by (apply Z.pow_le_mono_l; lia).
  rewrite Z.abs_mul, (Z.abs_eq (10 ^ _)) by lia. nia.
Qed.

Lemma parse_sign_digit (c : ascii) (r : string) :
  (is_digit c || Ascii.eqb c ".") = true -> parse_sign (String c r) = (false, String c r).
Proof.
  destruct c as [[|] [|] [|] [|] [|] [|] [|] [|]]; try discriminate; reflexivity.
Qed.

Lemma parse_decimal_point (neg : bool) (ip fp : string) :
  all_chars is_digit ip = true -> all_chars is_digit fp = true ->
  (String.length ip + String.length fp)%nat <> 0%nat ->
  parse_decimal ((if neg then "-" else "") +:+ ip +:+ "." +:+ fp)
  = Some (NFloat (mk_fin (signed neg (digits_value (ip +:+ fp)))
                         (- Z.of_nat (String.length fp)))).
Proof.
  intros Hip Hfp Hlen. unfold parse_decimal.
  assert (Hsign : parse_sign ((if neg then "-" else "") +:+ ip +:+ "." +:+ fp)
                  = (neg, ip +:+ "." +:+ fp)).
  { destruct neg; [reflexivity |]. cbn [String.append].
    destruct ip as [|c ip]; cbn [String.append].
    - reflexivity.
    - apply parse_sign_digit. simpl in Hip. apply andb_true_iff in Hip as [-> _]. reflexivity. }
  rewrite Hsign.
  change ("." +:+ fp) with (String "." fp).
  rewrite (span_stop is_digit ip "." fp Hip eq_refl).
  rewrite (span_all _ _ Hfp).
  destruct (Nat.eqb_spec (String.length ip + String.length fp) 0); [contradiction |].
  reflexivity.
Qed.

Lemma repr_shape (m e : Z) :
  normal (FFin m e) -> positional (FFin m e) = true ->
  exists ip fp,
    repr (FFin m e) = (if m <? 0 then "-" else "") +:+ ip +:+ "." +:+ fp /\
    all_chars is_digit ip = true /\ all_chars is_digit fp = true /\
    (String.length ip + String.length fp)%nat <> 0%nat /\
    mk_fin (signed (m <? 0) (digits_value (ip +:+ fp))) (- Z.of_nat (String.length fp))
    = FFin m e.
Proof.
  intros Hn Hp. cbn [normal positional repr] in *.
  destruct (Z.eqb_spec m 0) as [-> | Hm].
  - destruct Hn as [[_ ->] | Hn]; [| now rewrite Z.mod_0_l in Hn].
    exists "0", "0". repeat split; discriminate.
  - destruct Hn as [[Hn _] | Hn]; [contradiction |].
    simpl in Hp. rewrite Hp.
    apply andb_true_iff in Hp as [Hlo Hhi].
    apply Z.ltb_lt in Hlo. apply Z.leb_le in Hhi.
    pose proof (digits_of_value m) as Hv.
    pose proof (digits_of_digits m) as Hd.
    pose proof (digits_of_nonempty m Hm) as Hlen.
    unfold decimal_point in *.
    set (ds := digits_of m) in *.
    assert (Hsg : signed (m <? 0) (Z.abs m) = m).
    { unfold signed. destruct (Z.ltb_spec m 0); lia. }
    destruct (Z.leb_spec (Z.of_nat (String.length ds) + e) 0) as [Hle | Hgt].
    + exists "0", (zeros (Z.to_nat (- (Z.of_nat (String.length ds) + e))) +:+ ds).
      split; [reflexivity |]. split; [reflexivity |].
      split; [rewrite all_chars_app, zeros_digits, Hd; reflexivity |].
      split; [simpl; lia |].
      rewrite length_append, length_zeros.
      cbn [String.append]. unfold digits_value. cbn [digits_acc].
      rewrite digits_acc_app, digits_acc_zeros.
      change (10 * 0 + digit_value "0") with 0. rewrite Z.mul_0_l.
      fold (digits_value ds). rewrite Hv, Hsg, mk_fin_keeps by exact Hn.
      f_equal. lia.
    + destruct (Z.ltb_spec (Z.of_nat (String.length ds) + e) (Z.of_nat (String.length ds)))
        as [Hin | Hout].
      * set (k := Z.to_nat (Z.of_nat (String.length ds) + e)).
        assert (Hk : (k <= String.length ds)%nat) by (unfold k; lia).
        replace (Z.to_nat (Z.of_nat (String.length ds) - (Z.of_nat (String.length ds) + e)))
          with (String.length ds - k)%nat by (unfold k; lia).
        pose proof (substring_split k ds Hk) as Hsplit.
        pose proof (substring_length k ds Hk) as Hlk.
        set (a := substring 0 k ds) in *.
        set (b := substring k (String.length ds - k) ds) in *.
        assert (Hab : all_chars is_digit a && all_chars is_digit b = true)
          by (rewrite <- all_chars_app, Hsplit; exact Hd).
        apply andb_true_iff in Hab as [Ha Hb].
        assert (Hlb : String.length b = (String.length ds - k)%nat).
        { pose proof (length_append a b) as Hl. rewrite Hsplit, Hlk in Hl. lia. }
        exists a, b. split; [reflexivity |]. split; [exact Ha |]. split; [exact Hb |].
        split; [lia |].
        rewrite Hsplit, Hv, Hsg, mk_fin_keeps, Hlb by exact Hn.
        f_equal. unfold k. lia.
      * exists (ds +:+ zeros (Z.to_nat (Z.of_nat (String.length ds) + e - Z.of_nat (String.length ds)))), "0".
        split; [now rewrite !append_assoc |].
        split; [rewrite all_chars_app, zeros_digits, Hd; reflexivity |].
        split; [reflexivity |].
        split; [simpl; lia |].
        rewrite append_assoc. unfold digits_value.
        rewrite !digits_acc_app, digits_acc_zeros. fold (digits_value ds). rewrite Hv.
        cbn [digits_acc String.length]. change (digit_value "0") with 0.
        set (j := Z.to_nat (Z.of_nat (String.length ds) + e - Z.of_nat (String.length ds))).
        replace (signed (m <? 0) (10 * (Z.abs m * 10 ^ Z.of_nat j) + 0))
          with (m * 10 ^ Z.of_nat (S j)).
        2:{ rewrite Nat2Z.inj_succ, Z.pow_succ_r by lia.
            rewrite <- Hsg at 1. unfold signed. destruct (m <? 0); ring. }
        rewrite mk_fin_pow by exact Hn. f_equal. unfold j. lia.
Qed.

Lemma repr_chars (m e : Z) :
  normal (FFin m e) -> positional (FFin m e) = true ->
  all_chars (fun c => is_digit c || Ascii.eqb c "." || Ascii.eqb c "-") (repr (FFin m e)) = true.
Proof.
  intros Hn Hp. destruct (repr_shape m e Hn Hp) as (ip & fp & -> & Hip & Hfp & _).
  rewrite !all_chars_app.
  rewrite (all_chars_impl is_digit _ ip), (all_chars_impl is_digit _ fp);
    try assumption; try (intros c ->; reflexivity).
  now destruct (m <? 0).
Qed.

(** *** Rounding to binary64 *)

Lemma log2_ratio_one (a : Z) : 0 < a -> log2_ratio a 1 = Z.log2 a.
Proof.
  intros Ha. unfold log2_ratio. change (Z.log2 1) with 0. rewrite Z.sub_0_r.
  pose proof (Z.log2_nonneg a) as Hl.
  pose proof (Z.log2_spec a Ha) as [Hlo _].
  rewrite Z.max_l, Z.max_r by lia. rewrite Z.pow_0_r, Z.mul_1_r, Z.mul_1_l.
  destruct (Z.ltb_spec a (2 ^ Z.log2 a)); [lia | reflexivity].
Qed.

(** An integer of at most 53 bits is its own nearest binary64. *)
Lemma nearest64_exact (a : Z) :
  0 < a <= 2 ^ 53 ->
  exists q x,
    nearest64 a 1 = Some (q, x) /\ - 52 <= x <= 1 /\
    q * 2 ^ Z.max 0 x = a * 2 ^ Z.max 0 (- x).
Proof.
  intros [Ha Hb]. unfold nearest64.
  destruct (Z.eqb_spec a 0) as [-> | _]; [lia |].
  rewrite log2_ratio_one by exact Ha.
  pose proof (Z.log2_nonneg a) as Hl.
  assert (Hl53 : Z.log2 a <= 53).
  { change 53 with (Z.log2 (2 ^ 53)). now apply Z.log2_le_mono. }
  rewrite (Z.max_l (Z.log2 a - 52) (-1074)) by lia.
  set (x := Z.log2 a - 52).
  destruct (Z.le_gt_cases x 0) as [Hx | Hx].
  - rewrite (Z.max_l 0 x), (Z.max_r 0 (- x)) by lia.
    rewrite Z.pow_0_r, Z.mul_1_l, Z.div_1_r, Z.mod_1_r.
    rewrite Z.mul_0_r. change (1 <? 0) with false. change (1 =? 0) with false.
    cbn [orb andb].
    assert (Hq : a * 2 ^ (- x) < 2 ^ 1024).
    { assert (2 ^ (- x) <= 2 ^ 52) by (apply Z.pow_le_mono_r; lia).
      assert (0 < 2 ^ (- x)) by (apply Z.pow_pos_nonneg; lia).
      assert (2 ^ 53 * 2 ^ 52 < 2 ^ 1024) by (vm_compute; reflexivity). nia. }
    rewrite Z.mul_1_r.
    destruct (Z.leb_spec (2 ^ 1024) (a * 2 ^ (- x))); [lia |].
    exists (a * 2 ^ (- x)), x.
    split; [reflexivity |]. split; [unfold x; lia |].
    rewrite (Z.max_l 0 x), (Z.max_r 0 (- x)) by lia. rewrite Z.pow_0_r. ring.
  - assert (Hx1 : x = 1) by lia.
    assert (Ha53 : a = 2 ^ 53).
    { pose proof (Z.log2_spec a Ha) as [Hlo _].
      replace (Z.log2 a) with 53 in Hlo by lia. lia. }
    rewrite Hx1, Ha53. exists (2 ^ 52), 1. vm_compute. repeat split; discriminate.
Qed.

Lemma signed_abs (z : Z) : signed (z <? 0) (Z.abs z) = z.
Proof. unfold signed. destruct (Z.ltb_spec z 0); lia. Qed.

(** [float(z)] is exact up to 2^53. *)
Lemma binary64_of_int (z : Z) : Z.abs z <= 2 ^ 53 -> binary64 (of_int z) = of_int z.
Proof.
  intros Hz.
  destruct (Z.eq_dec z 0) as [-> | Hnz]; [reflexivity |].
  destruct (of_int_value z) as (m & e & Hof & He & Hval).
  pose proof (mk_fin_normal z 0) as Hn. fold (of_int z) in Hn. rewrite Hof in Hn.
  cbn [normal] in Hn. destruct Hn as [[-> _] | Hmod]; [lia |].
  rewrite Hof. cbn [binary64].
  rewrite (Z.max_r 0 e), (Z.max_l 0 (- e)) by lia. rewrite Z.pow_0_r.
  assert (Hp : 0 < 10 ^ e) by (apply Z.pow_pos_nonneg; lia).
  assert (Habs : Z.abs m * 10 ^ e = Z.abs z) by (rewrite Hval, Z.abs_mul; f_equal; lia).
  assert (Hsign : (m <? 0) = (z <? 0)).
  { destruct (Z.ltb_spec m 0), (Z.ltb_spec z 0); try reflexivity; nia. }
  rewrite Habs, Hsign.
  destruct (nearest64_exact (Z.abs z)) as (q & x & -> & Hx & Hq); [lia |].
  unfold of_binary. destruct (Z.leb_spec 0 x) as [Hx0 | Hx0].
  - rewrite (Z.max_r 0 x), (Z.max_l 0 (- x)) in Hq by lia.
    rewrite Z.pow_0_r, Z.mul_1_r in Hq. rewrite Hq, signed_abs.
    fold (of_int z). exact Hof.
  - rewrite (Z.max_l 0 x), (Z.max_r 0 (- x)) in Hq by lia.
    rewrite Z.pow_0_r, Z.mul_1_r in Hq. rewrite Hq.
    assert (H10 : 0 < 10 ^ (- x)) by (apply Z.pow_pos_nonneg; lia).
    replace (Z.abs z * 2 ^ (- x) * 5 ^ (- x)) with (Z.abs (z * 10 ^ (- x)))
      by (rewrite Z.abs_mul, (Z.abs_eq (10 ^ (- x))) by lia;
          change 10 with (2 * 5); rewrite Z.pow_mul_l; ring).
    replace (z <? 0) with (z * 10 ^ (- x) <? 0)
      by (destruct (Z.ltb_spec (z * 10 ^ (- x)) 0), (Z.ltb_spec z 0); try reflexivity; nia).
    rewrite signed_abs.
    replace (z * 10 ^ (- x)) with (m * 10 ^ Z.of_nat (Z.to_nat (e - x))).
    + rewrite mk_fin_pow by exact Hmod. f_equal. lia.
    + rewrite Z2Nat.id by lia. replace (e - x) with (e + - x) by lia.
      rewrite Z.pow_add_r by lia. rewrite Hval. ring.
Qed.

Lemma binary64_normal (f : float64) : normal f -> normal (binary64 f).
Proof.
  destruct f as [| neg | m e]; cbn [binary64]; try (intros; exact I).
  intros _. destruct (nearest64 _ _) as [[q x]|]; [| exact I].
  unfold of_binary. destruct (0 <=? x); apply mk_fin_normal.
Qed.

(** A decimal integer of magnitude 2^1024 or more is read as an infinity. *)
Lemma binary64_overflow (m e : Z) :
  0 <= e -> 2 ^ 1024 <= Z.abs m * 10 ^ e -> binary64 (FFin m e) = FInf (m <? 0).
Proof.
  intros He Hbig. cbn [binary64].
  rewrite (Z.max_r 0 e), (Z.max_l 0 (- e)) by lia. rewrite Z.pow_0_r.
  set (a := Z.abs m * 10 ^ e) in *.
  assert (H1024 : 0 < 2 ^ 1024) by (apply Z.pow_pos_nonneg; lia).
  assert (Ha : 0 < a) by lia.
  unfold nearest64. destruct (Z.eqb_spec a 0); [lia |].
  rewrite log2_ratio_one by exact Ha.
  assert (Hl : 1024 <= Z.log2 a).
  { change 1024 with (Z.log2 (2 ^ 1024)). now apply Z.log2_le_mono. }
  rewrite (Z.max_l (Z.log2 a - 52) (-1074)) by lia.
  set (x := Z.log2 a - 52).
  rewrite (Z.max_r 0 x), (Z.max_l 0 (- x)) by lia.
  rewrite Z.pow_0_r, Z.mul_1_r, Z.mul_1_l.
  assert (Hk : 0 < 2 ^ x) by (apply Z.pow_pos_nonneg; lia).
  assert (Hq : 2 ^ 52 <= a / 2 ^ x).
  { apply Z.div_le_lower_bound; [exact Hk |].
    rewrite Z.mul_comm, <- Z.pow_add_r by lia.
    replace (52 + x) with (Z.log2 a) by lia. apply Z.log2_spec. exact Ha. }
  match goal with |- context [if ?c then a / 2 ^ x + 1 else a / 2 ^ x] =>
    set (q' := if c then a / 2 ^ x + 1 else a / 2 ^ x) end.
  assert (Hq' : 2 ^ 52 <= q') by (unfold q'; destruct (_ || _); lia).
  assert (Hbig' : 2 ^ 1024 <= q' * 2 ^ x).
  { assert (2 ^ 1024 <= 2 ^ 52 * 2 ^ x).
    { rewrite <- Z.pow_add_r by lia. apply Z.pow_le_mono_r; lia. }
    nia. }
  destruct (Z.leb_spec (2 ^ 1024) (q' * 2 ^ x)); [reflexivity | lia].
Qed.

End NumFacts.

(** ** Frames *)

Module FrameFacts.
Import Py PyFacts Num Pandas Cin7.

Lemma mem_string_spec (x : string) (l : list string) : mem_string x l = true <-> In x l.
Proof.
  unfold mem_string. rewrite existsb_exists. split.
  - intros (y & Hin & Heq). apply String.eqb_eq in Heq. now subst.
  - intros Hin. exists x. split; [exact Hin | apply String.eqb_refl].
Qed.

Lemma reindex_length (n : nat) (s : Series) : length (reindex n s) = n.
Proof. unfold reindex. rewrite length_take, length_app, repeat_length. lia. Qed.

Lemma reindex_same (n : nat) (s : Series) : length s = n -> reindex n s = s.
Proof.
  intros <-. unfold reindex. rewrite Nat.sub_diag. simpl.
  rewrite app_nil_r. apply firstn_all.
Qed.

Lemma set_column_labels (l : string) (s : Series) (cols : list (string * Series)) :
  map fst (set_column l s cols) =
  if mem_string l (map fst cols) then map fst cols else map fst cols ++ [l].
Proof.
  induction cols as [|[x t] cols IH]; [reflexivity |].
  cbn [set_column map fst]. unfold mem_string. cbn [existsb].
  rewrite (String.eqb_sym l x).
  destruct (String.eqb x l); [reflexivity |].
  cbn [map fst orb]. rewrite IH. unfold mem_string.
  now destruct (existsb (String.eqb l) (map fst cols)).
Qed.

Lemma set_column_other (l l' : string) (s : Series) (cols : list (string * Series)) :
  l <> l' ->
  List.filter (fun c => String.eqb (fst c) l') (set_column l s cols) =
  List.filter (fun c => String.eqb (fst c) l') cols.
Proof.
  intros Hne. induction cols as [|[x t] cols IH]; simpl.
  - destruct (String.eqb_spec l l'); [contradiction | reflexivity].
  - destruct (String.eqb_spec x l) as [-> | Hx]; simpl.
    + destruct (String.eqb_spec l l'); [contradiction | reflexivity].
    + now rewrite IH.
Qed.

Lemma set_column_lengths (n : nat) (l : string) (s : Series) (cols : list (string * Series)) :
  length s = n ->
  Forall (fun c => length (snd c) = n) cols ->
  Forall (fun c => length (snd c) = n) (set_column l s cols).
Proof.
  intros Hs. induction 1 as [|[x t] cols Hx Hcols IH]; simpl.
  - now repeat constructor.
  - destruct (String.eqb x l); constructor; auto.
Qed.

Lemma set_column_nodup (l : string) (s : Series) (cols : list (string * Series)) :
  List.NoDup (map fst cols) -> List.NoDup (map fst (set_column l s cols)).
Proof.
  intros Hnd. rewrite set_column_labels.
  destruct (mem_string l (map fst cols)) eqn:Hmem; [exact Hnd |].
  apply NoDup_ListNoDup, NoDup_app. repeat split.
  - now apply NoDup_ListNoDup.
  - intros x Hx Hx'. apply list_elem_of_In in Hx. apply list_elem_of_In in Hx'.
    destruct Hx' as [<- | []].
    assert (mem_string l (map fst cols) = true) by (now apply mem_string_spec).
    congruence.
  - apply NoDup_ListNoDup. repeat constructor. intros [].
Qed.

Lemma setitem_scalar_wf (m : DataFrame) (l : string) (v : cell) :
  well_formed m -> well_formed (setitem_scalar m l v).
Proof.
  intros [Hrect Hnd]. split.
  - unfold rectangular, setitem_scalar. simpl.
    apply set_column_lengths; [apply repeat_length | exact Hrect].
  - apply set_column_nodup. exact Hnd.
Qed.

Lemma setitem_series_wf (m : DataFrame) (l : string) (s : Series) :
  well_formed m -> well_formed (setitem_series m l s).
Proof.
  intros [Hrect Hnd]. unfold setitem_series.
  destruct ((index_len m =? 0)%nat && negb (length s =? 0)%nat); simpl; split.
  - unfold rectangular. simpl.
    apply set_column_lengths; [apply reindex_length |].
    apply Forall_map. apply List.Forall_forall. intros c _. apply reindex_length.
  - unfold labels. simpl. apply set_column_nodup. rewrite map_map. exact Hnd.
  - unfold rectangular. simpl.
    apply set_column_lengths; [apply reindex_length | exact Hrect].
  - apply set_column_nodup. exact Hnd.
Qed.

Lemma set_column_keeps (l x : string) (s : Series) (cols : list (string * Series)) :
  In x (map fst cols) \/ x = l -> In x (map fst (set_column l s cols)).
Proof.
  rewrite set_column_labels.
  destruct (mem_string l (map fst cols)) eqn:Hmem.
  - intros [H | ->]; [exact H | now apply mem_string_spec].
  - rewrite in_app_iff. simpl. intuition.
Qed.

Lemma setitem_scalar_labels (m : DataFrame) (l x : string) (v : cell) :
  In x (labels m) \/ x = l -> In x (labels (setitem_scalar m l v)).
Proof. apply set_column_keeps. Qed.

Lemma setitem_series_labels (m : DataFrame) (l x : string) (s : Series) :
  In x (labels m) \/ x = l -> In x (labels (setitem_series m l s)).
Proof.
  intros H. unfold setitem_series, labels.
  destruct ((index_len m =? 0)%nat && negb (length s =? 0)%nat); simpl;
    apply set_column_keeps; [rewrite map_map |]; exact H.
Qed.

Lemma getitem_unique (m : DataFrame) (l : string) :
  well_formed m -> In l (labels m) ->
  exists s, getitem m l = OneColumn s /\ length s = index_len m.
Proof.
  intros [Hrect Hnd] Hin. unfold getitem, labels, rectangular in *.
  induction (columns m) as [|[x t] cols IH]; simpl in *; [contradiction |].
  inversion Hnd as [|? ? Hnotin Hnd']; subst.
  inversion Hrect as [|? ? Hx Hrect']; subst. simpl in Hx.
  destruct (String.eqb_spec x l) as [-> | Hne].
  - exists t. split; [| exact Hx].
    replace (List.filter (fun c : string * Series => String.eqb (fst c) l) cols) with
      (@nil (string * Series)); [reflexivity |].
    clear -Hnotin. induction cols as [|[y u] cols IH]; simpl in *; [reflexivity |].
    destruct (String.eqb_spec y l) as [-> | _]; [tauto | apply IH; tauto].
  - destruct Hin as [-> | Hin]; [contradiction |]. now apply IH.
Qed.

Lemma setitem_series_aligned (m : DataFrame) (l : string) (s : Series) :
  length s = index_len m ->
  setitem_series m l s = mkFrame (index_len m) (set_column l s (columns m)).
Proof.
  intros Hlen. unfold setitem_series.
  destruct (Nat.eqb_spec (index_len m) 0) as [Hz | Hnz]; simpl.
  - destruct (Nat.eqb_spec (length s) 0) as [_ | Hs]; [| lia]. simpl.
    now rewrite reindex_same.
  - now rewrite reindex_same.
Qed.

Lemma getitem_set_column_other (n n' : nat) (l l' : string) (s : Series)
  (cols : list (string * Series)) :
  l <> l' ->
  getitem (mkFrame n (set_column l s cols)) l' = getitem (mkFrame n' cols) l'.
Proof. intros H. unfold getitem. simpl. now rewrite set_column_other. Qed.

Lemma zip_with_map2 {A B A' B' C} (f : A' -> B' -> C) (g : A -> A') (h : B -> B')
  (a : list A) (b : list B) :
  zip_with f (map g a) (map h b) = zip_with (fun x y => f (g x) (h y)) a b.
Proof.
  revert b. induction a as [|x a IH]; intros [|y b]; simpl; try reflexivity.
  now rewrite IH.
Qed.

Lemma zip_with_ext_in {A B C} (f g : A -> B -> C) (a : list A) (b : list B) :
  (forall x y, In x a -> In y b -> f x y = g x y) ->
  zip_with f a b = zip_with g a b.
Proof.
  revert b. induction a as [|x a IH]; intros [|y b] H; simpl; try reflexivity.
  rewrite (H x y) by (now left). f_equal. apply IH.
  intros x' y' Hx Hy. apply H; now right.
Qed.

Lemma map_zip_with {A B C D} (g : C -> D) (f : A -> B -> C) (a : list A) (b : list B) :
  map g (zip_with f a b) = zip_with (fun x y => g (f x y)) a b.
Proof.
  revert b. induction a as [|x a IH]; intros [|y b]; simpl; try reflexivity.
  now rewrite IH.
Qed.

Lemma forallb_zip_with {A B C} (t : C -> bool) (f : A -> B -> C) (a : list A) (b : list B) :
  forallb t (zip_with f a b) = forallb (fun p => t (f (fst p) (snd p))) (zip a b).
Proof.
  revert b. induction a as [|x a IH]; intros [|y b]; simpl; try reflexivity.
  now rewrite IH.
Qed.

End FrameFacts.

(** ** Header reconciliation *)

Module HeaderFacts.
Import Py PyFacts Cin7.

Example flat_label_outer_inner : flat_label ("4", "SOH") = "4_SOH".
Proof. reflexivity. Qed.

Example flat_label_inner_only : flat_label ("", "SOH") = "SOH".
Proof. reflexivity. Qed.

Example flat_label_equal : flat_label ("SOH", "SOH") = "SOH".
Proof. reflexivity. Qed.

Lemma joined_label_fixed (outer inner : string) :
  truthy outer = true -> truthy inner = true ->
  is_prefix "_" outer = false -> is_prefix "_" (reverse inner) = false ->
  strip_chars "_" (outer +:+ "_" +:+ inner) = outer +:+ "_" +:+ inner.
Proof.
  intros Ho Hi Hpo Hpi.
  destruct outer as [|a u]; [discriminate |].
  destruct (reverse inner) as [|b v] eqn:Hrev.
  - apply (f_equal reverse) in Hrev. rewrite reverse_involutive in Hrev.
    subst inner. discriminate.
  - unfold strip_chars.
    apply (strip_by_fixed _ _ a b (u +:+ "_" +:+ inner) (v +:+ reverse (String a u +:+ "_"))).
    + reflexivity.
    + change (String a u +:+ "_" +:+ inner) with (String a (u +:+ "_" +:+ inner)).
      replace (String a (u +:+ "_" +:+ inner)) with ((String a u +:+ "_") +:+ inner)
        by (simpl; now rewrite append_assoc).
      rewrite reverse_app, Hrev. reflexivity.
    + now apply is_prefix_underscore with (s := u).
    + now apply is_prefix_underscore with (s := v).
Qed.

(** C2, as the code has it, for labels of ASCII characters (beyond them
    the trimming of Python also takes the white space of Unicode).  When both
    components are non-empty (as given, before trimming) and differ after
    trimming, the flat label is [outer_inner] with leading and trailing
    underscores removed, which is [outer_inner] itself when [outer] does not
    start and [inner] does not end with an underscore; in every other case
    it is [inner] trimmed when [inner] is non-empty, and [outer] trimmed
    otherwise.  Trimming takes away the longest run of white space at each
    end and nothing else, and removing underscores does the same with the
    underscores of each end. *)
Theorem flat_label_reconciled (outer inner : string) :
  is_ascii outer = true -> is_ascii inner = true ->
  ((truthy outer = true -> truthy inner = true -> strip outer <> strip inner ->
      flat_label (outer, inner) = strip_chars "_" (outer +:+ "_" +:+ inner) /\
      (is_prefix "_" outer = false -> is_prefix "_" (reverse inner) = false ->
         flat_label (outer, inner) = outer +:+ "_" +:+ inner)) /\
   (truthy outer = false \/ truthy inner = false \/ strip outer = strip inner ->
      flat_label (outer, inner) = strip (if truthy inner then inner else outer))) /\
  (forall s, exists a b,
     s = a +:+ strip s +:+ b /\
     all_chars is_space a = true /\ all_chars is_space b = true /\
     (forall c r, strip s = String c r -> is_space c = false) /\
     (forall c r, reverse (strip s) = String c r -> is_space c = false)) /\
  (forall s, exists a b,
     s = a +:+ strip_chars "_" s +:+ b /\
     all_chars (Ascii.eqb "_") a = true /\ all_chars (Ascii.eqb "_") b = true /\
     (forall c r, strip_chars "_" s = String c r -> c <> "_"%char) /\
     (forall c r, reverse (strip_chars "_" s) = String c r -> c <> "_"%char)).
Proof.
  intros _ _. split; [split |].
  - intros Ho Hi Hne.
    assert (Hlab : flat_label (outer, inner) = strip_chars "_" (outer +:+ "_" +:+ inner)).
    { unfold flat_label. rewrite Ho, Hi. simpl.
      destruct (String.eqb_spec (strip outer) (strip inner)) as [Heq | _]; [contradiction |].
      reflexivity. }
    split; [exact Hlab |].
    intros Hpo Hpi. rewrite Hlab. now apply joined_label_fixed.
  - intros H. unfold flat_label.
    destruct (truthy outer) eqn:Ho; [| reflexivity].
    destruct (truthy inner) eqn:Hi; [| reflexivity].
    destruct H as [H | [H | H]]; try discriminate.
    simpl. rewrite H, String.eqb_refl. reflexivity.
  - split.
    + intros s. apply strip_by_spec.
    + intros s.
      destruct (strip_by_spec (fun c => mem_char c "_") s) as (a & b & Hs & Ha & Hb & Hc & Hd).
      assert (Hmem : forall c, mem_char c "_" = Ascii.eqb "_" c).
      { intros c. cbn [mem_char]. now rewrite orb_false_r, Ascii.eqb_sym. }
      assert (Hall : forall t, all_chars (fun c => mem_char c "_") t = all_chars (Ascii.eqb "_") t).
      { induction t as [|c t IH]; [reflexivity |]. cbn [all_chars]. now rewrite Hmem, IH. }
      exists a, b. unfold strip_chars. rewrite <- !Hall.
      split; [exact Hs |]. split; [exact Ha |]. split; [exact Hb |]. split.
      * intros c r Hr Heq. specialize (Hc c r Hr). subst c. discriminate.
      * intros c r Hr Heq. specialize (Hd c r Hr). subst c. discriminate.
Qed.

Lemma flat_label_reconciled_witness :
  flat_label ("4", "SOH") = "4" +:+ "_" +:+ "SOH" /\
  flat_label ("SOH", "SOH ") = "SOH".
Proof.
  split.
  - assert (Hne : strip "4" <> strip "SOH") by (vm_compute; discriminate).
    exact (proj2 (proj1 (proj1 (flat_label_reconciled "4" "SOH" eq_refl eq_refl))
                    eq_refl eq_refl Hne)
                 eq_refl eq_refl).
  - apply (proj2 (proj1 (flat_label_reconciled "SOH" "SOH " eq_refl eq_refl))).
    right. right. reflexivity.
Defined.

(** C2 as stated fails: both components are non-empty and distinct, and the
    label is not [outer_inner]. *)
Lemma flat_label_not_outer_inner :
  strip "_a" <> "" /\ strip "b" <> "" /\ strip "_a" <> strip "b" /\
  flat_label ("_a", "b") = "a_b" /\
  flat_label ("_a", "b") <> "_a" +:+ "_" +:+ "b".
Proof. vm_compute. repeat split; discriminate. Qed.

End HeaderFacts.

(** ** The column mapper *)

Module MapperFacts.
Import Py PyFacts Num NumFacts Pandas FrameFacts Cin7 Scenarios.

(** The inner loop of the mapper returns the first label, in frame order,
    that one of the patterns occurs in. *)
Lemma find_source_first (patterns : list string) (df : DataFrame) (c : string) :
  find_source patterns df = Some c <->
  exists before after,
    labels df = before ++ c :: after /\
    matches_any patterns c = true /\
    Forall (fun x => matches_any patterns x = false) before.
Proof.
  unfold find_source. generalize (labels df) as l.
  induction l as [|x l IH]; simpl.
  - split; [discriminate |]. intros (b & a & H & _). destruct b; discriminate.
  - destruct (matches_any patterns x) eqn:Hx.
    + split.
      * intros [= <-]. exists [], l. repeat split; auto.
      * intros (b & a & H & Hc & Hb). destruct b as [|y b].
        -- now injection H as -> _.
        -- injection H as -> _. inversion Hb; congruence.
    + rewrite IH. split.
      * intros (b & a & -> & Hc & Hb). exists (x :: b), a. repeat split; auto.
      * intros (b & a & H & Hc & Hb). destruct b as [|y b].
        -- injection H as -> _. congruence.
        -- injection H as -> ->. inversion Hb; subst. exists b, a. repeat split; auto.
Qed.

Lemma find_source_none (patterns : list string) (df : DataFrame) :
  find_source patterns df = None <->
  Forall (fun x => matches_any patterns x = false) (labels df).
Proof.
  unfold find_source. generalize (labels df) as l.
  induction l as [|x l IH]; simpl.
  - split; auto.
  - destruct (matches_any patterns x) eqn:Hx.
    + split; [discriminate |]. intros H. inversion H; congruence.
    + rewrite IH. split; [auto | intros H; now inversion H].
Qed.

(** C3 at a frame whose first canonical column has no source.  No label
    matches a pattern of [ProductCode], the default ["N/A"] is assigned while
    the frame being built has no index yet, and the column ends up holding
    the missing value instead of the default; [Branch], defaulted after a
    column was mapped, does hold ["N/A"]. *)
Theorem default_lost_before_first_match :
  find_source (patterns_of "ProductCode") description_only = None /\
  getitem (fst (apply_cin7_column_mapping description_only)) "ProductCode"
    = OneColumn [NaN] /\
  getitem (fst (apply_cin7_column_mapping description_only)) "Branch"
    = OneColumn [CStr "N/A"].
Proof. vm_compute. repeat split. Qed.

Lemma coerced_int (c : cell) (p : Z) : cell_num c = NInt p -> coerced c = of_int p.
Proof.
  intros H. unfold coerced, cell_float. rewrite H. simpl.
  pose proof (of_int_not_nan p). destruct (of_int p); congruence.
Qed.

Lemma available_of_ints (a b : cell) (p q : Z) :
  cell_num a = NInt p -> cell_num b = NInt q -> available_of a b = Some (p - q).
Proof.
  intros Ha Hb. unfold available_of.
  rewrite (coerced_int a p Ha), (coerced_int b q Hb).
  destruct (trunc_fsub_of_int p q) as (m & e & -> & <-). reflexivity.
Qed.

(** The numeric form of an operand column, as a map over its cells. *)
Lemma numeric_form (s : Series) :
  fillna0 (to_numeric s) =
  map (fun c => if forallb is_int (map cell_num s)
                then of_num (cell_num c) else CFloat (coerced c)) s.
Proof.
  unfold fillna0, to_numeric.
  destruct (forallb is_int (map cell_num s)) eqn:Hall; rewrite !map_map.
  - apply map_ext_in. intros c Hin. rewrite forallb_forall in Hall.
    specialize (Hall (cell_num c) (in_map _ _ _ Hin)).
    destruct (cell_num c); [reflexivity | discriminate].
  - apply map_ext. intros c. unfold coerced, cell_float.
    now destruct (to_float (cell_num c)).
Qed.

Lemma numeric_dtype_int (s : Series) :
  forallb is_cint
    (map (fun c => if forallb is_int (map cell_num s)
                   then of_num (cell_num c) else CFloat (coerced c)) s)
  = forallb is_int (map cell_num s).
Proof.
  destruct (forallb is_int (map cell_num s)) eqn:Hall.
  - rewrite forallb_forall. intros x Hx. apply in_map_iff in Hx as (c & <- & Hin).
    rewrite forallb_forall in Hall. specialize (Hall (cell_num c) (in_map _ _ _ Hin)).
    now destruct (cell_num c).
  - destruct s as [|c s]; [discriminate | reflexivity].
Qed.

Lemma cell_float_numeric (s : Series) (c : cell) :
  In c s ->
  cell_float (if forallb is_int (map cell_num s)
              then of_num (cell_num c) else CFloat (coerced c))
  = coerced c.
Proof.
  intros Hin. destruct (forallb is_int (map cell_num s)) eqn:Hall; [| reflexivity].
  rewrite forallb_forall in Hall. specialize (Hall _ (in_map cell_num _ _ Hin)).
  destruct (cell_num c) as [p|] eqn:Hp; [| discriminate].
  simpl. symmetry. now apply coerced_int.
Qed.

Lemma float_difference_spec (a b : Series) :
  option_map astype_str
    (astype_int (zip_with (fun x y => CFloat (fsub (coerced x) (coerced y))) a b))
  = if forallb has_difference (zip a b) then Some (zip_with available_cell a b) else None.
Proof.
  revert b. induction a as [|x a IH]; intros [|y b]; try reflexivity.
  specialize (IH b). unfold astype_int in *.
  cbn [zip_with forallb map zip] in *.
  unfold has_difference at 1, available_cell at 1, available_of. cbn [fst snd].
  destruct (fsub (coerced x) (coerced y)) as [| neg | m e]; cbn [is_finite andb]; try reflexivity.
  destruct (forallb _ (zip_with _ a b)); destruct (forallb has_difference (zip a b));
    simpl in *; try discriminate; try reflexivity.
  injection IH as IH. rewrite IH. reflexivity.
Qed.

Lemma available_series_spec (soh os : Series) :
  available_series soh os =
  if forallb has_difference (zip soh os)
  then Some (zip_with available_cell soh os)
  else None.
Proof.
  unfold available_series. rewrite !numeric_form. unfold sub.
  rewrite !numeric_dtype_int.
  assert (Hfloat :
    option_map astype_str
      (astype_int
         (zip_with (fun x y => CFloat (fsub (cell_float x) (cell_float y)))
            (map (fun c => if forallb is_int (map cell_num soh)
                           then of_num (cell_num c) else CFloat (coerced c)) soh)
            (map (fun c => if forallb is_int (map cell_num os)
                           then of_num (cell_num c) else CFloat (coerced c)) os)))
    = if forallb has_difference (zip soh os) then Some (zip_with available_cell soh os) else None).
  { rewrite zip_with_map2.
    rewrite (zip_with_ext_in _ (fun x y => CFloat (fsub (coerced x) (coerced y)))).
    - apply float_difference_spec.
    - intros a b Ha Hb.
      now rewrite (cell_float_numeric soh a Ha), (cell_float_numeric os b Hb). }
  destruct (forallb is_int (map cell_num soh)) eqn:H1;
    [destruct (forallb is_int (map cell_num os)) eqn:H2 |]; cbn [andb];
    try exact Hfloat.
  (* both columns are integers *)
  clear Hfloat. rewrite zip_with_map2.
  rewrite (zip_with_ext_in _ (fun a b => CInt (default 0 (available_of a b)))).
  2:{ intros a b Ha Hb. rewrite forallb_forall in H1, H2.
      specialize (H1 _ (in_map cell_num _ _ Ha)).
      specialize (H2 _ (in_map cell_num _ _ Hb)).
      destruct (cell_num a) as [p|] eqn:Hp; [| discriminate].
      destruct (cell_num b) as [q|] eqn:Hq; [| discriminate].
      simpl. now rewrite (available_of_ints a b p q Hp Hq). }
  assert (Hok : forallb has_difference (zip soh os) = true).
  { rewrite forallb_forall. intros [a b] Hin. unfold has_difference. simpl.
    rewrite forallb_forall in H1, H2.
    assert (Ha : In a soh)
      by (apply list_elem_of_In; eapply elem_of_zip_l; apply list_elem_of_In; exact Hin).
    assert (Hb : In b os)
      by (apply list_elem_of_In; eapply elem_of_zip_r; apply list_elem_of_In; exact Hin).
    specialize (H1 _ (in_map cell_num _ _ Ha)).
    specialize (H2 _ (in_map cell_num _ _ Hb)).
    destruct (cell_num a) as [p|] eqn:Hp; [| discriminate].
    destruct (cell_num b) as [q|] eqn:Hq; [| discriminate].
    now rewrite (available_of_ints a b p q Hp Hq). }
  rewrite Hok. unfold astype_int. rewrite forallb_zip_with.
  replace (forallb _ (zip soh os)) with true
    by (symmetry; apply forallb_forall; now intros [a b] _).
  simpl. f_equal. unfold astype_str. rewrite !map_zip_with. reflexivity.
Qed.

Lemma map_target_wf (df : DataFrame) (st st' : mapping_state) (entry : string * list string) :
  map_target df st entry = inl st' ->
  well_formed (mapped_df st) ->
  well_formed (mapped_df st') /\
  (forall x, In x (labels (mapped_df st)) \/ x = fst entry -> In x (labels (mapped_df st'))).
Proof.
  destruct entry as [target patterns]. unfold map_target.
  destruct (find_source patterns df) as [src|].
  - destruct (truthy src).
    + destruct (getitem df src) as [| s |]; try discriminate.
      intros [= <-] Hwf. simpl. split; [now apply setitem_series_wf |].
      intros x. apply setitem_series_labels.
    + intros [= <-] Hwf. simpl. split; [now apply setitem_scalar_wf |].
      intros x. apply setitem_scalar_labels.
  - intros [= <-] Hwf. simpl. split; [now apply setitem_scalar_wf |].
    intros x. apply setitem_scalar_labels.
Qed.

Lemma map_targets_wf (df : DataFrame) (entries : list (string * list string)) :
  forall st st',
  map_targets df entries st = inl st' ->
  well_formed (mapped_df st) ->
  well_formed (mapped_df st') /\
  (forall x, In x (labels (mapped_df st)) \/ In x (map fst entries) ->
             In x (labels (mapped_df st'))).
Proof.
  induction entries as [|entry entries IH]; intros st st'; simpl.
  - intros [= <-] Hwf. split; [exact Hwf | intros x [H | []]; exact H].
  - destruct (map_target df st entry) as [st1|lg] eqn:H1; [| discriminate].
    intros Hrest Hwf.
    destruct (map_target_wf _ _ _ _ H1 Hwf) as [Hwf1 Hl1].
    destruct (IH _ _ Hrest Hwf1) as [Hwf' Hl']. split; [exact Hwf' |].
    intros x [H | [<- | H]]; apply Hl'; auto.
Qed.

(** C1 at a stock written with a thousands separator.  The label
    ["4 - SOH"] is not one of those that the numeric cleaning takes, so the
    mapper receives the text ["1,200"]; [pd.to_numeric] does not read it, it
    counts as 0, and Available is -50 where C1 has 1150.  The whole of the
    processing gives the same column.  The cleaning pass, given the same
    text under the label [SOH], takes the separator away and reads 1200. *)
Theorem available_ignores_separator :
  let mapped := fst (apply_cin7_column_mapping separator_stock) in
  getitem mapped "SOH" = OneColumn [CStr "1,200"; CStr "abc"] /\
  getitem mapped "Open Sales" = OneColumn [CStr "50"; CStr "5"] /\
  getitem mapped "Available" = OneColumn [CStr "-50"; CStr "-5"] /\
  CStr "-50" <> CStr (str_int (1200 - 50)) /\
  (exists out log,
     process_cin7_excel_data (mkToggles false true) separator_stock None
       = (Some out, log) /\
     getitem out "SOH" = OneColumn [CStr "1,200"; CStr "abc"] /\
     getitem out "Open Sales" = OneColumn [CInt 50; CInt 5] /\
     getitem out "Available" = OneColumn [CStr "-50"; CStr "-5"]) /\
  getitem (fst (clean_numeric_data (mkFrame 2 [("SOH", [CStr "1,200"; CStr "abc"])]))) "SOH"
    = OneColumn [CInt 1200; CInt 0].
Proof.
  vm_compute.
  split; [reflexivity |]. split; [reflexivity |]. split; [reflexivity |].
  split; [discriminate |]. split; [| reflexivity].
  eexists. eexists. split; [reflexivity |]. repeat split.
Qed.

End MapperFacts.

(** ** Numeric cleaning *)

Module CleaningFacts.
Import Py PyFacts Num NumFacts Pandas FrameFacts Cin7 Scenarios.

Lemma filter_update_columns (l col : string) (f : Series -> Series)
  (cols : list (string * Series)) :
  List.filter (fun c => String.eqb (fst c) col) (update_columns l f cols) =
  if String.eqb l col
  then map (fun c => (fst c, f (snd c))) (List.filter (fun c => String.eqb (fst c) col) cols)
  else List.filter (fun c => String.eqb (fst c) col) cols.
Proof.
  unfold update_columns.
  induction cols as [|[x t] cols IH]; simpl.
  - now destruct (String.eqb l col).
  - destruct (String.eqb_spec x l) as [-> | Hxl]; simpl.
    + destruct (String.eqb l col); simpl; now rewrite IH.
    + destruct (String.eqb_spec x col) as [-> | Hxc]; simpl.
      * destruct (String.eqb_spec l col) as [-> | _]; [contradiction | now rewrite IH].
      * rewrite IH. now destruct (String.eqb l col).
Qed.

Lemma clean_column_labels (acc : DataFrame * list message) (l : string) :
  labels (fst (clean_column acc l)) = labels (fst acc) /\
  index_len (fst (clean_column acc l)) = index_len (fst acc).
Proof.
  destruct acc as [df log]. unfold clean_column.
  destruct (getitem df l); simpl; split; try reflexivity;
    unfold labels, update_columns; simpl; rewrite map_map; apply map_ext;
    intros [x t]; simpl; now destruct (String.eqb x l).
Qed.

Lemma clean_column_other (acc : DataFrame * list message) (l col : string) :
  l <> col -> getitem (fst (clean_column acc l)) col = getitem (fst acc) col.
Proof.
  intros Hne. destruct acc as [df log]. unfold clean_column.
  destruct (getitem df l); simpl; try reflexivity;
    unfold getitem; simpl; rewrite filter_update_columns;
    destruct (String.eqb_spec l col); try contradiction; reflexivity.
Qed.

Lemma clean_column_same (acc : DataFrame * list message) (col : string) (s : Series) :
  getitem (fst acc) col = OneColumn s ->
  getitem (fst (clean_column acc col)) col = OneColumn (clean_series s).
Proof.
  destruct acc as [df log]. simpl. intros H. unfold clean_column. rewrite H. simpl.
  unfold getitem in *. simpl. rewrite filter_update_columns, String.eqb_refl.
  destruct (List.filter _ (columns df)) as [|c [|c' rest]]; try discriminate.
  injection H as <-. reflexivity.
Qed.

Lemma fold_clean_column (col : string) (ls : list string) :
  NoDup ls ->
  forall acc s,
  getitem (fst acc) col = OneColumn s ->
  getitem (fst (fold_left clean_column ls acc)) col
  = OneColumn (if mem_string col ls then clean_series s else s).
Proof.
  induction 1 as [|l ls Hnotin Hnodup IH]; intros acc s Hget; simpl.
  - exact Hget.
  - destruct (String.eqb_spec col l) as [<- | Hne]; simpl.
    + rewrite (IH _ (clean_series s)) by (now apply clean_column_same).
      destruct (mem_string col ls) eqn:Hmem; [| reflexivity].
      apply mem_string_spec in Hmem. exfalso. apply Hnotin.
      now apply list_elem_of_In.
    + apply IH. rewrite clean_column_other by congruence. exact Hget.
Qed.

Lemma fold_clean_labels (ls : list string) :
  forall acc,
  labels (fst (fold_left clean_column ls acc)) = labels (fst acc) /\
  index_len (fst (fold_left clean_column ls acc)) = index_len (fst acc).
Proof.
  induction ls as [|l ls IH]; intros acc; simpl; [split; reflexivity |].
  destruct (IH (clean_column acc l)) as [-> ->]. apply clean_column_labels.
Qed.

Lemma columns_to_clean_nodup (df : DataFrame) : NoDup (columns_to_clean df).
Proof.
  unfold columns_to_clean, all_numeric_columns.
  apply NoDup_ListNoDup, List.NoDup_filter, NoDup_ListNoDup, NoDup_remove_dups.
Qed.

Lemma clean_series_numbers (s : Series) :
  Forall (fun c => match c with
                   | CInt _ => True
                   | CFloat f => f <> FNaN
                   | CStr _ => False
                   end) (clean_series s).
Proof.
  unfold clean_series.
  generalize (replace_values [""; "nan"; "None"; "null"] "0"
                (str_remove not_numeric_char (str_remove separators (astype_str s)))).
  intros t. unfold fillna0, to_numeric.
  destruct (forallb is_int (map cell_num t)) eqn:Hall.
  - rewrite !map_map. apply Forall_map. apply List.Forall_forall. intros c Hin.
    rewrite forallb_forall in Hall.
    specialize (Hall (cell_num c) (in_map _ _ _ Hin)).
    destruct (cell_num c); [exact I | discriminate].
  - rewrite !map_map. apply Forall_map. apply List.Forall_forall. intros c _.
    destruct (to_float (cell_num c)); simpl; congruence.
Qed.

Lemma parse_decimal_normal (s : string) (n : num) :
  parse_decimal s = Some n -> normal (to_float n).
Proof.
  unfold parse_decimal.
  destruct (parse_sign s) as [neg s1].
  destruct (span is_digit s1) as [ip s2].
  destruct (match s2 with
            | String "." r => let '(f, r') := span is_digit r in (true, f, r')
            | _ => (false, EmptyString, s2)
            end) as [[dot fp] s3].
  destruct (_ =? 0)%nat; [discriminate |].
  destruct s3 as [|c r].
  - destruct dot; intros [= <-]; apply mk_fin_normal.
  - destruct (is_exp_char c); [| discriminate].
    destruct (parse_sign r) as [eneg r1].
    destruct (span is_digit r1) as [ed r2].
    destruct (_ || _); [discriminate |].
    intros [= <-]. apply mk_fin_normal.
Qed.

Lemma filter_labels (col : string) (cols : list (string * Series)) :
  length (List.filter (fun c => String.eqb (fst c) col) cols)
  = length (List.filter (fun l => String.eqb l col) (map fst cols)).
Proof.
  induction cols as [|[l t] cols IH]; simpl; [reflexivity |].
  destruct (String.eqb l col); simpl; now rewrite IH.
Qed.

Lemma getitem_one_labels (df df' : DataFrame) (col : string) (s : Series) :
  labels df' = labels df ->
  getitem df' col = OneColumn s -> exists s0, getitem df col = OneColumn s0.
Proof.
  unfold labels, getitem. intros Hl Hget.
  pose proof (filter_labels col (columns df)) as H.
  pose proof (filter_labels col (columns df')) as H'.
  rewrite Hl, <- H in H'.
  destruct (List.filter _ (columns df')) as [|c' [|? ?]]; try discriminate.
  destruct (List.filter _ (columns df)) as [|c [|? ?]]; try discriminate.
  eauto.
Qed.

(** C9 at a small stock.  The text 0.00001 is cleaned to the float 1e-05.
    The pass applied to the cleaned table writes that float as ["1e-05"],
    the removal of what is neither a digit, a point nor a minus sign takes
    the exponent mark away, what is left does not parse, and the value
    becomes 0: the second pass changes what the first one gave, against C9
    and against the comment of the code that the column is kept numeric.
    The whole of the processing does the same to the cleaned table. *)
Theorem cleaning_twice_differs :
  let once := fst (clean_numeric_data small_stock) in
  let twice := fst (clean_numeric_data once) in
  getitem once "SOH" = OneColumn [CFloat (FFin 1 (-5))] /\
  cell_str (CFloat (FFin 1 (-5))) = "1e-05" /\
  getitem twice "SOH" = OneColumn [CFloat (FFin 0 0)] /\
  once <> twice /\
  fst (process_cin7_excel_data (mkToggles false false) once None) = Some twice.
Proof.
  vm_compute.
  split; [reflexivity |]. split; [reflexivity |]. split; [reflexivity |].
  split; [discriminate | reflexivity].
Qed.

End CleaningFacts.

(** ** The row filter *)

Module FilterFacts.
Import Py PyFacts Num Pandas Cin7 Scenarios.
Local Open Scope nat_scope.

Lemma rows_cons (m : nat) (cols : list (string * Series)) :
  rows (mkFrame (S m) cols) =
  map (fun c => (fst c, hd NaN (snd c))) cols ::
  rows (mkFrame m (map (fun c => (fst c, tl (snd c))) cols)).
Proof.
  unfold rows. cbn [index_len seq map]. f_equal.
  - unfold row_at. cbn [columns]. apply map_ext. intros [l s]. destruct s; reflexivity.
  - rewrite <- seq_shift, map_map. apply map_ext. intros i.
    unfold row_at. cbn [columns]. rewrite map_map. apply map_ext.
    intros [l s]. destruct s; [destruct i |]; reflexivity.
Qed.

Lemma select_rows_rows :
  forall (n : nat) (mask : list bool) (cols : list (string * Series)),
  length mask = n ->
  Forall (fun c => length (snd c) = n) cols ->
  rows (select_rows mask (mkFrame n cols)) =
  map snd (List.filter (fun p : bool * list (string * cell) => fst p)
                       (zip mask (rows (mkFrame n cols)))).
Proof.
  induction n as [|n IH]; intros mask cols Hmask Hcols.
  - destruct mask; [| discriminate]. reflexivity.
  - destruct mask as [|b mask]; [discriminate |]. injection Hmask as Hmask.
    rewrite (rows_cons n cols). cbn [zip zip_with List.filter fst].
    assert (Htl : Forall (fun c => length (snd c) = n)
                    (map (fun c => (fst c, tl (snd c))) cols)).
    { apply Forall_map. eapply Forall_impl; [exact Hcols |].
      intros [l s] H. simpl in *. destruct s; [discriminate | simpl in *; lia]. }
    specialize (IH mask _ Hmask Htl).
    unfold select_rows in *. cbn [index_len columns] in *.
    rewrite map_map in IH. cbn [fst snd] in IH.
    destruct b.
    + cbn [map snd]. rewrite <- IH. cbn [take List.filter length].
      set (k := length (List.filter (fun b : bool => b) (take n mask))).
      rewrite (map_ext_in _ (fun c : string * Series =>
                     (fst c, hd NaN (snd c) ::
                             map snd (List.filter (fun p : bool * cell => fst p)
                                                  (zip mask (tl (snd c))))))).
      * rewrite (rows_cons k). rewrite !map_map. reflexivity.
      * intros [l s] Hin. rewrite List.Forall_forall in Hcols.
        specialize (Hcols _ Hin). simpl in Hcols. destruct s; [discriminate |]. reflexivity.
    + rewrite <- IH. cbn [take List.filter length].
      f_equal. f_equal. apply map_ext_in.
      intros [l s] Hin. rewrite List.Forall_forall in Hcols.
      specialize (Hcols _ Hin). simpl in Hcols. destruct s; [discriminate |]. reflexivity.
Qed.

Lemma filter_by_mask {A} (f : A -> bool) (l : list A) :
  map snd (List.filter (fun p : bool * A => fst p) (zip (map f l) l)) = List.filter f l.
Proof.
  induction l as [|x l IH]; simpl; [reflexivity |].
  destruct (f x); simpl; now rewrite IH.
Qed.

Lemma map_nth_seq (s : Series) :
  map (fun i => nth i s NaN) (seq 0 (length s)) = s.
Proof.
  induction s as [|c s IH]; simpl; [reflexivity |].
  f_equal. rewrite <- seq_shift, map_map. exact IH.
Qed.

Lemma find_of_filter_one {A} (f : A -> bool) (l : list A) (c : A) :
  List.filter f l = [c] -> List.find f l = Some c.
Proof.
  induction l as [|x l IH]; simpl; [discriminate |].
  destruct (f x); [now intros [= ->] | exact IH].
Qed.

Lemma key_of_row_at (df : DataFrame) (col : string) (s : Series) (i : nat) :
  getitem df col = OneColumn s ->
  key_of col (row_at df i) = nth i s NaN.
Proof.
  unfold getitem, key_of, row_at. intros H.
  destruct (List.filter _ (columns df)) as [|c [|c' rest]] eqn:Hf; try discriminate.
  injection H as <-. apply find_of_filter_one in Hf.
  induction (columns df) as [|x l IH]; [discriminate |].
  cbn [map List.find fst snd] in *.
  unfold Series in *.
  destruct (String.eqb (fst x) col).
  - injection Hf as ->. reflexivity.
  - now apply IH.
Qed.

Lemma keep_cell_invalid (c : cell) : keep_cell c = negb (invalid_key c).
Proof. unfold keep_cell, invalid_key. now rewrite !negb_orb. Qed.

Lemma invalid_key_spec (s : string) :
  invalid_key (CStr s) = true <->
  s = "" \/ s = "nan" \/
  exists m, In m footer_markers /\ contains (lower m) (lower s) = true.
Proof.
  unfold invalid_key, cell_is, contains_footer_marker.
  rewrite !orb_true_iff, !String.eqb_eq, existsb_exists. tauto.
Qed.

(** The key in the last row of [footer_frame] is not empty, is not ["nan"]
    and is none of the markers, whatever the case; it has [total] in it, and
    the filter removes its row. *)
Lemma footer_substring_is_removed :
  let key := CStr "Subtotal-7" in
  In [("ProductCode", key); ("SOH", CInt 4)] (rows footer_frame) /\
  find_product_code_col footer_frame = Some "ProductCode" /\
  cell_is key "" = false /\
  cell_is key "nan" = false /\
  is_footer_marker "Subtotal-7" = false /\
  exists out log,
    remove_invalid_rows footer_frame = Some (out, log) /\
    ~ In [("ProductCode", key); ("SOH", CInt 4)] (rows out).
Proof.
  vm_compute.
  split; [do 5 right; left; reflexivity |].
  split; [reflexivity |]. split; [reflexivity |]. split; [reflexivity |].
  split; [reflexivity |].
  eexists. eexists. split; [reflexivity |].
  intros [H | [H | []]]; discriminate.
Qed.

(** C4, with the search that the code makes.  When no label matches a
    pattern of [ProductCode] the filter returns the frame as it is.  When
    one does, names a single column and that column is not numeric, the rows
    of the result are the rows of the frame, in their order, whose key is
    not invalid; a string key is invalid when it is empty, is ["nan"], or
    has one of the markers [Grand Total], [Total], [ProductCode] in it, case
    put aside (the search of [str.contains]).  When the label names a
    numeric column, or several columns, the filter raises. *)
Theorem row_filter_removes_invalid_keys (df : DataFrame) :
  (find_product_code_col df = None -> remove_invalid_rows df = Some (df, [])) /\
  (forall s : string,
     invalid_key (CStr s) = true <->
     s = "" \/ s = "nan" \/
     exists m, In m footer_markers /\ contains (lower m) (lower s) = true) /\
  (forall col s,
     rectangular df ->
     find_product_code_col df = Some col ->
     getitem df col = OneColumn s ->
     numeric_dtype s = false ->
     exists out log,
       remove_invalid_rows df = Some (out, log) /\
       rows out = List.filter (fun row => negb (invalid_key (key_of col row))) (rows df) /\
       labels out = labels df /\
       log = (if 0 <? len df - len out then [MsgFilteredOut (len df - len out)] else [])) /\
  (forall col s,
     find_product_code_col df = Some col ->
     getitem df col = OneColumn s ->
     numeric_dtype s = true ->
     remove_invalid_rows df = None) /\
  (forall col ss,
     find_product_code_col df = Some col ->
     getitem df col = ManyColumns ss ->
     remove_invalid_rows df = None).
Proof.
  assert (Htruthy : forall col, find_product_code_col df = Some col -> truthy col = true).
  { intros col Hfind. destruct col; [| reflexivity]. exfalso.
    unfold find_product_code_col in Hfind. apply find_some in Hfind as [_ Hm].
    vm_compute in Hm. discriminate. }
  split; [| split; [exact invalid_key_spec | split; [| split]]].
  4:{ intros col ss Hfind Hget. unfold remove_invalid_rows.
      now rewrite Hfind, (Htruthy col Hfind), Hget. }
  3:{ intros col s Hfind Hget Hdtype. unfold remove_invalid_rows.
      now rewrite Hfind, (Htruthy col Hfind), Hget, Hdtype. }
  - intros H. unfold remove_invalid_rows. now rewrite H.
  - clear Htruthy. intros col s Hrect Hfind Hget Hdtype.
    assert (Hlen : length s = index_len df).
    { unfold getitem in Hget. unfold rectangular in Hrect.
      destruct (List.filter _ (columns df)) as [|c [|c' rest]] eqn:Hf; try discriminate.
      injection Hget as <-. rewrite List.Forall_forall in Hrect. apply Hrect.
      eapply (proj1 (filter_In _ c (columns df))). rewrite Hf. now left. }
    assert (Htruthy : truthy col = true).
    { destruct col; [| reflexivity]. exfalso.
      unfold find_product_code_col in Hfind. apply find_some in Hfind as [_ Hm].
      vm_compute in Hm. discriminate. }
    unfold remove_invalid_rows. rewrite Hfind, Htruthy, Hget, Hdtype.
    eexists. eexists. split; [reflexivity |]. split; [| split; [| reflexivity]].
    + destruct df as [n cols]. cbn [index_len columns] in *.
      rewrite select_rows_rows; [| now rewrite length_map | exact Hrect].
      rewrite <- (filter_by_mask (fun row => negb (invalid_key (key_of col row)))).
      f_equal. f_equal. f_equal.
      unfold rows. cbn [index_len]. rewrite map_map, <- Hlen.
      rewrite <- (map_nth_seq s) at 1. rewrite map_map.
      apply map_ext. intros i.
      rewrite (key_of_row_at (mkFrame (length s) cols) col s i Hget).
      apply keep_cell_invalid.
    + unfold select_rows, labels. cbn [columns]. rewrite map_map. reflexivity.
Qed.

(** C4 on a frame with a blank key, a ["nan"] key, a footer line and a code
    that has [total] in it. *)
Lemma row_filter_removes_invalid_keys_witness :
  exists out log,
    remove_invalid_rows footer_frame = Some (out, log) /\
    rows out = [ [("ProductCode", CStr "A1"); ("SOH", CInt 3)];
                 [("ProductCode", CStr "B2"); ("SOH", CInt 9)] ] /\
    log = [MsgFilteredOut 4].
Proof.
  destruct (proj1 (proj2 (proj2 (row_filter_removes_invalid_keys footer_frame)))
              "ProductCode"
              [CStr "A1"; CStr ""; CStr "nan"; CStr "Grand Total"; CStr "B2";
               CStr "Subtotal-7"])
    as (out & log & Hrun & Hrows & _ & Hlog).
  - repeat constructor.
  - reflexivity.
  - reflexivity.
  - reflexivity.
  - exists out, log. split; [exact Hrun |]. split; [exact Hrows |].
    rewrite Hlog. injection Hrun as <- _. reflexivity.
Defined.

End FilterFacts.

(** ** Clearing and uploading *)

Module SyncFacts.
Import PyFacts Num Pandas Sync Scenarios.
Local Open Scope nat_scope.

Lemma slice_app {A} (a m c : nat) (l : list A) :
  a <= m -> m <= c -> slice a m l ++ slice m c l = slice a c l.
Proof.
  intros Ham Hmc. unfold slice.
  replace (drop m l) with (drop (m - a) (drop a l))
    by (rewrite drop_drop; f_equal; lia).
  rewrite take_take_drop. f_equal. lia.
Qed.

Lemma slice_empty {A} (a c : nat) (l : list A) : c <= a -> slice a c l = [].
Proof. intros H. unfold slice. replace (c - a) with 0 by lia. reflexivity. Qed.

Lemma slice_beyond {A} (a c : nat) (l : list A) :
  length l <= c -> slice a c l = drop a l.
Proof. intros H. unfold slice. apply take_ge. rewrite length_drop. lia. Qed.

(** Consecutive batches tile the rows: batch [b] followed by the [n] batches
    after it is the slice they cover together. *)
Lemma batch_slices {A} (bs tr b n : nat) (l : list A) :
  tr = length l ->
  slice (b * bs) (Nat.min ((b + 1) * bs) tr) l ++
  slice (S b * bs) (Nat.min ((S b + n) * bs) tr) l
  = slice (b * bs) (Nat.min ((b + S n) * bs) tr) l.
Proof.
  intros ->.
  destruct (Nat.le_gt_cases ((b + 1) * bs) (length l)) as [Hle | Hgt].
  - rewrite (Nat.min_l _ _ Hle).
    replace (S b * bs) with ((b + 1) * bs) by (f_equal; lia).
    replace ((S b + n) * bs) with ((b + S n) * bs) by (f_equal; lia).
    apply slice_app; [nia |].
    apply Nat.min_glb; [nia | exact Hle].
  - rewrite (Nat.min_r ((b + 1) * bs)) by lia.
    rewrite (slice_empty (S b * bs)).
    2:{ etransitivity; [apply Nat.le_min_r |]. replace (S b) with (b + 1) by lia. lia. }
    rewrite app_nil_r.
    rewrite (Nat.min_r ((b + S n) * bs)) by nia. reflexivity.
Qed.

Lemma slice_prefix {A} (c : nat) (l : list A) :
  slice 0 (Nat.min c (length l)) l = take c l.
Proof.
  unfold slice. simpl. rewrite Nat.sub_0_r, <- take_take, firstn_all. reflexivity.
Qed.

Section Run.
Context (E : env).


Lemma upload_cancelled_eq (w : world) : upload_cancelled E w = (Ret (cancel_requested E w), tick w).
Proof. reflexivity. Qed.


Lemma upload_batch_cancelled df tr tb b up w :
  cancel_requested E w = true ->
  upload_batch E df tr tb b up w = (Ret None, snd (log MsgUploadCancelled (tick w))).
Proof.
  intros H. unfold upload_batch, bind. rewrite upload_cancelled_eq, H. reflexivity.
Qed.


Lemma add_rows_loop_uploaded j rows :
  forall n a w w',
  add_rows_loop E j rows n a w = (Ret Uploaded, w') ->
  sheet_rows w' = sheet_rows w ++ number_from (next_row_id w) rows /\
  next_row_id w' = next_row_id w + length rows.
Proof.
  induction n as [|n IH]; intros a w w'; [discriminate |].
  cbn [add_rows_loop]. unfold bind. rewrite upload_cancelled_eq.
  destruct (cancel_requested E w); [discriminate |].
  unfold try_except, bind, add_rows.
  destruct (add_rows_outcome E j a) as [e|].
  - destruct (a <? max_retries (config E) - 1); [| discriminate].
    intros H. simpl in H. apply IH in H. simpl in H. exact H.
  - simpl. intros [= <-]. simpl. split; reflexivity.
Qed.

Lemma prepare_rows_app numeric (l1 l2 : list (list (string * cell))) :
  prepare_rows E numeric (l1 ++ l2) =
  match prepare_rows E numeric l1 with
  | Ret a => match prepare_rows E numeric l2 with
             | Ret b => Ret (a ++ b)
             | Raise e => Raise e
             end
  | Raise e => Raise e
  end.
Proof.
  induction l1 as [|row l1 IH]; simpl.
  - destruct (prepare_rows E numeric l2); reflexivity.
  - destruct (build_cells E numeric row) as [cs|e]; [| reflexivity].
    rewrite IH.
    destruct (prepare_rows E numeric l1) as [a|e]; [| reflexivity].
    destruct (prepare_rows E numeric l2) as [b|e]; [| reflexivity].
    destruct cs; reflexivity.
Qed.

Lemma number_from_app (s : nat) (a b : list remote_row) :
  number_from s (a ++ b) = number_from s a ++ number_from (s + length a) b.
Proof.
  unfold number_from. rewrite length_app, seq_app.
  rewrite zip_with_app by (now rewrite length_seq). reflexivity.
Qed.

Lemma upload_batch_some df tr tb b up w u w' :
  upload_batch E df tr tb b up w = (Ret (Some u), w') ->
  exists rs,
    prepare_rows E (Cin7.all_numeric_columns df)
      (slice (b * batch_size (config E)) (Nat.min ((b + 1) * batch_size (config E)) tr)
             (rows df)) = Ret rs /\
    sheet_rows w' = sheet_rows w ++ number_from (next_row_id w) rs /\
    next_row_id w' = next_row_id w + length rs /\
    u = up + length rs /\
    last (queue w') = Some (ProgressUpdate u tr (progress_pct u tr)).
Proof.
  unfold upload_batch, bind. rewrite upload_cancelled_eq.
  destruct (cancel_requested E w); [discriminate |].
  unfold lift.
  destruct (prepare_rows E _ _) as [rs|e]; [| discriminate].
  destruct (add_rows_loop E b rs (max_retries (config E)) 0 (tick w)) as [[r|e] w1] eqn:Hloop;
    [| discriminate].
  destruct r; try discriminate.
  apply add_rows_loop_uploaded in Hloop as [Hrows Hnext].
  intros H. exists rs.
  destruct (b <? tb - 1); simpl in H; injection H as <- <-; simpl;
    rewrite Hrows, Hnext; repeat split; try reflexivity; apply last_snoc.
Qed.

Lemma upload_batches_done df tr tb :
  forall n b up w up' w',
  upload_batches E df tr tb n b up w = (Ret (true, up'), w') ->
  tr = length (rows df) ->
  exists rs,
    prepare_rows E (Cin7.all_numeric_columns df)
      (slice (b * batch_size (config E)) (Nat.min ((b + n) * batch_size (config E)) tr)
             (rows df)) = Ret rs /\
    sheet_rows w' = sheet_rows w ++ number_from (next_row_id w) rs /\
    next_row_id w' = next_row_id w + length rs /\
    up' = up + length rs.
Proof.
  induction n as [|n IH]; intros b up w up' w' Hrun Htr.
  - injection Hrun as <- <-. exists [].
    rewrite slice_empty by (rewrite Nat.add_0_r; apply Nat.le_min_l).
    simpl. rewrite app_nil_r. repeat split; lia.
  - cbn [upload_batches] in Hrun. unfold bind in Hrun.
    destruct (upload_batch E df tr tb b up w) as [[[u|]|e] w1] eqn:Hb; try discriminate.
    apply upload_batch_some in Hb as (rs1 & Hp1 & Hr1 & Hn1 & Hu1 & _).
    apply IH in Hrun as (rs2 & Hp2 & Hr2 & Hn2 & Hu2); [| exact Htr].
    exists (rs1 ++ rs2).
    rewrite <- (batch_slices _ _ _ _ _ Htr), prepare_rows_app, Hp1, Hp2.
    rewrite Hr2, Hn2, Hu2, Hr1, Hn1, Hu1, number_from_app, length_app, <- app_assoc.
    repeat split; lia.
Qed.

Lemma rows_length (df : DataFrame) : length (rows df) = len df.
Proof. unfold rows, len. now rewrite length_map, length_seq. Qed.

Lemma log_fields m w :
  sheet_rows (snd (log m w)) = sheet_rows w /\
  calls (snd (log m w)) = calls w /\
  next_row_id (snd (log m w)) = next_row_id w /\
  clock (snd (log m w)) = clock w.
Proof. repeat split. Qed.



Lemma column_map_lookup (col : string) :
  is_Some (column_map E !! col) <-> In col (map fst (sheet_columns E)).
Proof.
  unfold column_map.
  assert (H : forall cols (m : gmap string Z),
             is_Some (fold_left (fun m c => <[fst c := snd c]> m) cols m !! col) <->
             is_Some (m !! col) \/ In col (map fst cols)).
  { induction cols as [|c cols IH]; intros m; simpl.
    - tauto.
    - rewrite IH. destruct (decide (fst c = col)) as [-> | Hne].
      + rewrite lookup_insert_eq. split; [intros _; right; now left | intros _; left; eauto].
      + rewrite lookup_insert_ne by exact Hne. tauto. }
  rewrite H, lookup_empty. split; [intros [[x Hx] | Hin] | intros Hin].
  - discriminate.
  - exact Hin.
  - now right.
Qed.

Lemma sendable_spec (col : string) (v : cell) :
  sendable E col v = true <->
  In col (map fst (sheet_columns E)) /\
  Py.strip (cell_str v) <> "" /\ cell_str v <> "nan".
Proof.
  unfold sendable. rewrite !andb_true_iff, bool_decide_eq_true, column_map_lookup.
  rewrite truthy_spec, negb_true_iff, String.eqb_neq. tauto.
Qed.

Lemma build_cells_nonempty numeric (row : list (string * cell)) (cs : list remote_cell) :
  build_cells E numeric row = Ret cs ->
  (cs <> [] <-> has_sendable_cell E row = true).
Proof.
  revert cs. induction row as [|[col v] row IH]; intros cs; simpl.
  - intros [= <-]. split; [congruence | discriminate].
  - destruct (sendable E col v) eqn:Hs; simpl.
    + destruct (cell_value_of numeric col v); [| discriminate].
      destruct (build_cells E numeric row); [| discriminate].
      intros [= <-]. split; [reflexivity | discriminate].
    + apply IH.
Qed.

Lemma prepare_rows_skips numeric (batch : list (list (string * cell))) (rs : list remote_row) :
  prepare_rows E numeric batch = Ret rs ->
  Forall2 (fun row r => build_cells E numeric row = Ret (cells r) /\ cells r <> [])
          (List.filter (has_sendable_cell E) batch) rs.
Proof.
  revert rs. induction batch as [|row batch IH]; intros rs; simpl.
  - intros [= <-]. constructor.
  - destruct (build_cells E numeric row) as [cs|e] eqn:Hcs; [| discriminate].
    destruct (prepare_rows E numeric batch) as [rs'|e]; [| discriminate].
    intros [= <-]. specialize (IH rs' eq_refl).
    pose proof (build_cells_nonempty _ _ _ Hcs) as Hne.
    destruct cs as [|c cs].
    + destruct (has_sendable_cell E row); [| exact IH].
      exfalso. now apply Hne.
    + rewrite (proj1 Hne) by discriminate. constructor; [| exact IH].
      split; [exact Hcs | discriminate].
Qed.

Lemma deleted_batches_app tr1 tr2 :
  deleted_batches (tr1 ++ tr2) = deleted_batches tr1 ++ deleted_batches tr2.
Proof.
  induction tr1 as [|[c r] tr1 IH]; simpl; [reflexivity |].
  destruct c; try exact IH. destruct r; [exact IH |]. simpl. now rewrite IH.
Qed.

Lemma delete_calls_app tr1 tr2 :
  delete_calls (tr1 ++ tr2) = delete_calls tr1 ++ delete_calls tr2.
Proof.
  induction tr1 as [|[c r] tr1 IH]; simpl; [reflexivity |].
  destruct c; try exact IH. simpl. now rewrite IH.
Qed.

Lemma get_sheet_loop_ok :
  forall n a w,
  a + n = max_retries (config E) ->
  (exists i, a <= i < a + n /\ get_sheet_outcome E i = None) ->
  exists w' tr,
    get_sheet_loop E n a w = (Ret (Some (map fst (sheet_rows w))), w') /\
    sheet_rows w' = sheet_rows w /\
    calls w' = calls w ++ tr /\
    delete_calls tr = [].
Proof.
  induction n as [|n IH]; intros a w Han (i & Hi & Hok); [lia |].
  cbn [get_sheet_loop]. unfold try_except, bind, get_sheet.
  destruct (get_sheet_outcome E a) as [e|] eqn:Ha.
  - assert (a <> i) by congruence.
    destruct (Nat.eqb_spec a (max_retries (config E) - 1)) as [Hlast | Hlast]; [lia |].
    destruct (IH (S a) (snd (sleep (retry_delay (config E))
                (snd (log (MsgRetryGetSheet (a + 1)) (record_call GetSheet (Some e) w))))))
      as (w' & tr & Hrun & Hrows & Hcalls & Hdel); [lia | exists i; split; [lia | exact Hok] |].
    exists w', ((GetSheet, Some e) :: tr). repeat split.
    + simpl. exact Hrun.
    + rewrite Hrows. reflexivity.
    + rewrite Hcalls. simpl. now rewrite <- app_assoc.
    + exact Hdel.
  - exists (record_call GetSheet None w), [(GetSheet, None)]. repeat split.
Qed.

Lemma delete_loop_ok (b : nat) (ids : list nat) :
  forall n a w,
  a + n = max_retries (config E) ->
  (exists i, a <= i < a + n /\ delete_rows_outcome E b i = None) ->
  exists w' tr,
    delete_loop E b ids n a w = (Ret tt, w') /\
    sheet_rows w' = List.filter (survives ids) (sheet_rows w) /\
    calls w' = calls w ++ tr /\
    deleted_batches tr = [ids] /\
    Forall (eq ids) (delete_calls tr).
Proof.
  induction n as [|n IH]; intros a w Han (i & Hi & Hok); [lia |].
  cbn [delete_loop]. unfold try_except, bind, delete_rows.
  destruct (delete_rows_outcome E b a) as [e|] eqn:Ha.
  - assert (a <> i) by congruence.
    destruct (Nat.eqb_spec a (max_retries (config E) - 1)) as [Hlast | Hlast]; [lia |].
    destruct (IH (S a) (snd (sleep (retry_delay (config E))
                (snd (log (MsgRetryDelete (a + 1) (b + 1))
                          (record_call (DeleteRows ids) (Some e) w))))))
      as (w' & tr & Hrun & Hrows & Hcalls & Hdel & Hall);
      [lia | exists i; split; [lia | exact Hok] |].
    exists w', ((DeleteRows ids, Some e) :: tr). repeat split.
    + simpl. exact Hrun.
    + rewrite Hrows. reflexivity.
    + rewrite Hcalls. simpl. now rewrite <- app_assoc.
    + exact Hdel.
    + constructor; [reflexivity | exact Hall].
  - eexists. exists [(DeleteRows ids, None)]. repeat split.
    constructor; [reflexivity | constructor].
Qed.

Lemma filter_survives_app (a b : list nat) (l : list (nat * remote_row)) :
  List.filter (survives b) (List.filter (survives a) l) = List.filter (survives (a ++ b)) l.
Proof.
  assert (H : forall r, survives (a ++ b) r = survives a r && survives b r).
  { intros r. unfold survives. now rewrite existsb_app, negb_orb. }
  induction l as [|r l IH]; simpl; [reflexivity |].
  rewrite H. destruct (survives a r); simpl; [| exact IH].
  destruct (survives b r); [now rewrite IH | exact IH].
Qed.

Lemma clear_batches_ok (row_ids : list nat) (tb : nat) :
  cancel_at E = None ->
  (forall b, b < tb -> exists a, a < max_retries (config E) /\ delete_rows_outcome E b a = None) ->
  forall n b w,
  b + n = tb ->
  exists w' tr,
    clear_batches E row_ids tb n b w = (Ret true, w') /\
    sheet_rows w' =
      List.filter (survives (concat (map (clear_batch_ids row_ids) (seq b n)))) (sheet_rows w) /\
    calls w' = calls w ++ tr /\
    deleted_batches tr = map (clear_batch_ids row_ids) (seq b n) /\
    Forall (fun ids => exists j, ids = clear_batch_ids row_ids j) (delete_calls tr).
Proof.
  intros Hnocancel Hok. induction n as [|n IH]; intros b w Hbn.
  - exists w, []. simpl. repeat split; auto.
    + induction (sheet_rows w) as [|r l IHl]; simpl; [reflexivity | now rewrite <- IHl].
    + now rewrite app_nil_r.
  - cbn [clear_batches]. unfold bind at 1. unfold clear_batch, bind.
    unfold upload_cancelled, cancel_requested. rewrite Hnocancel.
    destruct (Hok b) as (a & Ha & Hsucc); [lia |].
    destruct (delete_loop_ok b (clear_batch_ids row_ids b) (max_retries (config E)) 0 (tick w))
      as (w1 & tr1 & Hrun1 & Hrows1 & Hcalls1 & Hdel1 & Hall1);
      [lia | exists a; split; [lia | exact Hsucc] |].
    rewrite Hrun1. cbn [log].
    destruct (b <? tb - 1); cbn [sleep ret];
    match goal with
    | |- context [clear_batches E row_ids tb n (S b) ?w2] =>
        destruct (IH (S b) w2) as (w' & tr & Hrun & Hrows & Hcalls & Hdel & Hall); [lia |];
        exists w', (tr1 ++ tr); repeat split;
        [ exact Hrun
        | rewrite Hrows; simpl sheet_rows; rewrite Hrows1; cbn [seq map concat];
          simpl sheet_rows; apply filter_survives_app
        | rewrite Hcalls; simpl calls; rewrite Hcalls1; simpl; now rewrite app_assoc
        | rewrite deleted_batches_app, Hdel1, Hdel; reflexivity
        | rewrite delete_calls_app; apply Forall_app; split; [| exact Hall];
          eapply Forall_impl; [exact Hall1 |]; intros ids <-; now exists b ]
    end.
Qed.

Lemma concat_clear_batches (row_ids : list nat) :
  forall n b,
  concat (map (clear_batch_ids row_ids) (seq b n)) =
  slice (b * clear_batch_size) (Nat.min ((b + n) * clear_batch_size) (length row_ids)) row_ids.
Proof.
  induction n as [|n IH]; intros b.
  - simpl. symmetry. apply slice_empty. rewrite Nat.add_0_r. apply Nat.le_min_l.
  - cbn [seq map concat]. rewrite IH. unfold clear_batch_ids.
    apply batch_slices. reflexivity.
Qed.

Lemma batch_count_bounds (n bs : nat) :
  bs <> 0 -> n <> 0 ->
  bs * (batch_count n bs - 1) < n <= bs * batch_count n bs.
Proof.
  intros Hbs Hn. unfold batch_count.
  pose proof (Nat.div_mod_eq (n + bs - 1) bs) as Hdiv.
  pose proof (Nat.mod_upper_bound (n + bs - 1) bs Hbs) as Hmod.
  assert (0 < (n + bs - 1) / bs) by (apply Nat.div_str_pos; lia).
  nia.
Qed.

Lemma clear_batch_ids_length (row_ids : list nat) (j : nat) :
  length (clear_batch_ids row_ids j) <= clear_batch_size.
Proof.
  unfold clear_batch_ids, slice. rewrite length_take.
  etransitivity; [apply Nat.le_min_l |].
  pose proof (Nat.le_min_l ((j + 1) * clear_batch_size) (length row_ids)). lia.
Qed.

Lemma filter_survives_all (l : list (nat * remote_row)) (ids : list nat) :
  (forall r, In r l -> In (fst r) ids) -> List.filter (survives ids) l = [].
Proof.
  induction l as [|r l IH]; intros H; simpl; [reflexivity |].
  assert (Hr : survives ids r = false).
  { unfold survives. apply negb_false_iff, existsb_exists.
    exists (fst r). split; [apply H; now left | apply Nat.eqb_refl]. }
  rewrite Hr. apply IH. intros r' Hr'. apply H. now right.
Qed.

(** C5.  The sheet holds [N > 0] rows, no cancellation is requested, and the
    read of the sheet and each batch delete succeed within the retry budget.
    Then the clearing phase ends normally with an empty sheet; the batches
    whose deletion succeeded are, put end to end, the list of row
    identifiers; no delete call names more than 400 identifiers; and the
    number of batches is [(N + 399) / 400], the least [k] with
    [N <= 400 * k]. *)
Theorem clearing_deletes_every_row (w0 : world) :
  let row_ids := map fst (sheet_rows w0) in
  let N := length row_ids in
  cancel_at E = None ->
  N <> 0 ->
  (exists a, a < max_retries (config E) /\ get_sheet_outcome E a = None) ->
  (forall b, b < batch_count N 400 ->
     exists a, a < max_retries (config E) /\ delete_rows_outcome E b a = None) ->
  exists w' tr,
    clear_smartsheet_data_enhanced E w0 = (Ret tt, w') /\
    sheet_rows w' = [] /\
    calls w' = calls w0 ++ tr /\
    concat (deleted_batches tr) = row_ids /\
    Forall (fun ids => length ids <= 400) (delete_calls tr) /\
    length (deleted_batches tr) = batch_count N 400 /\
    400 * (batch_count N 400 - 1) < N <= 400 * batch_count N 400.
Proof.
  intros row_ids N Hnocancel HN (a & Ha & Hget) Hdel.
  destruct (get_sheet_loop_ok (max_retries (config E)) 0 (snd (log MsgClearing w0)))
    as (w1 & tr1 & Hrun1 & Hrows1 & Hcalls1 & Hnodel1);
    [lia | exists a; split; [lia | exact Hget] |].
  change (map fst (sheet_rows (snd (log MsgClearing w0)))) with row_ids in Hrun1.
  set (tb := batch_count N clear_batch_size).
  destruct (clear_batches_ok row_ids tb Hnocancel Hdel tb 0
              (snd (log (MsgClearingPlan N tb) w1)))
    as (w2 & tr2 & Hrun2 & Hrows2 & Hcalls2 & Hdel2 & Hall2); [lia |].
  assert (Hcover : concat (map (clear_batch_ids row_ids) (seq 0 tb)) = row_ids).
  { rewrite concat_clear_batches. rewrite Nat.mul_0_l, Nat.add_0_l, slice_prefix.
    apply take_ge. fold N. unfold tb.
    pose proof (batch_count_bounds N clear_batch_size) as Hb.
    unfold clear_batch_size in *. lia. }
  exists (snd (log (MsgClearedAll N) w2)), (tr1 ++ tr2).
  split; [| split; [| split; [| split; [| split; [| split]]]]].
  - unfold clear_smartsheet_data_enhanced, try_except, bind. cbn [log].
    change (mkWorld (sheet_rows w0) (next_row_id w0) (clock w0) (sleeps w0)
                    (queue w0 ++ [Log MsgClearing]) (calls w0))
      with (snd (log MsgClearing w0)).
    rewrite Hrun1. fold N.
    destruct (Nat.eqb_spec N 0) as [Hz | _]; [contradiction |].
    fold tb. cbn [log].
    change (mkWorld (sheet_rows w1) (next_row_id w1) (clock w1) (sleeps w1)
                    (queue w1 ++ [Log (MsgClearingPlan N tb)]) (calls w1))
      with (snd (log (MsgClearingPlan N tb) w1)).
    rewrite Hrun2. reflexivity.
  - simpl. rewrite Hrows2, Hcover. simpl. rewrite Hrows1. simpl.
    apply filter_survives_all. intros r Hr. unfold row_ids. now apply in_map.
  - simpl. rewrite Hcalls2. simpl. rewrite Hcalls1. simpl. now rewrite app_assoc.
  - rewrite deleted_batches_app, Hdel2.
    assert (Hnone : deleted_batches tr1 = []).
    { clear -Hnodel1. induction tr1 as [|[c r] tr1 IH]; [reflexivity |].
      simpl in *. destruct c; try discriminate; auto. }
    rewrite Hnone. exact Hcover.
  - rewrite delete_calls_app, Hnodel1. simpl.
    eapply Forall_impl; [exact Hall2 |]. intros ids (j & ->).
    apply clear_batch_ids_length.
  - rewrite deleted_batches_app, Hdel2.
    assert (Hnone : deleted_batches tr1 = []).
    { clear -Hnodel1. induction tr1 as [|[c r] tr1 IH]; [reflexivity |].
      simpl in *. destruct c; try discriminate; auto. }
    rewrite Hnone. simpl. now rewrite length_map, length_seq.
  - apply (batch_count_bounds N 400); [lia | exact HN].
Qed.

Lemma upload_batches_progress df tr tb :
  forall n b up w up' w',
  upload_batches E df tr tb n b up w = (Ret (true, up'), w') ->
  0 < n ->
  last (queue w') = Some (ProgressUpdate up' tr (progress_pct up' tr)).
Proof.
  induction n as [|n IH]; intros b up w up' w' Hrun Hn; [lia |].
  cbn [upload_batches] in Hrun. unfold bind in Hrun.
  destruct (upload_batch E df tr tb b up w) as [[[u|]|e] w1] eqn:Hb; try discriminate.
  destruct n as [|n].
  - injection Hrun as <- <-.
    apply upload_batch_some in Hb as (rs & _ & _ & _ & _ & Hlast). exact Hlast.
  - eapply IH; [exact Hrun | lia].
Qed.

Lemma complete_run_counts (df : DataFrame) (w w' : world) (up : nat) :
  let bs := batch_size (config E) in
  let total_batches := batch_count (len df) bs in
  bs <> 0 ->
  upload_batches E df (len df) total_batches total_batches 0 0 w = (Ret (true, up), w') ->
  up = length (List.filter (has_sendable_cell E) (rows df)) /\
  length (sheet_rows w') = length (sheet_rows w) + up.
Proof.
  intros bs total_batches Hbs Hrun.
  destruct (upload_batches_done _ _ _ _ _ _ _ _ _ Hrun (eq_sym (rows_length df)))
    as (rs & Hrs & Hrows & _ & Hup).
  rewrite <- (rows_length df), Nat.mul_0_l, Nat.add_0_l, slice_prefix in Hrs.
  rewrite take_ge in Hrs.
  2:{ rewrite rows_length. destruct (Nat.eq_dec (len df) 0) as [Hz | Hnz]; [lia |].
      pose proof (batch_count_bounds (len df) bs Hbs Hnz). fold total_batches in H. lia. }
  apply prepare_rows_skips in Hrs. apply Forall2_length in Hrs.
  split; [lia |].
  rewrite Hrows, length_app. unfold number_from.
  rewrite length_zip_with, length_seq. lia.
Qed.

End Run.

(** C5 on 801 rows, each delete failing twice before it succeeds: three
    batches, of 400, 400 and 1 identifiers. *)
Lemma clearing_deletes_every_row_witness :
  exists w' tr,
    clear_smartsheet_data_enhanced flaky_env (initial_world many_remote_rows 801)
      = (Ret tt, w') /\
    sheet_rows w' = [] /\
    calls w' = tr /\
    map (@length nat) (deleted_batches tr) = [400; 400; 1].
Proof.
  destruct (clearing_deletes_every_row flaky_env (initial_world many_remote_rows 801))
    as (w' & tr & Hrun & Hrows & Hcalls & Hcat & Hmax & Hlen & Hceil).
  - reflexivity.
  - vm_compute. discriminate.
  - exists 0. split; [simpl; lia | reflexivity].
  - intros b _. exists 2. split; [simpl; lia | reflexivity].
  - exists w', tr.
    split; [exact Hrun | split; [exact Hrows | split; [exact Hcalls |]]].
    assert (Heval : tr = calls (snd (clear_smartsheet_data_enhanced flaky_env
                                       (initial_world many_remote_rows 801))))
      by (rewrite Hrun; symmetry; exact Hcalls).
    rewrite Heval. vm_compute. reflexivity.
Defined.



Lemma has_sendable_cell_spec (E : env) (row : list (string * cell)) :
  has_sendable_cell E row = true <->
  exists col v, In (col, v) row /\ In col (map fst (sheet_columns E)) /\
                Py.strip (cell_str v) <> "" /\ cell_str v <> "nan".
Proof.
  unfold has_sendable_cell. rewrite existsb_exists. split.
  - intros ([col v] & Hin & Hs). apply sendable_spec in Hs. now exists col, v.
  - intros (col & v & Hin & Hs). exists (col, v). split; [exact Hin |].
    now apply sendable_spec.
Qed.

(** C10, for labels and cells that are ASCII (where the white space that
    [strip] removes is the ASCII one).  A row of the table gives a remote row
    exactly when one of its cells is under a column of the remote schema with
    a value that is not blank and whose string is not ["nan"]; the other rows
    are left out of the batch; after a complete run the counter of uploaded
    rows, which the progress events carry, is the number of rows that gave a
    remote row, at most the number of rows of the table, and it can be
    smaller. *)
Theorem skipped_rows_are_not_counted :
  (forall E : env,
     (forall numeric row cs,
        ascii_row row = true ->
        build_cells E numeric row = Ret cs ->
        (cs <> [] <->
         exists col v, In (col, v) row /\ In col (map fst (sheet_columns E)) /\
                       Py.strip (cell_str v) <> "" /\ cell_str v <> "nan")) /\
     (forall numeric batch rs,
        forallb ascii_row batch = true ->
        prepare_rows E numeric batch = Ret rs ->
        Forall2 (fun row r => build_cells E numeric row = Ret (cells r) /\ cells r <> [])
                (List.filter (has_sendable_cell E) batch) rs) /\
     (forall df w w' up,
        ascii_frame df = true ->
        batch_size (config E) <> 0 ->
        upload_batches E df (len df) (batch_count (len df) (batch_size (config E)))
                       (batch_count (len df) (batch_size (config E))) 0 0 w
          = (Ret (true, up), w') ->
        up = length (List.filter (has_sendable_cell E) (rows df)) /\
        up <= len df /\
        length (sheet_rows w') = length (sheet_rows w) + up /\
        (len df <> 0 ->
         last (queue w') = Some (ProgressUpdate up (len df) (progress_pct up (len df)))))) /\
  (exists w',
     ascii_frame blank_rows = true /\
     upload_batches quiet_env blank_rows (len blank_rows) 1 1 0 0 (initial_world [] 0)
       = (Ret (true, 1), w') /\
     1 < len blank_rows).
Proof.
  split.
  - intros E. split; [| split].
    + intros numeric row cs _ Hcs.
      rewrite <- has_sendable_cell_spec. now apply build_cells_nonempty with (numeric := numeric).
    + intros numeric batch rs _ Hrs.
      exact (prepare_rows_skips E numeric batch rs Hrs).
    + intros df w w' up _ Hbs Hrun.
      destruct (complete_run_counts E df w w' up Hbs Hrun) as [Hup Hlen].
      split; [exact Hup |]. split; [| split; [exact Hlen |]].
      * rewrite Hup, <- (rows_length df). apply List.filter_length_le.
      * intros Hnz. eapply upload_batches_progress; [exact Hrun |].
        pose proof (batch_count_bounds (len df) _ Hbs Hnz). lia.
  - eexists. split; [reflexivity | split; [vm_compute; reflexivity | simpl; lia]].
Qed.

(** C10 on a table of two rows whose second row has nothing to send. *)
Lemma skipped_rows_are_not_counted_witness :
  length (List.filter (has_sendable_cell quiet_env) (rows blank_rows)) = 1.
Proof.
  destruct skipped_rows_are_not_counted as [H _].
  destruct (H quiet_env) as (_ & _ & Hrun).
  destruct (Hrun blank_rows (initial_world [] 0)
              (snd (upload_batches quiet_env blank_rows 2 1 1 0 0 (initial_world [] 0))) 1)
    as (Hup & _).
  - reflexivity.
  - simpl. lia.
  - vm_compute. reflexivity.
  - symmetry. exact Hup.
Defined.

(** C8 at a delete that fails twice: both waits of the clearing phase last
    the plain retry delay, 2, where the attempt number would give 2 and 4, as
    the upload phase does for the same failures. *)
Theorem clearing_retry_delay_is_constant :
  clear_smartsheet_data_enhanced flaky_env (initial_world one_remote_row 1)
    = (Ret tt,
       mkWorld [] 1 7 [2%Q; 2%Q]
         [Log MsgClearing; Log (MsgClearingPlan 1 1); Log (MsgRetryDelete 1 1);
          Log (MsgRetryDelete 2 1); Log (MsgClearedBatch 1 1 1); Log (MsgClearedAll 1)]
         [(GetSheet, None); (DeleteRows [0%nat], Some ServiceError);
          (DeleteRows [0%nat], Some ServiceError); (DeleteRows [0%nat], None)]) /\
  sleeps (snd (upload_data_enhanced flaky_env one_product (initial_world [] 0)))
    = [2 * inject_Z 1; 2 * inject_Z 2]%Q.
Proof. vm_compute. split; reflexivity. Qed.

End SyncFacts.

(** ** What the two phases never do *)

Module EffectsFacts.
Import PyFacts Num Pandas Sync Effects SyncFacts.
Local Open Scope nat_scope.

Section Logic.
Context (Rel : world -> world -> Prop).
Hypothesis Rel_refl : forall w, Rel w w.
Hypothesis Rel_trans : forall w1 w2 w3, Rel w1 w2 -> Rel w2 w3 -> Rel w1 w3.

Lemma maintains_ret {A} (a : A) (Q : result A -> Prop) :
  Q (Ret a) -> maintains Rel (ret a) Q.
Proof. intros H w. split; [apply Rel_refl | exact H]. Qed.

Lemma maintains_raise {A} (e : exn) (Q : result A -> Prop) :
  Q (Raise e) -> maintains Rel (raise e) Q.
Proof. intros H w. split; [apply Rel_refl | exact H]. Qed.

Lemma maintains_lift {A} (r : result A) (Q : result A -> Prop) :
  Q r -> maintains Rel (lift r) Q.
Proof. intros H w. split; [apply Rel_refl | exact H]. Qed.

Lemma maintains_bind {A B} (m : M A) (k : A -> M B) (Q : result A -> Prop)
  (R : result B -> Prop) :
  maintains Rel m Q ->
  (forall a, Q (Ret a) -> maintains Rel (k a) R) ->
  (forall e, Q (Raise e) -> R (Raise e)) ->
  maintains Rel (bind m k) R.
Proof.
  intros Hm Hk He w. unfold bind. destruct (Hm w) as [Hext HQ].
  destruct (m w) as [[a|e] w1]; simpl in *.
  - destruct (Hk a HQ w1) as [Hext' HR]. split; [| exact HR].
    eapply Rel_trans; eassumption.
  - split; [exact Hext | now apply He].
Qed.

Lemma maintains_try {A} (m : M A) (h : exn -> M A) (Q R : result A -> Prop) :
  maintains Rel m Q ->
  (forall a, Q (Ret a) -> R (Ret a)) ->
  (forall e, Q (Raise e) -> maintains Rel (h e) R) ->
  maintains Rel (try_except m h) R.
Proof.
  intros Hm Ha Hh w. unfold try_except. destruct (Hm w) as [Hext HQ].
  destruct (m w) as [[a|e] w1]; simpl in *.
  - split; [exact Hext | now apply Ha].
  - destruct (Hh e HQ w1) as [Hext' HR]. split; [| exact HR].
    eapply Rel_trans; eassumption.
Qed.

End Logic.

Lemma extends_refl P w : extends P w w.
Proof.
  split; [exists [] | exists [] | exists [] |]; rewrite ?app_nil_r; auto.
Qed.

Lemma extends_trans P w1 w2 w3 : extends P w1 w2 -> extends P w2 w3 -> extends P w1 w3.
Proof.
  intros [(a1 & H1) (t1 & Hc1 & Ht1) (e1 & Hq1 & He1) Hk1]
         [(a2 & H2) (t2 & Hc2 & Ht2) (e2 & Hq2 & He2) Hk2].
  split.
  - exists (a1 ++ a2). now rewrite H2, H1, app_assoc.
  - exists (t1 ++ t2). split; [now rewrite Hc2, Hc1, app_assoc |].
    now rewrite forallb_app, Ht1, Ht2.
  - exists (e1 ++ e2). split; [now rewrite Hq2, Hq1, app_assoc |].
    apply Forall_app. now split.
  - lia.
Qed.

Lemma filter_survives_nil (l : list (nat * remote_row)) : List.filter (survives []) l = l.
Proof. induction l as [|r l IH]; simpl; [reflexivity | now rewrite IH]. Qed.

Lemma shrinks_quiet (w w' : world) :
  sheet_rows w' = sheet_rows w -> calls w' = calls w -> next_row_id w' = next_row_id w ->
  clock w <= clock w' -> shrinks w w'.
Proof.
  intros Hr Hc Hn Hk. split; [exists [] | exact Hn | exact Hk].
  rewrite app_nil_r. simpl. now rewrite filter_survives_nil.
Qed.

Lemma shrinks_refl w : shrinks w w.
Proof. now apply shrinks_quiet. Qed.

Lemma shrinks_trans w1 w2 w3 : shrinks w1 w2 -> shrinks w2 w3 -> shrinks w1 w3.
Proof.
  intros [(t1 & Hc1 & Ht1 & H1) Hn1 Hk1] [(t2 & Hc2 & Ht2 & H2) Hn2 Hk2].
  split.
  - exists (t1 ++ t2). split; [now rewrite Hc2, Hc1, app_assoc |].
    split; [now rewrite existsb_app, Ht1, Ht2 |].
    now rewrite H2, H1, filter_survives_app, deleted_batches_app, concat_app.
  - congruence.
  - lia.
Qed.

(** One step of a proof about a computation written with [bind] or
    [try_except]. *)
Ltac relation_laws :=
  solve [ apply extends_refl | apply extends_trans | apply shrinks_refl | apply shrinks_trans ].
Ltac by_bind := eapply maintains_bind; [relation_laws | | | ].
Ltac by_try Q0 := eapply maintains_try with (Q := Q0); [relation_laws | | | ].
Ltac by_ret := apply maintains_ret; [relation_laws | ].
Ltac by_raise := apply maintains_raise; [relation_laws | ].

Lemma extends_quiet P (w w' : world) :
  sheet_rows w' = sheet_rows w -> calls w' = calls w -> queue w' = queue w ->
  clock w <= clock w' -> extends P w w'.
Proof.
  intros Hr Hc Hq Hk. split; [exists [] | exists [] | exists [] | exact Hk];
    rewrite ?app_nil_r; auto.
Qed.

Lemma extends_log P (m : message) :
  P (Log m) -> maintains (extends P) (log m) (fun r => r = Ret tt).
Proof.
  intros H w. split; [| reflexivity]. split; simpl.
  - exists []. now rewrite app_nil_r.
  - exists []. now rewrite app_nil_r.
  - exists [Log m]. split; [reflexivity | now repeat constructor].
  - lia.
Qed.

Lemma extends_put P (e : event) : P e -> maintains (extends P) (put e) (fun r => r = Ret tt).
Proof.
  intros H w. split; [| reflexivity]. split; simpl.
  - exists []. now rewrite app_nil_r.
  - exists []. now rewrite app_nil_r.
  - exists [e]. split; [reflexivity | now repeat constructor].
  - lia.
Qed.

Lemma extends_sleep P (d : Q) : maintains (extends P) (sleep d) (fun r => r = Ret tt).
Proof. intros w. split; [| reflexivity]. apply extends_quiet; simpl; auto. Qed.

Lemma extends_upload_cancelled P (E : env) :
  maintains (extends P) (upload_cancelled E) (fun r => exists c, r = Ret c).
Proof. intros w. split; [| simpl; eauto]. apply extends_quiet; simpl; auto. Qed.

Lemma extends_add_rows P (E : env) (b a : nat) (rows : list remote_row) :
  maintains (extends P) (add_rows E b a rows) (fun _ => True).
Proof.
  intros w. split; [| exact I]. unfold add_rows.
  destruct (add_rows_outcome E b a); split; simpl;
    try (exists []; now rewrite app_nil_r);
    try (eexists; split; [reflexivity | reflexivity]);
    try (exists []; split; [now rewrite app_nil_r | constructor]);
    try lia.
  eexists. reflexivity.
Qed.

Lemma shrinks_log (m : message) : maintains shrinks (log m) (fun r => r = Ret tt).
Proof. intros w. split; [| reflexivity]. apply shrinks_quiet; simpl; auto. Qed.

Lemma shrinks_sleep (d : Q) : maintains shrinks (sleep d) (fun r => r = Ret tt).
Proof. intros w. split; [| reflexivity]. apply shrinks_quiet; simpl; auto. Qed.

Lemma shrinks_upload_cancelled (E : env) :
  maintains shrinks (upload_cancelled E) (fun r => exists c, r = Ret c).
Proof. intros w. split; [| simpl; eauto]. apply shrinks_quiet; simpl; auto. Qed.

Lemma shrinks_get_sheet (E : env) (a : nat) : maintains shrinks (get_sheet E a) (fun _ => True).
Proof.
  intros w. split; [| exact I]. unfold get_sheet.
  destruct (get_sheet_outcome E a) as [e|]; split; simpl; auto.
  - exists [(GetSheet, Some e)]. simpl. now rewrite filter_survives_nil.
  - exists [(GetSheet, None)]. simpl. now rewrite filter_survives_nil.
Qed.

Lemma shrinks_delete_rows (E : env) (b a : nat) (ids : list nat) :
  maintains shrinks (delete_rows E b a ids) (fun _ => True).
Proof.
  intros w. split; [| exact I]. unfold delete_rows.
  destruct (delete_rows_outcome E b a) as [e|]; split; simpl; auto.
  - exists [(DeleteRows ids, Some e)]. simpl. now rewrite filter_survives_nil.
  - exists [(DeleteRows ids, None)]. simpl. now rewrite app_nil_r.
Qed.

Section Upload.
Context (E : env).

Lemma extends_add_rows_loop P (b : nat) (rows : list remote_row) :
  (forall m, P (Log m)) ->
  forall n a, maintains (extends P) (add_rows_loop E b rows n a) (fun _ => True).
Proof.
  intros HP. induction n as [|n IH]; intros a; cbn [add_rows_loop].
  - now by_ret.
  - by_bind; [apply extends_upload_cancelled | | auto].
    intros c _. destruct c; [now by_ret |].
    by_try (fun _ : result attempt_result => True); [| auto |].
    + by_bind; [apply extends_add_rows | | auto].
      intros _ _. now by_ret.
    + intros e _. destruct (a <? max_retries (config E) - 1); [| now by_raise].
      by_bind; [apply extends_log, HP | | auto].
      intros _ _. by_bind; [apply extends_sleep | | auto].
      intros _ _. apply IH.
Qed.

Lemma prepare_rows_length numeric (batch : list (list (string * cell))) (rs : list remote_row) :
  prepare_rows E numeric batch = Ret rs -> length rs <= length batch.
Proof.
  intros H. apply prepare_rows_skips in H. apply Forall2_length in H.
  rewrite <- H. apply List.filter_length_le.
Qed.

Lemma progress_pct_range (u t : nat) :
  u <= t -> (40 <= progress_pct u t)%Q /\ (progress_pct u t <= 90)%Q.
Proof.
  intros H. unfold progress_pct, Qle. cbn [Qnum Qden Qplus Qmult].
  assert (Hpos : (u = 0 /\ t = 0) \/ Z.pos (Pos.of_nat t) = Z.of_nat t).
  { destruct t as [|t]; [left; lia | right].
    now rewrite <- Pos.of_nat_succ, Zpos_P_of_succ_nat, Nat2Z.inj_succ. }
  rewrite !Pos.mul_1_r, !Pos.mul_1_l.
  destruct Hpos as [[-> ->] | ->]; simpl; lia.
Qed.

Lemma slice_length {A} (a b : nat) (l : list A) : length (slice a b l) <= b - a.
Proof. unfold slice. rewrite length_take. lia. Qed.

Lemma upload_batch_extends (df : DataFrame) (tr tb b up : nat) :
  up <= Nat.min (b * batch_size (config E)) tr ->
  maintains (extends (progress_in_range tr)) (upload_batch E df tr tb b up)
    (fun r => match r with
              | Ret (Some u) => u <= Nat.min ((b + 1) * batch_size (config E)) tr
              | _ => True
              end).
Proof.
  intros Hup. unfold upload_batch.
  assert (HP : forall m, progress_in_range tr (Log m)) by (intros m; exact I).
  by_bind; [apply extends_upload_cancelled | | auto].
  intros c _. destruct c.
  { by_bind; [apply extends_log, HP | | auto]. intros _ _. now by_ret. }
  eapply maintains_bind with
    (Q := fun r => match r with
                   | Ret rs =>
                       length rs <= Nat.min ((b + 1) * batch_size (config E)) tr
                                    - b * batch_size (config E)
                   | Raise _ => True
                   end); [relation_laws | | | auto].
  { apply maintains_lift; [relation_laws |].
    destruct (prepare_rows E _ _) as [rs|e] eqn:Hp; [| exact I].
    apply prepare_rows_length in Hp. etransitivity; [exact Hp | apply slice_length]. }
  intros rs Hrs.
  by_bind; [apply extends_add_rows_loop, HP | | auto].
  intros r _.
  assert (Hnew : up + length rs <= Nat.min ((b + 1) * batch_size (config E)) tr) by lia.
  destruct r.
  - by_bind; [apply extends_log, HP | | auto].
    intros _ _. by_bind; [| | auto].
    + apply extends_put. cbn [progress_in_range].
      split; [reflexivity |]. split; [lia |]. apply progress_pct_range. lia.
    + intros _ _. eapply maintains_bind with (Q := fun _ => True); [relation_laws | | | auto].
      * destruct (b <? tb - 1); [| now by_ret].
        intros w. split; [apply (extends_sleep _ _ w) | exact I].
      * intros _ _. now by_ret.
  - by_bind; [apply extends_log, HP | | auto].
    intros _ _. now by_ret.
  - now by_ret.
Qed.

Lemma upload_batches_extends (df : DataFrame) (tr tb : nat) :
  forall n b up,
  up <= Nat.min (b * batch_size (config E)) tr ->
  maintains (extends (progress_in_range tr)) (upload_batches E df tr tb n b up) (fun _ => True).
Proof.
  induction n as [|n IH]; intros b up Hup; cbn [upload_batches].
  - now by_ret.
  - by_bind; [apply upload_batch_extends, Hup | | auto].
    intros [u|] Hu; [| now by_ret].
    apply IH. replace (S b) with (b + 1) by lia. exact Hu.
Qed.

Lemma upload_data_enhanced_extends (df : DataFrame) :
  maintains (extends (progress_in_range (len df))) (upload_data_enhanced E df)
    (fun r => exists b, r = Ret b).
Proof.
  unfold upload_data_enhanced.
  by_try (fun _ : result bool => True).
  - destruct (batch_size (config E) =? 0); [now by_raise |].
    by_bind; [apply extends_log; exact I | | auto].
    intros _ _. by_bind; [apply upload_batches_extends; lia | | auto].
    intros r _. now by_ret.
  - intros a _. now exists a.
  - intros e _. by_bind; [apply extends_log; exact I | | ].
    + intros _ _. by_ret. now exists false.
    + intros e' H. discriminate H.
Qed.

Lemma cancelled_or_failed_extends P :
  (forall m, P (Log m)) ->
  maintains (extends P) (cancelled_or_failed E) (fun r => exists o, r = Ret o).
Proof.
  intros HP. unfold cancelled_or_failed.
  by_bind; [apply extends_upload_cancelled | | intros e [c H]; discriminate H].
  intros c _. destruct c;
    (by_bind; [apply extends_log, HP | | intros e' H; discriminate H]);
    intros _ _; by_ret; eauto.
Qed.

Lemma upload_process_extends (df : DataFrame) :
  maintains (extends (progress_in_range (len df))) (upload_process E false df)
    (fun r => exists o, r = Ret o).
Proof.
  assert (HP : forall m, progress_in_range (len df) (Log m)) by (intros m; exact I).
  unfold upload_process.
  by_try (fun r : result outcome => exists o, r = Ret o).
  - eapply maintains_bind with (Q := fun r => r = Ret tt);
      [relation_laws | by_ret; reflexivity | | intros e H; discriminate H].
    intros _ _.
    by_bind; [apply upload_data_enhanced_extends | | intros e [b H]; discriminate H].
    intros success _. destruct success; [| apply cancelled_or_failed_extends, HP].
    by_bind; [apply extends_upload_cancelled | | intros e [c H]; discriminate H].
    intros c _. destruct c; cbn [negb]; [apply cancelled_or_failed_extends, HP |].
    by_bind; [apply extends_log, HP | | intros e' H; discriminate H].
    intros _ _. by_ret. eauto.
  - auto.
  - intros e [o H]. discriminate H.
Qed.

Lemma get_sheet_loop_shrinks :
  forall n a, maintains shrinks (get_sheet_loop E n a) (fun _ => True).
Proof.
  induction n as [|n IH]; intros a; cbn [get_sheet_loop].
  - now by_ret.
  - by_try (fun _ : result (option (list nat)) => True); [| auto |].
    + by_bind; [apply shrinks_get_sheet | | auto]. intros ids _. now by_ret.
    + intros e _. destruct (a =? max_retries (config E) - 1); [now by_raise |].
      by_bind; [apply shrinks_log | | auto].
      intros _ _. by_bind; [apply shrinks_sleep | | auto].
      intros _ _. apply IH.
Qed.

Lemma delete_loop_shrinks (b : nat) (ids : list nat) :
  forall n a, maintains shrinks (delete_loop E b ids n a) (fun _ => True).
Proof.
  induction n as [|n IH]; intros a; cbn [delete_loop].
  - now by_ret.
  - by_try (fun _ : result unit => True); [apply shrinks_delete_rows | auto |].
    intros e _. destruct (a =? max_retries (config E) - 1); [now by_raise |].
    by_bind; [apply shrinks_log | | auto].
    intros _ _. by_bind; [apply shrinks_sleep | | auto].
    intros _ _. apply IH.
Qed.

Lemma clear_batches_shrinks (row_ids : list nat) (tb : nat) :
  forall n b, maintains shrinks (clear_batches E row_ids tb n b) (fun _ => True).
Proof.
  induction n as [|n IH]; intros b; cbn [clear_batches].
  - now by_ret.
  - eapply maintains_bind with (Q := fun _ => True);
      [relation_laws | | intros c _; destruct c; [apply IH | now by_ret] | auto].
    unfold clear_batch.
    by_bind; [apply shrinks_upload_cancelled | | auto].
    intros c _. destruct c; [now by_ret |].
    by_bind; [apply delete_loop_shrinks | | auto].
    intros _ _. by_bind; [apply shrinks_log | | auto].
    intros _ _. eapply maintains_bind with (Q := fun _ => True); [relation_laws | | | auto].
    + destruct (b <? tb - 1); [| now by_ret].
      intros w. split; [apply (shrinks_sleep _ w) | exact I].
    + intros _ _. now by_ret.
Qed.

Lemma clear_smartsheet_data_enhanced_shrinks :
  maintains shrinks (clear_smartsheet_data_enhanced E) (fun _ => True).
Proof.
  unfold clear_smartsheet_data_enhanced.
  by_try (fun _ : result unit => True); [| auto |].
  - by_bind; [apply shrinks_log | | auto].
    intros _ _. by_bind; [apply get_sheet_loop_shrinks | | auto].
    intros [row_ids|] _; [| now by_raise].
    destruct (length row_ids =? 0).
    + intros w. split; [apply (shrinks_log _ w) | exact I].
    + by_bind; [apply shrinks_log | | auto].
      intros _ _. by_bind; [apply clear_batches_shrinks | | auto].
      intros finished _. destruct finished; [| now by_ret].
      intros w. split; [apply (shrinks_log _ w) | exact I].
  - intros e _. by_bind; [apply shrinks_log | | auto].
    intros _ _. now by_raise.
Qed.

End Upload.

Lemma no_deletes (tr : list (api_call * option exn)) :
  forallb is_add_rows tr = true -> delete_calls tr = [].
Proof.
  induction tr as [|[c o] tr IH]; [reflexivity |]. simpl. intros H.
  apply andb_true_iff in H as [Hc Htr]. destruct c; try discriminate. auto.
Qed.

(** X1.  In append mode the rows already on the sheet are never touched.  Whatever
    the service answers and whenever cancellation is requested, the upload
    process ends with an outcome (no exception leaves it), every call it
    made is an [add_rows], and the sheet holds the rows it held, in the same
    order, followed by those added. *)
Theorem append_mode_only_appends (E : env) (df : DataFrame) (w : world) :
  exists (o : outcome) (w' : world) (added : list (nat * remote_row))
         (tr : list (api_call * option exn)),
    upload_process E false df w = (Ret o, w') /\
    sheet_rows w' = sheet_rows w ++ added /\
    calls w' = calls w ++ tr /\
    forallb is_add_rows tr = true /\
    delete_calls tr = [].
Proof.
  destruct (upload_process_extends E df w)
    as [[(added & Hrows) (tr & Hcalls & Htr) _ _] (o & Ho)].
  destruct (upload_process E false df w) as [r w'] eqn:Hrun. simpl in *. subst r.
  exists o, w', added, tr. repeat split; auto using no_deletes.
Qed.

(** X2.  Every progress event of the upload phase carries the number of rows
    of the table as its total, a counter of uploaded rows that does not
    exceed it, and a percentage between 40 and 90; the phase itself never
    raises, it returns a Boolean. *)
Theorem upload_progress_in_range (E : env) (df : DataFrame) (w : world) :
  exists (success : bool) (w' : world) (evs : list event),
    upload_data_enhanced E df w = (Ret success, w') /\
    queue w' = queue w ++ evs /\
    Forall (fun e => match e with
                     | Log _ => True
                     | ProgressUpdate uploaded total pct =>
                         total = len df /\ uploaded <= len df /\
                         (40 <= pct)%Q /\ (pct <= 90)%Q
                     end) evs.
Proof.
  destruct (upload_data_enhanced_extends E df w) as [[_ _ (evs & Hq & Hall) _] (b & Hb)].
  destruct (upload_data_enhanced E df w) as [r w'] eqn:Hrun. simpl in *. subst r.
  exists b, w', evs. split; [reflexivity |]. split; [exact Hq |].
  eapply Forall_impl; [exact Hall |]. intros [m | u t p]; simpl; auto.
Qed.

(** X3.  The clearing phase never adds anything.  Whatever the service
    answers and whenever cancellation is requested, whether it ends normally
    or raises, no call it made is an [add_rows] and the sheet holds, in the
    same order, the rows it held that no delete that succeeded names. *)
Theorem clearing_only_removes (E : env) (w : world) :
  exists tr : list (api_call * option exn),
    let w' := snd (clear_smartsheet_data_enhanced E w) in
    calls w' = calls w ++ tr /\
    existsb is_add_rows tr = false /\
    sheet_rows w' = List.filter (survives (concat (deleted_batches tr))) (sheet_rows w) /\
    next_row_id w' = next_row_id w.
Proof.
  destruct (clear_smartsheet_data_enhanced_shrinks E w)
    as [[(tr & Hcalls & Htr & Hrows) Hnext _] _].
  exists tr. auto.
Qed.

End EffectsFacts.

(** ** Runs that succeed, runs that cannot start *)

Module RunFacts.
Import PyFacts Num Pandas Sync Effects SyncFacts EffectsFacts Scenarios MoreScenarios.
Local Open Scope nat_scope.

Section Run.
Context (E : env).

Lemma batch_count_pos (n bs : nat) : bs <> 0 -> n <> 0 -> 0 < batch_count n bs.
Proof. intros Hbs Hn. pose proof (batch_count_bounds n bs Hbs Hn). lia. Qed.

(** X4.  With a retry budget of zero no attempt is made at all.  In
    overwrite mode the sheet is never read, so the clearing phase raises on
    its unbound [sheet]; in append mode the retry loop of the first batch
    has no iteration.  Either way the process ends with the outcome Failure,
    having made no call and left the sheet as it was. *)
Theorem zero_retry_budget_makes_no_call (overwrite : bool) (df : DataFrame) (w : world) :
  max_retries (config E) = 0 ->
  cancel_at E = None ->
  overwrite = true \/ len df <> 0 ->
  exists w',
    upload_process E overwrite df w = (Ret Failure, w') /\
    calls w' = calls w /\
    sheet_rows w' = sheet_rows w.
Proof.
  intros Hmax Hnc Hcase.
  unfold upload_process, try_except, bind.
  destruct overwrite.
  - unfold clear_smartsheet_data_enhanced, try_except, bind. cbn [log].
    rewrite Hmax. cbn [get_sheet_loop ret raise log]. eexists. repeat split.
  - destruct Hcase as [Hc | Hlen]; [discriminate |].
    cbn [ret]. unfold upload_data_enhanced, try_except, bind.
    destruct (Nat.eqb_spec (batch_size (config E)) 0) as [Hz | Hnz].
    + cbn [raise log ret]. unfold cancelled_or_failed, bind, upload_cancelled, cancel_requested.
      rewrite Hnc. cbn [log ret]. eexists. repeat split.
    + cbn [log].
      pose proof (batch_count_pos (len df) _ Hnz Hlen) as Htb.
      destruct (batch_count (len df) (batch_size (config E))) as [|tb] eqn:Etb; [lia |].
      cbn [upload_batches]. unfold bind at 1. unfold upload_batch, bind.
      unfold upload_cancelled at 1, cancel_requested. rewrite Hnc. unfold lift.
      destruct (prepare_rows E _ _) as [rs|e].
      * rewrite Hmax. cbn [add_rows_loop ret log fst].
        unfold cancelled_or_failed, bind, upload_cancelled, cancel_requested.
        rewrite Hnc. cbn [log ret]. eexists. repeat split.
      * cbn [log ret]. unfold cancelled_or_failed, bind, upload_cancelled, cancel_requested.
        rewrite Hnc. cbn [log ret]. eexists. repeat split.
Qed.

Lemma add_rows_loop_ok (j : nat) (rows : list remote_row) :
  cancel_at E = None ->
  forall n a w,
  a + n = max_retries (config E) ->
  (exists i, a <= i < a + n /\ add_rows_outcome E j i = None) ->
  exists w', add_rows_loop E j rows n a w = (Ret Uploaded, w').
Proof.
  intros Hnc. induction n as [|n IH]; intros a w Han (i & Hi & Hok); [lia |].
  cbn [add_rows_loop]. unfold bind at 1. unfold upload_cancelled, cancel_requested.
  rewrite Hnc. unfold try_except, bind, add_rows.
  destruct (add_rows_outcome E j a) as [e|] eqn:Ha.
  - assert (a <> i) by congruence.
    destruct (Nat.ltb_spec a (max_retries (config E) - 1)) as [Hlt | Hge]; [| lia].
    cbn [log sleep]. apply IH; [lia |]. exists i. split; [lia | exact Hok].
  - eexists. reflexivity.
Qed.

Lemma prepare_rows_app_ok numeric (l1 l2 : list (list (string * cell))) (rs : list remote_row) :
  prepare_rows E numeric (l1 ++ l2) = Ret rs ->
  exists r1 r2, prepare_rows E numeric l1 = Ret r1 /\ prepare_rows E numeric l2 = Ret r2.
Proof.
  rewrite prepare_rows_app.
  destruct (prepare_rows E numeric l1) as [r1|]; [| discriminate].
  destruct (prepare_rows E numeric l2) as [r2|]; [| discriminate].
  eauto.
Qed.

Lemma prepare_rows_slice_ok numeric (l : list (list (string * cell))) (rs : list remote_row)
  (a b : nat) :
  prepare_rows E numeric l = Ret rs ->
  exists r, prepare_rows E numeric (slice a b l) = Ret r.
Proof.
  intros H. unfold slice.
  rewrite <- (take_drop a l) in H.
  apply prepare_rows_app_ok in H as (_ & r2 & _ & H2).
  rewrite <- (take_drop (b - a) (drop a l)) in H2.
  apply prepare_rows_app_ok in H2 as (r & _ & Hr & _). eauto.
Qed.

Lemma upload_batches_ok (df : DataFrame) (tr tb : nat) (rs : list remote_row) :
  cancel_at E = None ->
  prepare_rows E (Cin7.all_numeric_columns df) (rows df) = Ret rs ->
  (forall b, b < tb -> exists a, a < max_retries (config E) /\ add_rows_outcome E b a = None) ->
  forall n b up w,
  b + n = tb ->
  exists up' w', upload_batches E df tr tb n b up w = (Ret (true, up'), w').
Proof.
  intros Hnc Hprep Hok. induction n as [|n IH]; intros b up w Hbn.
  - eexists. eexists. reflexivity.
  - cbn [upload_batches]. unfold bind at 1. unfold upload_batch, bind.
    unfold upload_cancelled at 1, cancel_requested. rewrite Hnc. unfold lift.
    destruct (prepare_rows_slice_ok _ _ _ (b * batch_size (config E))
                (Nat.min ((b + 1) * batch_size (config E)) tr) Hprep) as [r Hr].
    rewrite Hr.
    destruct (Hok b) as (a & Ha & Hsucc); [lia |].
    destruct (add_rows_loop_ok b r Hnc (max_retries (config E)) 0 (tick w))
      as [w1 Hloop]; [lia | exists a; split; [lia | exact Hsucc] |].
    rewrite Hloop. cbn [log put].
    destruct (b <? tb - 1); cbn [sleep ret]; apply IH; lia.
Qed.

(** X5.  A run in append mode that nothing stops.  The labels and the
    cells of the table are ASCII, the batch size is not zero, no
    cancellation is requested, no cell raises when the rows are prepared
    (none reads as an infinity under a numeric column), and each batch has
    an attempt within the retry budget that succeeds.  Then the process ends
    with the outcome Success carrying the number of rows of the table, and
    the sheet holds what it held followed by the rows prepared from the
    whole table, in the order of the table. *)
Theorem upload_succeeds_within_budget (df : DataFrame) (w : world) (rs : list remote_row) :
  let bs := batch_size (config E) in
  bs <> 0 ->
  cancel_at E = None ->
  ascii_frame df = true ->
  prepare_rows E (Cin7.all_numeric_columns df) (rows df) = Ret rs ->
  (forall b, b < batch_count (len df) bs ->
     exists a, a < max_retries (config E) /\ add_rows_outcome E b a = None) ->
  exists w',
    upload_process E false df w = (Ret (Success (len df)), w') /\
    sheet_rows w' = sheet_rows w ++ number_from (next_row_id w) rs.
Proof.
  intros bs Hbs Hnc _ Hprep Hok.
  set (tb := batch_count (len df) bs) in *.
  destruct (upload_batches_ok df (len df) tb rs Hnc Hprep Hok tb 0 0
              (snd (log (MsgUploadStart (len df) tb) w))) as (up & w1 & Hrun); [lia |].
  destruct (upload_batches_done _ _ _ _ _ _ _ _ _ _ Hrun (eq_sym (rows_length df)))
    as (rs' & Hrs' & Hrows & _ & _).
  assert (Hall : rs' = rs).
  { rewrite <- (rows_length df), Nat.mul_0_l, Nat.add_0_l, slice_prefix in Hrs'.
    rewrite take_ge in Hrs'; [congruence |].
    rewrite rows_length. destruct (Nat.eq_dec (len df) 0) as [Hz | Hnz]; [lia |].
    pose proof (batch_count_bounds (len df) bs Hbs Hnz). fold tb in H. lia. }
  subst rs'.
  eexists. split.
  - unfold upload_process, try_except, bind, ret.
    unfold upload_data_enhanced, try_except, bind. fold bs.
    destruct (Nat.eqb_spec bs 0) as [Hz | _]; [contradiction |]. fold tb.
    change (log (MsgUploadStart (len df) tb) w)
      with (Ret tt, snd (log (MsgUploadStart (len df) tb) w)).
    cbv beta iota. rewrite Hrun. cbn [ret fst].
    unfold upload_cancelled, cancel_requested. rewrite Hnc. cbn [negb log ret]. reflexivity.
  - simpl. exact Hrows.
Qed.

End Run.

(** X5 on one product added to a sheet of one row, the service failing twice
    before it accepts the batch. *)
Lemma upload_succeeds_within_budget_witness :
  exists w',
    upload_process flaky_env false one_product (initial_world one_remote_row 1)
      = (Ret (Success 1), w') /\
    map fst (sheet_rows w') = [0; 1].
Proof.
  destruct (upload_succeeds_within_budget flaky_env one_product
              (initial_world one_remote_row 1)
              [mkRow true [mkCell 11 (VStr "A1"); mkCell 12 (VInt 3)]])
    as (w' & Hrun & Hrows).
  - simpl. lia.
  - reflexivity.
  - reflexivity.
  - vm_compute. reflexivity.
  - intros b _. exists 2. split; [simpl; lia | reflexivity].
  - exists w'. split; [exact Hrun |]. rewrite Hrows. reflexivity.
Defined.

(** X4 in overwrite mode on a sheet of one row. *)
Lemma zero_retry_budget_makes_no_call_witness :
  exists w',
    upload_process no_retries true one_product (initial_world one_remote_row 1)
      = (Ret Failure, w') /\
    calls w' = [] /\
    sheet_rows w' = one_remote_row.
Proof.
  apply (zero_retry_budget_makes_no_call no_retries true one_product
           (initial_world one_remote_row 1)).
  - reflexivity.
  - reflexivity.
  - left. reflexivity.
Defined.

End RunFacts.

(** ** The clearing phase cut short *)

Module ClearFacts.
Import PyFacts Num Pandas Sync Effects SyncFacts EffectsFacts RunFacts Scenarios MoreScenarios.
Local Open Scope nat_scope.

Section Run.
Context (E : env).

Lemma clear_batches_split (row_ids : list nat) (tb k m : nat) :
  forall b w,
  clear_batches E row_ids tb (k + m) b w =
  match clear_batches E row_ids tb k b w with
  | (Ret true, w') => clear_batches E row_ids tb m (k + b) w'
  | r => r
  end.
Proof.
  induction k as [|k IH]; intros b w.
  - reflexivity.
  - cbn [Nat.add clear_batches]. unfold bind.
    destruct (clear_batch E row_ids tb b w) as [[[|]|e] w1]; try reflexivity.
    rewrite IH. replace (k + S b) with (S (k + b)) by lia. reflexivity.
Qed.

Lemma clear_batches_prefix (row_ids : list nat) (tb : nat) :
  cancel_at E = None ->
  forall n b w,
  (forall j, b <= j < b + n ->
     exists a, a < max_retries (config E) /\ delete_rows_outcome E j a = None) ->
  exists w',
    clear_batches E row_ids tb n b w = (Ret true, w') /\
    sheet_rows w' =
      List.filter (survives (concat (map (clear_batch_ids row_ids) (seq b n)))) (sheet_rows w).
Proof.
  intros Hnc. induction n as [|n IH]; intros b w Hok.
  - exists w. split; [reflexivity |]. simpl. now rewrite filter_survives_nil.
  - cbn [clear_batches]. unfold bind at 1. unfold clear_batch, bind.
    unfold upload_cancelled, cancel_requested. rewrite Hnc.
    destruct (Hok b) as (a & Ha & Hsucc); [lia |].
    destruct (delete_loop_ok E b (clear_batch_ids row_ids b) (max_retries (config E)) 0 (tick w))
      as (w1 & tr1 & Hrun1 & Hrows1 & _); [lia | exists a; split; [lia | exact Hsucc] |].
    rewrite Hrun1. cbn [log].
    destruct (b <? tb - 1); cbn [sleep ret];
    match goal with
    | |- context [clear_batches E row_ids tb n (S b) ?w2] =>
        destruct (IH (S b) w2) as (w' & Hrun & Hrows); [intros j Hj; apply Hok; lia |];
        exists w'; split; [exact Hrun |];
        rewrite Hrows; simpl sheet_rows; rewrite Hrows1; cbn [seq map concat];
        simpl sheet_rows; apply filter_survives_app
    end.
Qed.

Lemma delete_loop_all_fail (b : nat) (ids : list nat) :
  forall n a w,
  a + n = max_retries (config E) -> 0 < n ->
  (forall i, a <= i < a + n -> delete_rows_outcome E b i <> None) ->
  exists e w',
    delete_loop E b ids n a w = (Raise e, w') /\
    sheet_rows w' = sheet_rows w.
Proof.
  induction n as [|n IH]; intros a w Han Hn Hfail; [lia |].
  cbn [delete_loop]. unfold try_except, bind, delete_rows.
  destruct (delete_rows_outcome E b a) as [e|] eqn:Ha.
  2:{ exfalso. apply (Hfail a); [lia | exact Ha]. }
  destruct (Nat.eqb_spec a (max_retries (config E) - 1)) as [Hlast | Hnot].
  - exists e, (record_call (DeleteRows ids) (Some e) w). repeat split.
  - destruct (IH (S a) (snd (sleep (retry_delay (config E))
                (snd (log (MsgRetryDelete (a + 1) (b + 1))
                          (record_call (DeleteRows ids) (Some e) w))))))
      as (e' & w' & Hrun & Hrows); [lia | lia | |].
    { intros i Hi. apply Hfail. lia. }
    exists e', w'. split; [exact Hrun | exact Hrows].
Qed.

(** X6.  A delete that fails at every attempt ends the whole process before
    anything is uploaded.  The sheet is read, the batches before batch [k]
    are deleted, and every attempt allowed for batch [k] fails, no
    cancellation being requested.  Then the process ends with the outcome
    Failure, no call made is an [add_rows], and the sheet holds the rows it
    held less those of the first [k] batches of 400: what was deleted stays
    deleted and nothing takes its place. *)
Theorem failed_delete_aborts_before_upload (df : DataFrame) (w0 : world) (k : nat) :
  let row_ids := map fst (sheet_rows w0) in
  let N := length row_ids in
  cancel_at E = None ->
  (exists a, a < max_retries (config E) /\ get_sheet_outcome E a = None) ->
  k < batch_count N 400 ->
  (forall b, b < k ->
     exists a, a < max_retries (config E) /\ delete_rows_outcome E b a = None) ->
  (forall a, a < max_retries (config E) -> delete_rows_outcome E k a <> None) ->
  exists w' tr,
    upload_process E true df w0 = (Ret Failure, w') /\
    sheet_rows w' = List.filter (survives (take (k * 400) row_ids)) (sheet_rows w0) /\
    calls w' = calls w0 ++ tr /\
    existsb is_add_rows tr = false.
Proof.
  intros row_ids N Hnc (a & Ha & Hget) Hk Hok Hfail.
  assert (HN : N <> 0).
  { intros HN. rewrite HN in Hk. unfold batch_count in Hk. simpl in Hk. lia. }
  destruct (get_sheet_loop_ok E (max_retries (config E)) 0 (snd (log MsgClearing w0)))
    as (w1 & tr1 & Hrun1 & Hrows1 & _);
    [lia | exists a; split; [lia | exact Hget] |].
  change (map fst (sheet_rows (snd (log MsgClearing w0)))) with row_ids in Hrun1.
  set (tb := batch_count N clear_batch_size).
  destruct (clear_batches_prefix row_ids tb Hnc k 0 (snd (log (MsgClearingPlan N tb) w1)))
    as (w2 & Hrun2 & Hrows2); [intros j Hj; apply Hok; lia |].
  destruct (delete_loop_all_fail k (clear_batch_ids row_ids k) (max_retries (config E)) 0 (tick w2))
    as (e & w3 & Hrun3 & Hrows3); [lia | lia | intros i Hi; apply Hfail; lia |].
  assert (Hclear : clear_smartsheet_data_enhanced E w0
                   = (Raise e, snd (log MsgClearError w3))).
  { unfold clear_smartsheet_data_enhanced, try_except, bind. cbn [log].
    change (mkWorld (sheet_rows w0) (next_row_id w0) (clock w0) (sleeps w0)
                    (queue w0 ++ [Log MsgClearing]) (calls w0))
      with (snd (log MsgClearing w0)).
    rewrite Hrun1. fold N.
    destruct (Nat.eqb_spec N 0) as [Hz | _]; [contradiction |].
    fold tb. cbn [log].
    change (mkWorld (sheet_rows w1) (next_row_id w1) (clock w1) (sleeps w1)
                    (queue w1 ++ [Log (MsgClearingPlan N tb)]) (calls w1))
      with (snd (log (MsgClearingPlan N tb) w1)).
    replace tb with (k + S (tb - k - 1)) at 2 by (unfold tb, clear_batch_size; lia).
    rewrite clear_batches_split, Hrun2, Nat.add_0_r.
    cbn [clear_batches]. unfold bind at 1. unfold clear_batch, bind.
    unfold upload_cancelled, cancel_requested. rewrite Hnc. rewrite Hrun3. reflexivity. }
  destruct (clear_smartsheet_data_enhanced_shrinks E w0) as [[(tr & Hcalls & Htr & _) _ _] _].
  rewrite Hclear in Hcalls. simpl in Hcalls.
  exists (snd (log MsgUploadProcessFailed (snd (log MsgClearError w3)))), tr.
  split; [| split; [| split]].
  - unfold upload_process, try_except, bind. rewrite Hclear. reflexivity.
  - simpl. rewrite Hrows3. simpl. rewrite Hrows2. simpl. rewrite Hrows1. simpl.
    rewrite concat_clear_batches, Nat.mul_0_l, Nat.add_0_l, slice_prefix. reflexivity.
  - exact Hcalls.
  - exact Htr.
Qed.

(** X7.  Cancellation seen by the clearing loop.  The sheet has been read,
    [k] batches have been deleted, leaving the world [w], and the flag reads
    True at the checkpoint before the next batch.  Then the clearing phase
    returns without a word, the upload phase that follows sees the flag at
    once, and the process ends with the outcome Cancelled: no call is made
    after [w], nothing is uploaded, and the rows still on the sheet in [w]
    stay. *)
Theorem cancellation_during_clearing (df : DataFrame) (w0 w1 w : world)
  (row_ids : list nat) (k t : nat) :
  let tb := batch_count (length row_ids) 400 in
  cancel_at E = Some t ->
  get_sheet_loop E (max_retries (config E)) 0 (snd (log MsgClearing w0))
    = (Ret (Some row_ids), w1) ->
  k < tb ->
  clear_batches E row_ids tb k 0 (snd (log (MsgClearingPlan (length row_ids) tb) w1))
    = (Ret true, w) ->
  t <= clock w ->
  exists w',
    upload_process E true df w0 = (Ret Cancelled, w') /\
    calls w' = calls w /\
    sheet_rows w' = sheet_rows w.
Proof.
  intros tb Hc Hget Hk Hprefix Ht.
  assert (Hflag : forall w2, t <= clock w2 -> cancel_requested E w2 = true).
  { intros w2 H. unfold cancel_requested. rewrite Hc. now apply Nat.leb_le. }
  assert (HN : length row_ids <> 0).
  { intros HN. unfold tb in Hk. rewrite HN in Hk. unfold batch_count in Hk. simpl in Hk. lia. }
  assert (Hclear : clear_smartsheet_data_enhanced E w0 = (Ret tt, tick w)).
  { unfold clear_smartsheet_data_enhanced, try_except, bind. cbn [log].
    change (mkWorld (sheet_rows w0) (next_row_id w0) (clock w0) (sleeps w0)
                    (queue w0 ++ [Log MsgClearing]) (calls w0))
      with (snd (log MsgClearing w0)).
    rewrite Hget.
    destruct (Nat.eqb_spec (length row_ids) 0) as [Hz | _]; [contradiction |].
    fold clear_batch_size. cbn [log].
    change (mkWorld (sheet_rows w1) (next_row_id w1) (clock w1) (sleeps w1)
                    (queue w1 ++ [Log (MsgClearingPlan (length row_ids)
                                         (batch_count (length row_ids) clear_batch_size))])
                    (calls w1))
      with (snd (log (MsgClearingPlan (length row_ids) tb) w1)).
    change (batch_count (length row_ids) clear_batch_size) with tb.
    replace tb with (k + S (tb - k - 1)) at 2 by lia.
    rewrite clear_batches_split, Hprefix, Nat.add_0_r.
    cbn [clear_batches]. unfold bind at 1. unfold clear_batch, bind.
    rewrite upload_cancelled_eq, (Hflag w Ht). reflexivity. }
  unfold upload_process, try_except, bind. rewrite Hclear.
  unfold upload_data_enhanced, try_except, bind.
  destruct (batch_size (config E) =? 0).
  - cbn [raise log ret]. unfold cancelled_or_failed, bind.
    rewrite upload_cancelled_eq, Hflag by (simpl; lia).
    cbn [log ret]. eexists. repeat split.
  - cbn [log].
    destruct (batch_count (len df) (batch_size (config E))) as [|n].
    + cbn [upload_batches ret fst]. rewrite upload_cancelled_eq, Hflag by (simpl; lia).
      cbn [negb]. unfold cancelled_or_failed, bind.
      rewrite upload_cancelled_eq, Hflag by (simpl; lia).
      cbn [log ret]. eexists. repeat split.
    + cbn [upload_batches]. unfold bind at 1.
      rewrite upload_batch_cancelled by (apply Hflag; simpl; lia).
      cbn [log ret fst]. unfold cancelled_or_failed, bind.
      rewrite upload_cancelled_eq, Hflag by (simpl; lia).
      cbn [log ret]. eexists. repeat split.
Qed.

End Run.

(** X6 on 801 rows, the third batch being the one that cannot be deleted:
    its single row is all that is left. *)
Lemma failed_delete_aborts_before_upload_witness :
  exists w',
    upload_process third_delete_down true one_product (initial_world many_remote_rows 801)
      = (Ret Failure, w') /\
    map fst (sheet_rows w') = [800].
Proof.
  destruct (failed_delete_aborts_before_upload third_delete_down one_product
              (initial_world many_remote_rows 801) 2)
    as (w' & tr & Hrun & Hrows & _).
  - reflexivity.
  - exists 0. split; [simpl; lia | reflexivity].
  - vm_compute. lia.
  - intros b Hb. exists 0. split; [simpl; lia |].
    destruct b as [|[|b]]; [reflexivity | reflexivity | lia].
  - intros a _. simpl. discriminate.
  - exists w'. split; [exact Hrun |]. rewrite Hrows. vm_compute. reflexivity.
Defined.

(** X7 on 801 rows, the user cancelling while the first batch is deleted:
    401 rows are left. *)
Lemma cancellation_during_clearing_witness :
  exists w',
    upload_process cancel_while_clearing true one_product (initial_world many_remote_rows 801)
      = (Ret Cancelled, w') /\
    length (sheet_rows w') = 401 /\
    length (calls w') = 2.
Proof.
  destruct (cancellation_during_clearing cancel_while_clearing one_product
              (initial_world many_remote_rows 801)
              (snd (get_sheet_loop cancel_while_clearing 3 0
                      (snd (log MsgClearing (initial_world many_remote_rows 801)))))
              (snd (clear_batches cancel_while_clearing (seq 0 801) 3 1 0
                      (snd (log (MsgClearingPlan 801 3)
                         (snd (get_sheet_loop cancel_while_clearing 3 0
                            (snd (log MsgClearing (initial_world many_remote_rows 801)))))))))
              (seq 0 801) 1 3)
    as (w' & Hrun & Hcalls & Hrows).
  - reflexivity.
  - vm_compute. reflexivity.
  - vm_compute. lia.
  - vm_compute. reflexivity.
  - vm_compute. lia.
  - exists w'. split; [exact Hrun |]. rewrite Hrows, Hcalls. vm_compute. split; reflexivity.
Defined.

End ClearFacts.

(** ** The value of a submitted cell *)

Module CellFacts.
Import Py PyFacts Num NumFacts Pandas FrameFacts Cin7 CleaningFacts Sync Effects SyncFacts EffectsFacts RunFacts Scenarios MoreScenarios.

Lemma no_underscore_fixed (s : string) :
  all_chars (fun c => negb (Ascii.eqb c "_")) s = true ->
  forall b, drop_digit_underscores b s = s.
Proof.
  induction s as [|c s IH]; intros H b; simpl in *; [reflexivity |].
  apply andb_true_iff in H as [Hc Hs].
  apply negb_true_iff in Hc. rewrite Hc. simpl. now rewrite IH.
Qed.

Lemma cspace_is_space (c : ascii) : is_space c = false -> is_cspace c = false.
Proof. destruct c as [[|] [|] [|] [|] [|] [|] [|] [|]]; vm_compute; congruence. Qed.

Lemma strip_fixed (s : string) :
  all_chars (fun c => negb (is_space c)) s = true -> strip s = s.
Proof.
  intros H. unfold strip. rewrite (lstrip_by_none is_space s H).
  now apply rstrip_by_none.
Qed.

Lemma parse_decimal_str_int (z : Z) : parse_decimal (str_int z) = Some (NInt z).
Proof.
  destruct (str_int_shape z) as (neg & d & -> & Hd & Hv).
  now rewrite (parse_decimal_digits neg d Hd), Hv.
Qed.

Lemma py_float_of_str_int (z : Z) :
  py_float (strip (str_int z)) = Some (binary64 (of_int z)).
Proof.
  pose proof (str_int_chars z) as Hch.
  rewrite strip_fixed.
  2:{ eapply all_chars_impl; [| exact Hch]. intros c.
      destruct c as [[|] [|] [|] [|] [|] [|] [|] [|]]; vm_compute; congruence. }
  unfold py_float. rewrite no_underscore_fixed.
  2:{ eapply all_chars_impl; [| exact Hch]. intros c.
      destruct c as [[|] [|] [|] [|] [|] [|] [|] [|]]; vm_compute; congruence. }
  now rewrite parse_decimal_str_int.
Qed.

(** [float(str(z))] is [z] up to 2^53. *)
Lemma py_float_str_int (z : Z) :
  Z.abs z <= 2 ^ 53 -> py_float (strip (str_int z)) = Some (of_int z).
Proof. intros Hz. now rewrite py_float_of_str_int, binary64_of_int. Qed.

(** [float(str(z))] is an infinity from 2^1024 on. *)
Lemma py_float_big_int (z : Z) :
  2 ^ 1024 <= Z.abs z -> py_float (strip (str_int z)) = Some (FInf (z <? 0)).
Proof.
  intros Hz. rewrite py_float_of_str_int.
  destruct (of_int_value z) as (m & e & -> & He & Hval).
  assert (Hp : 0 < 10 ^ e) by (apply Z.pow_pos_nonneg; lia).
  assert (H1024 : 0 < 2 ^ 1024) by (apply Z.pow_pos_nonneg; lia).
  rewrite binary64_overflow.
  - f_equal. f_equal.
    destruct (Z.ltb_spec m 0), (Z.ltb_spec z 0); try reflexivity; nia.
  - exact He.
  - rewrite Hval, Z.abs_mul, (Z.abs_eq (10 ^ e)) in Hz by lia. exact Hz.
Qed.

Lemma parse_decimal_repr (m e : Z) :
  normal (FFin m e) -> positional (FFin m e) = true ->
  parse_decimal (repr (FFin m e)) = Some (NFloat (FFin m e)).
Proof.
  intros Hn Hp.
  destruct (repr_shape m e Hn Hp) as (ip & fp & -> & Hip & Hfp & Hlen & Hval).
  rewrite parse_decimal_point by assumption. now rewrite Hval.
Qed.

(** A float written without exponent is read back as the binary64 number
    nearest to what is written. *)
Lemma py_float_repr (m e : Z) :
  normal (FFin m e) -> positional (FFin m e) = true ->
  py_float (strip (repr (FFin m e))) = Some (binary64 (FFin m e)).
Proof.
  intros Hn Hp. pose proof (repr_chars m e Hn Hp) as Hch.
  rewrite strip_fixed.
  2:{ eapply all_chars_impl; [| exact Hch]. intros c.
      destruct c as [[|] [|] [|] [|] [|] [|] [|] [|]]; vm_compute; congruence. }
  unfold py_float. rewrite no_underscore_fixed.
  2:{ eapply all_chars_impl; [| exact Hch]. intros c.
      destruct c as [[|] [|] [|] [|] [|] [|] [|] [|]]; vm_compute; congruence. }
  now rewrite parse_decimal_repr.
Qed.

Lemma py_float_normal (text : string) (f : float64) : py_float text = Some f -> normal f.
Proof.
  unfold py_float.
  destruct (parse_decimal _) as [n|] eqn:Hp.
  - intros [= <-]. apply binary64_normal. eapply parse_decimal_normal, Hp.
  - destruct (parse_word text) as [g|] eqn:Hw.
    + intros [= <-]. unfold parse_word in Hw.
      destruct (_ || _) in Hw; [injection Hw as <-; exact I |].
      destruct (_ || _) in Hw; [injection Hw as <-; exact I | discriminate].
    + destruct (_ || _); [intros [= <-]; exact I | discriminate].
Qed.

(** A float without fractional part is the float of an integer. *)
Lemma integral_of_int (m e : Z) : normal (FFin m e) -> 0 <= e -> FFin m e = of_int (m * 10 ^ e).
Proof.
  intros [[-> ->] | Hmod] He; [reflexivity |].
  unfold of_int. rewrite <- (Z2Nat.id e) at 2 by exact He.
  rewrite mk_fin_pow by exact Hmod. f_equal. rewrite Z2Nat.id by exact He. lia.
Qed.

(** X8.  What a cell of a numeric column is sent as, [float] rounding to
    binary64.  An integer up to 2^53 is sent as that integer, and so is a
    float without fractional part up to 2^53 that [str] writes without
    exponent; an integer from 2^1024 on makes the preparation of the row
    raise.  Whatever the cell, a value sent as a float has a fractional part.
    For a cell whose string is ASCII: the string is sent only when [float]
    refuses it or reads it as a NaN, and the only exception that the
    conversion lets through is the OverflowError of [int] on a text that
    [float] reads as an infinity. *)
Theorem numeric_cells_are_sent_as_numbers (numeric : list string) (col : string) :
  mem_string col numeric = true ->
  (forall z, Z.abs z <= 2 ^ 53 -> cell_value_of numeric col (CInt z) = Ret (VInt z)) /\
  (forall z, 2 ^ 1024 <= Z.abs z ->
     cell_value_of numeric col (CInt z) = Raise OverflowError) /\
  (forall m e,
     normal (FFin m e) -> positional (FFin m e) = true ->
     0 <= e -> Z.abs (m * 10 ^ e) <= 2 ^ 53 ->
     cell_value_of numeric col (CFloat (FFin m e)) = Ret (VInt (m * 10 ^ e))) /\
  (forall v f,
     cell_value_of numeric col v = Ret (VFloat f) ->
     exists m e, f = FFin m e /\ e < 0 /\ m mod 10 <> 0) /\
  (forall v s,
     is_ascii (cell_str v) = true ->
     cell_value_of numeric col v = Ret (VStr s) ->
     s = strip (cell_str v) /\ (py_float s = None \/ py_float s = Some FNaN)) /\
  (forall v e,
     is_ascii (cell_str v) = true ->
     (cell_value_of numeric col v = Raise e <->
      e = OverflowError /\ exists neg, py_float (strip (cell_str v)) = Some (FInf neg))).
Proof.
  intros Hnum.
  assert (Hint : forall z, Z.abs z <= 2 ^ 53 ->
            cell_value_of numeric col (CInt z) = Ret (VInt z)).
  { intros z Hz. unfold cell_value_of. rewrite Hnum. cbn [cell_str].
    rewrite py_float_str_int by exact Hz.
    destruct (of_int_value z) as (m & e & -> & He & ->).
    destruct (Z.leb_spec 0 e); [reflexivity | lia]. }
  split; [exact Hint |]. split; [| split; [| split; [| split]]].
  - intros z Hz. unfold cell_value_of. rewrite Hnum. cbn [cell_str].
    now rewrite py_float_big_int.
  - intros m e Hn Hp He Hz. unfold cell_value_of. rewrite Hnum. cbn [cell_str].
    rewrite py_float_repr by assumption.
    rewrite (integral_of_int m e Hn He), binary64_of_int by exact Hz.
    rewrite <- (integral_of_int m e Hn He).
    destruct (Z.leb_spec 0 e); [reflexivity | lia].
  - intros v f. unfold cell_value_of. rewrite Hnum.
    destruct (py_float _) as [[| neg | m e]|] eqn:Hf; try discriminate.
    destruct (Z.leb_spec 0 e) as [Hle | Hlt]; [discriminate |].
    intros [= <-]. exists m, e. split; [reflexivity |]. split; [exact Hlt |].
    apply py_float_normal in Hf. destruct Hf as [[_ ->] | Hmod]; [lia | exact Hmod].
  - intros v s _. unfold cell_value_of. rewrite Hnum.
    destruct (py_float _) as [[| neg | m e]|] eqn:Hf.
    + intros [= <-]. split; [reflexivity | right; exact Hf].
    + discriminate.
    + destruct (0 <=? e); discriminate.
    + intros [= <-]. split; [reflexivity | left; exact Hf].
  - intros v e _. unfold cell_value_of. rewrite Hnum.
    destruct (py_float _) as [[| neg | m e']|] eqn:Hf.
    + split; [discriminate | intros [_ [neg H]]; discriminate].
    + split; [intros [= <-]; eauto | intros [-> _]; reflexivity].
    + split; [destruct (0 <=? e'); discriminate | intros [_ [neg H]]; discriminate].
    + split; [discriminate | intros [_ [neg H]]; discriminate].
Qed.

(** X8 on the stock column: 1200 and 1200.0 are sent as 1200 and an integer
    of 400 digits raises; 2.5 is sent as it is, 0.1 as the binary64 number
    next to it, 1e23 and 2^53 + 1 as the integers that their floats are, and
    1e309 raises. *)
Lemma numeric_cells_are_sent_as_numbers_witness :
  cell_value_of ["SOH"] "SOH" (CInt 1200) = Ret (VInt 1200) /\
  cell_value_of ["SOH"] "SOH" (CInt (10 ^ 400)) = Raise OverflowError /\
  cell_value_of ["SOH"] "SOH" (CFloat (FFin 12 2)) = Ret (VInt 1200) /\
  cell_value_of ["SOH"] "SOH" (CFloat (FFin 25 (-1))) = Ret (VFloat (FFin 25 (-1))) /\
  cell_value_of ["SOH"] "SOH" (CStr "0.1")
    = Ret (VFloat (FFin 1000000000000000055511151231257827021181583404541015625 (-55))) /\
  cell_value_of ["SOH"] "SOH" (CStr "1e23") = Ret (VInt 99999999999999991611392) /\
  cell_value_of ["SOH"] "SOH" (CInt (2 ^ 53 + 1)) = Ret (VInt (2 ^ 53)) /\
  cell_value_of ["SOH"] "SOH" (CStr "1e309") = Raise OverflowError.
Proof.
  destruct (numeric_cells_are_sent_as_numbers ["SOH"] "SOH" eq_refl)
    as (Hint & Hbig & Hfloat & _).
  split; [apply Hint; vm_compute; discriminate |].
  split; [apply Hbig; vm_compute; discriminate |].
  split; [apply (Hfloat 12 2);
          [right; discriminate | reflexivity | lia | vm_compute; discriminate] |].
  vm_compute. repeat split.
Defined.

Section Run.
Context (E : env).

Lemma build_cells_raises numeric (row : list (string * cell)) (col : string) (v : cell) (e : exn) :
  In (col, v) row -> sendable E col v = true -> cell_value_of numeric col v = Raise e ->
  exists e', build_cells E numeric row = Raise e'.
Proof.
  induction row as [|[c x] row IH]; intros Hin Hs Hv; [contradiction |].
  cbn [build_cells]. destruct Hin as [[= -> ->] | Hin].
  - rewrite Hs, Hv. eauto.
  - destruct (sendable E c x); [| now apply IH].
    destruct (cell_value_of numeric c x); [| eauto].
    destruct (IH Hin Hs Hv) as [e' ->]. eauto.
Qed.

Lemma prepare_rows_raises numeric (batch : list (list (string * cell)))
  (row : list (string * cell)) :
  In row batch -> (exists e, build_cells E numeric row = Raise e) ->
  exists e', prepare_rows E numeric batch = Raise e'.
Proof.
  induction batch as [|r batch IH]; intros Hin [e He]; [contradiction |].
  cbn [prepare_rows]. destruct Hin as [-> | Hin].
  - rewrite He. eauto.
  - destruct (build_cells E numeric r); [| eauto].
    destruct (IH Hin (ex_intro _ e He)) as [e' ->]. eauto.
Qed.

(** X9.  A table with an infinite value is never uploaded whole.  Some row
    has, under a numeric column that the sheet has too, a value whose text
    [float] reads as an infinity: one of the words for it, or a number of
    which the nearest binary64 value is out of range.  Then, whatever the
    service answers, the upload phase returns False and the process in
    append mode does not end with the outcome Success. *)
Theorem infinite_value_fails_upload (df : DataFrame) (w : world)
  (row : list (string * cell)) (col : string) (v : cell) (neg : bool) :
  In row (rows df) ->
  In (col, v) row ->
  sendable E col v = true ->
  mem_string col (all_numeric_columns df) = true ->
  py_float (strip (cell_str v)) = Some (FInf neg) ->
  exists w',
    upload_data_enhanced E df w = (Ret false, w') /\
    (forall o, fst (upload_process E false df w) = Ret o -> o = Cancelled \/ o = Failure).
Proof.
  intros Hrow Hcell Hs Hnum Hinf.
  assert (Hv : cell_value_of (all_numeric_columns df) col v = Raise OverflowError).
  { unfold cell_value_of. now rewrite Hnum, Hinf. }
  destruct (prepare_rows_raises (all_numeric_columns df) (rows df) row Hrow
              (build_cells_raises _ _ _ _ _ Hcell Hs Hv)) as [e He].
  assert (Hfalse : exists w', upload_data_enhanced E df w = (Ret false, w')).
  { destruct (upload_data_enhanced_extends E df w) as [_ (b & Hb)].
    destruct (upload_data_enhanced E df w) as [r w'] eqn:Hrun. simpl in Hb. subst r.
    exists w'. f_equal. f_equal. destruct b; [| reflexivity]. exfalso.
    unfold upload_data_enhanced, try_except, bind in Hrun.
    destruct (Nat.eqb_spec (batch_size (config E)) 0%nat) as [Hz | Hnz].
    { cbn [raise log ret] in Hrun. discriminate. }
    cbn [log] in Hrun.
    destruct (upload_batches E df (len df) _ _ 0 0 _) as [[[ok up]|e'] w1] eqn:Hb;
      cbn [ret log fst] in Hrun; [| discriminate].
    injection Hrun as -> _.
    destruct (upload_batches_done _ _ _ _ _ _ _ _ _ _ Hb (eq_sym (rows_length df)))
      as (rs & Hrs & _).
    rewrite <- (rows_length df), Nat.mul_0_l, Nat.add_0_l, slice_prefix in Hrs.
    rewrite take_ge in Hrs; [congruence |].
    rewrite rows_length. destruct (Nat.eq_dec (len df) 0%nat) as [Hz | Hnz']; [lia |].
    pose proof (batch_count_bounds (len df) _ Hnz Hnz'). lia. }
  destruct Hfalse as [w' Hrun]. exists w'. split; [exact Hrun |].
  intros o. unfold upload_process, try_except, bind. cbn [ret]. rewrite Hrun.
  unfold cancelled_or_failed, bind. rewrite upload_cancelled_eq.
  destruct (cancel_requested E w'); cbn [log ret fst]; intros [= <-]; auto.
Qed.

End Run.

(** X9 on a stock written [1e309]: the upload fails before any call. *)
Lemma infinite_value_fails_upload_witness :
  exists w',
    upload_data_enhanced quiet_env overflowing_stock (initial_world [] 0) = (Ret false, w') /\
    calls w' = [].
Proof.
  destruct (infinite_value_fails_upload quiet_env overflowing_stock (initial_world [] 0)
              [("ProductCode", CStr "B2"); ("SOH", CStr "1e309")]
              "SOH" (CStr "1e309") false)
    as (w' & Hrun & _).
  - right. left. reflexivity.
  - right. left. reflexivity.
  - reflexivity.
  - reflexivity.
  - vm_compute. reflexivity.
  - exists w'. split; [exact Hrun |].
    change w' with (snd (Ret false, w')). rewrite <- Hrun. reflexivity.
Defined.

End CellFacts.

(** ** The schema and the log of the mapper *)

Module MappingFacts.
Import Py PyFacts Num NumFacts Pandas FrameFacts Cin7 MapperFacts Scenarios MoreScenarios MapperSpec.

Lemma is_prefix_trans (p q s : string) :
  is_prefix p q = true -> is_prefix q s = true -> is_prefix p s = true.
Proof.
  revert q s. induction p as [|a p IH]; intros q s Hpq Hqs; [reflexivity |].
  destruct q as [|b q]; [discriminate |]. destruct s as [|c s]; [discriminate |].
  cbn [is_prefix] in *. apply andb_true_iff in Hpq as [Hab Hpq].
  apply andb_true_iff in Hqs as [Hbc Hqs].
  apply Ascii.eqb_eq in Hab, Hbc. subst. rewrite Ascii.eqb_refl. simpl. eauto.
Qed.

Lemma contains_prefix (p q s : string) :
  is_prefix p q = true -> contains q s = true -> contains p s = true.
Proof.
  intros Hpq. induction s as [|c s IH]; cbn [contains]; intros H.
  - rewrite orb_false_r in H. rewrite (is_prefix_trans p q "" Hpq H). reflexivity.
  - apply orb_true_iff in H as [H | H].
    + rewrite (is_prefix_trans p q _ Hpq H). reflexivity.
    + rewrite (IH H). apply orb_true_r.
Qed.

(** Every label that a pattern of [ProductCode] occurs in has the pattern
    ["product"] of [Product] in it. *)
Lemma product_code_is_product (c : string) :
  matches_any (patterns_of "ProductCode") c = true ->
  matches_any (patterns_of "Product") c = true.
Proof.
  unfold matches_any.
  change (patterns_of "ProductCode") with ["productcode"; "product_code"; "product code"].
  change (patterns_of "Product") with ["product"; "description"; "product description"].
  cbn [existsb]. intros H.
  assert (Hc : contains "product" (lower c) = true).
  { apply orb_true_iff in H as [H | H];
      [| apply orb_true_iff in H as [H | H];
         [| apply orb_true_iff in H as [H | H]; [| discriminate]]];
      (eapply contains_prefix; [| exact H]; reflexivity). }
  now rewrite Hc.
Qed.

Lemma matches_nonempty (target c : string) :
  matches_any (patterns_of target) c = true ->
  In target (map fst cin7_column_mapping) -> truthy c = true.
Proof.
  intros H Hin. destruct c; [| reflexivity]. exfalso.
  cbn in Hin. repeat (destruct Hin as [<- | Hin]; [vm_compute in H; discriminate |]).
  exact Hin.
Qed.

Lemma getitem_length (df : DataFrame) (l : string) (s : Series) :
  rectangular df -> getitem df l = OneColumn s -> length s = index_len df.
Proof.
  unfold rectangular, getitem. intros Hr H.
  destruct (List.filter _ (columns df)) as [|c [|c' r]] eqn:Hf; try discriminate.
  injection H as <-.
  assert (Hin : In c (List.filter (fun c => String.eqb (fst c) l) (columns df)))
    by (rewrite Hf; now left).
  apply filter_In in Hin as [Hin _].
  rewrite List.Forall_forall in Hr. now apply Hr.
Qed.

(** The columns [a] and [b] of the frame being built both hold [s]. *)
Lemma map_target_keeps (df : DataFrame) (a b : string) (s : Series) (st st' : mapping_state)
  (entry : string * list string) :
  rectangular df ->
  fst entry <> a -> fst entry <> b ->
  map_target df st entry = inl st' ->
  index_len (mapped_df st) = index_len df ->
  getitem (mapped_df st) a = OneColumn s ->
  getitem (mapped_df st) b = OneColumn s ->
  index_len (mapped_df st') = index_len df /\
  getitem (mapped_df st') a = OneColumn s /\
  getitem (mapped_df st') b = OneColumn s.
Proof.
  intros Hrect Ha Hb. destruct entry as [target pats]. simpl in Ha, Hb.
  unfold map_target.
  assert (Hscalar : forall v,
    index_len (setitem_scalar (mapped_df st) target v) = index_len (mapped_df st) /\
    getitem (setitem_scalar (mapped_df st) target v) a = getitem (mapped_df st) a /\
    getitem (setitem_scalar (mapped_df st) target v) b = getitem (mapped_df st) b).
  { intros v. unfold setitem_scalar. split; [reflexivity |].
    split; rewrite (getitem_set_column_other _ (index_len (mapped_df st))) by assumption;
      now destruct (mapped_df st). }
  destruct (find_source pats df) as [src|].
  - destruct (truthy src).
    + destruct (getitem df src) as [| s' |] eqn:Hsrc; try discriminate.
      intros [= <-] Hlen Hga Hgb. cbn [mapped_df].
      rewrite setitem_series_aligned
        by (rewrite Hlen; eapply getitem_length; eassumption).
      split; [exact Hlen |].
      split; rewrite (getitem_set_column_other _ (index_len (mapped_df st))) by assumption;
        now destruct (mapped_df st).
    + intros [= <-] Hlen Hga Hgb. cbn [mapped_df].
      destruct (Hscalar (CStr (default_value target))) as (-> & -> & ->). auto.
  - intros [= <-] Hlen Hga Hgb. cbn [mapped_df].
    destruct (Hscalar (CStr (default_value target))) as (-> & -> & ->). auto.
Qed.

Lemma map_targets_keep (df : DataFrame) (a b : string) (s : Series)
  (entries : list (string * list string)) :
  rectangular df ->
  Forall (fun e => fst e <> a /\ fst e <> b) entries ->
  forall st st',
  map_targets df entries st = inl st' ->
  index_len (mapped_df st) = index_len df ->
  getitem (mapped_df st) a = OneColumn s ->
  getitem (mapped_df st) b = OneColumn s ->
  index_len (mapped_df st') = index_len df /\
  getitem (mapped_df st') a = OneColumn s /\
  getitem (mapped_df st') b = OneColumn s.
Proof.
  intros Hrect. induction 1 as [|e entries [Ha Hb] _ IH]; intros st st'; cbn [map_targets].
  - intros [= <-]. auto.
  - destruct (map_target df st e) as [st1|] eqn:H1; [| discriminate].
    intros Hrest Hlen Hga Hgb.
    destruct (map_target_keeps _ _ _ _ _ _ _ Hrect Ha Hb H1 Hlen Hga Hgb) as (? & ? & ?).
    eapply IH; eassumption.
Qed.


Lemma add_available_sets (st : mapping_state) :
  well_formed (mapped_df st) ->
  In "SOH" (labels (mapped_df st)) -> In "Open Sales" (labels (mapped_df st)) ->
  exists av msg,
    add_available st =
      mkMapping (mkFrame (index_len (mapped_df st))
                   (set_column "Available" av (columns (mapped_df st))))
                (mapping_results st) (mapping_log st ++ [msg]) /\
    length av = index_len (mapped_df st) /\
    (msg = MsgAvailableCalculated \/ msg = MsgAvailableDefault).
Proof.
  intros Hwf Hsoh Hos. set (m := mapped_df st) in *.
  destruct (getitem_unique m "SOH" Hwf Hsoh) as (soh & Hgsoh & Hlsoh).
  destruct (getitem_unique m "Open Sales" Hwf Hos) as (os & Hgos & Hlos).
  unfold add_available. fold m. cbn [forallb].
  rewrite (proj2 (mem_string_spec "SOH" (labels m)) Hsoh).
  rewrite (proj2 (mem_string_spec "Open Sales" (labels m)) Hos).
  cbn [andb]. rewrite Hgsoh, Hgos, available_series_spec.
  destruct (forallb has_difference (zip soh os)).
  - exists (zip_with available_cell soh os), MsgAvailableCalculated.
    assert (Hlen : length (zip_with available_cell soh os) = index_len m)
      by (rewrite length_zip_with; lia).
    rewrite (setitem_series_aligned m _ _ Hlen). auto.
  - exists (repeat (CStr "0") (index_len m)), MsgAvailableDefault.
    unfold setitem_scalar. rewrite repeat_length. auto.
Qed.

Lemma set_column_labels_fresh (l : string) (s : Series) (cols : list (string * Series)) :
  ~ In l (map fst cols) -> map fst (set_column l s cols) = map fst cols ++ [l].
Proof.
  intros H. rewrite set_column_labels.
  destruct (mem_string l (map fst cols)) eqn:Hm; [| reflexivity].
  apply mem_string_spec in Hm. contradiction.
Qed.

Lemma map_target_step (df : DataFrame) (st st' : mapping_state)
  (entry : string * list string) :
  map_target df st entry = inl st' ->
  ~ In (fst entry) (labels (mapped_df st)) ->
  labels (mapped_df st') = labels (mapped_df st) ++ [fst entry] /\
  mapping_log st' = mapping_log st ++ [diagnostic df entry] /\
  length (mapping_results st') = S (length (mapping_results st)).
Proof.
  destruct entry as [target pats]. unfold map_target, diagnostic. cbn [fst snd].
  intros H Hfresh.
  assert (Hscalar : forall v,
            labels (setitem_scalar (mapped_df st) target v)
            = labels (mapped_df st) ++ [target]).
  { intros v. unfold setitem_scalar, labels. cbn [columns].
    now apply set_column_labels_fresh. }
  destruct (find_source pats df) as [src|].
  - destruct (truthy src).
    + destruct (getitem df src) as [| s |]; try discriminate.
      injection H as <-. cbn [mapped_df mapping_log mapping_results].
      split; [| split; [reflexivity | rewrite length_app; simpl; lia]].
      unfold setitem_series, labels.
      destruct (_ && _); cbn [index_len columns].
      * rewrite set_column_labels_fresh; rewrite map_map; [reflexivity | exact Hfresh].
      * now apply set_column_labels_fresh.
    + injection H as <-. cbn [mapped_df mapping_log mapping_results].
      split; [apply Hscalar | split; [reflexivity | rewrite length_app; simpl; lia]].
  - injection H as <-. cbn [mapped_df mapping_log mapping_results].
    split; [apply Hscalar | split; [reflexivity | rewrite length_app; simpl; lia]].
Qed.

Lemma map_targets_steps (df : DataFrame) (entries : list (string * list string)) :
  forall st st',
  map_targets df entries st = inl st' ->
  List.NoDup (labels (mapped_df st) ++ map fst entries) ->
  labels (mapped_df st') = labels (mapped_df st) ++ map fst entries /\
  mapping_log st' = mapping_log st ++ map (diagnostic df) entries /\
  length (mapping_results st') = (length (mapping_results st) + length entries)%nat.
Proof.
  induction entries as [|entry entries IH]; intros st st'; cbn [map_targets].
  - intros [= <-] _. simpl. rewrite !app_nil_r. auto.
  - destruct (map_target df st entry) as [st1|] eqn:H1; [| discriminate].
    intros Hrest Hnd. cbn [map] in Hnd.
    assert (Hfresh : ~ In (fst entry) (labels (mapped_df st))).
    { apply NoDup_remove_2 in Hnd. intros Hin. apply Hnd. apply in_or_app. now left. }
    destruct (map_target_step _ _ _ _ H1 Hfresh) as (Hl1 & Hg1 & Hr1).
    destruct (IH _ _ Hrest) as (Hl & Hg & Hr).
    { rewrite Hl1, <- app_assoc. exact Hnd. }
    rewrite Hl, Hg, Hr, Hl1, Hg1, Hr1, <- !app_assoc. simpl. repeat split. lia.
Qed.

Lemma map_targets_cons (df : DataFrame) (entry : string * list string)
  (entries : list (string * list string)) (st : mapping_state) :
  map_targets df (entry :: entries) st =
  match map_target df st entry with
  | inl st' => map_targets df entries st'
  | inr log => inr log
  end.
Proof. reflexivity. Qed.

(** X10.  The mapper either gives up, returning the table it was given with
    a warning as last log entry, or returns a well-formed table whose labels
    are the seven canonical ones followed by [Available], in that order.  In
    the second case the log has, after its opening entry, one entry for each
    canonical column in order (the source it was found in, or a warning that
    a default is used), then the entry of the Available column, then the
    count of mapped columns, which is always 7. *)
Theorem mapper_gives_canonical_schema (df : DataFrame) :
  (exists log, apply_cin7_column_mapping df = (df, log ++ [MsgMappingError])) \/
  (labels (fst (apply_cin7_column_mapping df)) = canonical_labels /\
   well_formed (fst (apply_cin7_column_mapping df)) /\
   exists available,
     snd (apply_cin7_column_mapping df)
     = MsgMappingStart :: map (diagnostic df) cin7_column_mapping
       ++ [available; MsgMappingComplete 7] /\
     (available = MsgAvailableCalculated \/ available = MsgAvailableDefault)).
Proof.
  unfold apply_cin7_column_mapping.
  destruct (map_targets df cin7_column_mapping (mkMapping empty_frame [] [MsgMappingStart]))
    as [st|log] eqn:Hmap; [right | left; eauto].
  destruct (map_targets_wf _ _ _ _ Hmap) as [Hwf Hlabels].
  { split; [constructor | constructor]. }
  destruct (map_targets_steps _ _ _ _ Hmap) as (Hl & Hg & Hr).
  { vm_compute. repeat constructor; simpl; intuition discriminate. }
  cbn [mapped_df mapping_log mapping_results empty_frame labels columns map app] in Hl, Hg, Hr.
  destruct (add_available_sets st Hwf) as (av & msg & Hadd & Hlen & Hmsg).
  { apply Hlabels. right. vm_compute. tauto. }
  { apply Hlabels. right. vm_compute. tauto. }
  rewrite Hadd. cbn [fst snd mapped_df mapping_log mapping_results].
  split; [| split].
  - unfold labels at 1. cbn [columns]. rewrite set_column_labels_fresh.
    + fold (labels (mapped_df st)). rewrite Hl. reflexivity.
    + fold (labels (mapped_df st)). rewrite Hl. vm_compute. intuition discriminate.
  - destruct Hwf as [Hrect Hnd]. split.
    + unfold rectangular. cbn [index_len columns].
      apply set_column_lengths; [exact Hlen | exact Hrect].
    + unfold labels. cbn [columns]. apply set_column_nodup. exact Hnd.
  - exists msg. split; [| exact Hmsg].
    rewrite Hg, Hr. cbn [length Nat.add]. rewrite <- app_assoc. reflexivity.
Qed.

(** X11.  A first column that a [ProductCode] pattern occurs in is taken for
    [Product] too: every pattern of [ProductCode] has the pattern [product]
    of [Product] in it, and each target takes the first column that matches.
    So in a rectangular table whose first label matches [ProductCode], when
    the mapping does not raise, the mapped [Product] column holds the product
    codes, whatever column the table has for the product itself. *)
Theorem product_is_taken_from_product_code (df : DataFrame) (st : mapping_state)
  (c : string) (rest : list string) :
  rectangular df ->
  labels df = c :: rest ->
  matches_any (patterns_of "ProductCode") c = true ->
  map_targets df cin7_column_mapping (mkMapping empty_frame [] [MsgMappingStart]) = inl st ->
  exists s,
    getitem df c = OneColumn s /\
    getitem (fst (apply_cin7_column_mapping df)) "ProductCode" = OneColumn s /\
    getitem (fst (apply_cin7_column_mapping df)) "Product" = OneColumn s /\
    diagnostic df ("Product", patterns_of "Product") = MsgMapped "Product" c.
Proof.
  intros Hrect Hlab Hpc Hmap.
  pose proof (product_code_is_product c Hpc) as Hp.
  assert (Htruthy : truthy c = true)
    by (apply (matches_nonempty "ProductCode" c Hpc); vm_compute; tauto).
  assert (Hfind : forall pats, matches_any pats c = true -> find_source pats df = Some c).
  { intros pats H. unfold find_source. rewrite Hlab. cbn [List.find]. now rewrite H. }
  pose proof Hmap as Hmap0.
  unfold cin7_column_mapping in Hmap. rewrite map_targets_cons in Hmap.
  unfold map_target at 1 in Hmap.
  change ["productcode"; "product_code"; "product code"] with (patterns_of "ProductCode") in Hmap.
  rewrite (Hfind _ Hpc), Htruthy in Hmap.
  destruct (getitem df c) as [| s |] eqn:Hs; try discriminate.
  exists s. split; [reflexivity |].
  pose proof (getitem_length df c s Hrect Hs) as Hlen.
  rewrite map_targets_cons in Hmap. unfold map_target at 1 in Hmap.
  change ["product"; "description"; "product description"] with (patterns_of "Product") in Hmap.
  rewrite (Hfind _ Hp), Htruthy, Hs in Hmap.
  cbn [mapped_df mapping_results mapping_log] in Hmap.
  assert (Hfirst : setitem_series empty_frame "ProductCode" s
                   = mkFrame (index_len df) [("ProductCode", s)]).
  { unfold setitem_series, empty_frame. cbn [index_len columns Nat.eqb andb map].
    destruct (Nat.eqb_spec (length s) 0) as [Hz | Hnz]; cbn [negb index_len columns set_column].
    - rewrite <- Hlen, Hz. destruct s; [reflexivity | discriminate].
    - rewrite reindex_same by reflexivity. now rewrite Hlen. }
  rewrite Hfirst in Hmap.
  rewrite (setitem_series_aligned (mkFrame (index_len df) [("ProductCode", s)])
             "Product" s Hlen) in Hmap.
  cbn [index_len columns set_column String.eqb Ascii.eqb Bool.eqb] in Hmap.
  match type of Hmap with
  | map_targets df ?entries ?st2 = _ =>
      assert (Hfresh : Forall (fun e : string * list string =>
                                 fst e <> "ProductCode" /\ fst e <> "Product") entries)
        by (repeat constructor; discriminate);
      destruct (map_targets_keep df "ProductCode" "Product" s entries Hrect Hfresh st2 st Hmap)
        as (_ & Hpc' & Hp'); [reflexivity | reflexivity | reflexivity |]
  end.
  destruct (map_targets_wf _ _ _ _ Hmap0) as [Hwf Hlabels].
  { split; [constructor | constructor]. }
  destruct (add_available_sets st Hwf) as (av & msg & Hadd & _).
  { apply Hlabels. right. vm_compute. tauto. }
  { apply Hlabels. right. vm_compute. tauto. }
  unfold apply_cin7_column_mapping. rewrite Hmap0, Hadd. cbn [fst mapped_df].
  split; [| split].
  - rewrite (getitem_set_column_other _ (index_len (mapped_df st))) by discriminate.
    destruct (mapped_df st); exact Hpc'.
  - rewrite (getitem_set_column_other _ (index_len (mapped_df st))) by discriminate.
    destruct (mapped_df st); exact Hp'.
  - unfold diagnostic. cbn [fst snd]. now rewrite (Hfind _ Hp), Htruthy.
Qed.

(** X11 on a table that already has the canonical columns: its product
    names are replaced by its product codes. *)
Lemma product_is_taken_from_product_code_witness :
  getitem canonical_table "Product" = OneColumn [CStr "Axle"; CStr "Brake"] /\
  getitem (fst (apply_cin7_column_mapping canonical_table)) "Product"
  = OneColumn [CStr "A1"; CStr "B2"].
Proof.
  split; [reflexivity |].
  destruct (product_is_taken_from_product_code canonical_table
              (match map_targets canonical_table cin7_column_mapping
                       (mkMapping empty_frame [] [MsgMappingStart]) with
               | inl st => st
               | inr _ => mkMapping empty_frame [] []
               end)
              "ProductCode"
              ["Product"; "Branch"; "SOH"; "Incoming NOT paid"; "Open Sales"; "Grand Total"])
    as (s & Hs & _ & Hp & _).
  - repeat constructor.
  - reflexivity.
  - reflexivity.
  - vm_compute. reflexivity.
  - rewrite Hp. vm_compute in Hs. injection Hs as <-. reflexivity.
Defined.

End MappingFacts.

(** ** The processing as a whole *)

Module ProcessFacts.
Import Py PyFacts Num NumFacts Pandas FrameFacts Cin7 CleaningFacts Scenarios.

Lemma all_numeric_columns_labels (df df' : DataFrame) :
  labels df' = labels df -> all_numeric_columns df' = all_numeric_columns df.
Proof.
  intros H. unfold all_numeric_columns, potential_numeric_cols. now rewrite H.
Qed.

Lemma fillna_empty_labels (df : DataFrame) :
  labels (fillna_empty df) = labels df /\ index_len (fillna_empty df) = index_len df.
Proof.
  split; [| reflexivity]. unfold labels, fillna_empty. cbn [columns].
  rewrite map_map. reflexivity.
Qed.

Lemma stringify_labels (df : DataFrame) :
  labels (stringify_non_numeric df) = labels df /\
  index_len (stringify_non_numeric df) = index_len df.
Proof.
  split; [| reflexivity]. unfold labels, stringify_non_numeric. cbn [columns].
  rewrite map_map. apply map_ext. intros c. now destruct (mem_string _ _).
Qed.

Lemma stringify_numeric (df : DataFrame) (l : string) :
  mem_string l (all_numeric_columns df) = true ->
  getitem (stringify_non_numeric df) l = getitem df l.
Proof.
  intros Hl. unfold getitem, stringify_non_numeric. cbn [columns].
  assert (H : List.filter (fun c => String.eqb (fst c) l)
                (map (fun c => if mem_string (fst c) (all_numeric_columns df)
                               then c else (fst c, astype_str (snd c))) (columns df))
              = List.filter (fun c => String.eqb (fst c) l) (columns df)).
  { induction (columns df) as [|[x t] cols IH]; [reflexivity |]. cbn [map fst snd].
    destruct (String.eqb_spec x l) as [-> | Hne].
    - rewrite Hl. cbn [List.filter fst]. rewrite String.eqb_refl. now rewrite IH.
    - destruct (mem_string x _); cbn [List.filter fst];
        destruct (String.eqb_spec x l); try contradiction; exact IH. }
  now rewrite H.
Qed.

Lemma stringify_strings (df : DataFrame) (l : string) (s : Series) :
  In (l, s) (columns (stringify_non_numeric df)) ->
  mem_string l (all_numeric_columns df) = false ->
  Forall (fun c => exists x, c = CStr x) s.
Proof.
  unfold stringify_non_numeric. cbn [columns]. intros Hin Hl.
  apply in_map_iff in Hin as ([x t] & Heq & _). cbn [fst snd] in Heq.
  destruct (mem_string x (all_numeric_columns df)) eqn:Hx.
  - injection Heq as -> ->. congruence.
  - injection Heq as _ <-. unfold astype_str. apply Forall_map.
    apply List.Forall_forall. intros c _. simpl. eauto.
Qed.

Lemma getitem_in_labels (df : DataFrame) (l : string) (s : Series) :
  getitem df l = OneColumn s -> In l (labels df).
Proof.
  unfold getitem, labels. intros H.
  destruct (List.filter _ (columns df)) as [|c [|c' r]] eqn:Hf; try discriminate.
  assert (Hin : In c (List.filter (fun c => String.eqb (fst c) l) (columns df)))
    by (rewrite Hf; now left).
  apply filter_In in Hin as [Hin Heq]. apply String.eqb_eq in Heq. subst l.
  now apply in_map.
Qed.

(** X12.  In verbatim mode without mapping the processing always gives a table:
    the labels and the length of the table read are kept, every column
    outside the numeric ones holds strings only, and every numeric column
    whose label no other column carries holds numbers only, none missing. *)
Theorem verbatim_processing_types_columns (df : DataFrame) (df_multi : option MultiFrame) :
  let read := match df_multi with Some mf => flatten_headers mf | None => df end in
  exists out log,
    process_cin7_excel_data (mkToggles true false) df df_multi = (Some out, log) /\
    labels out = labels read /\
    index_len out = index_len read /\
    (forall l s,
       In (l, s) (columns out) -> mem_string l (all_numeric_columns out) = false ->
       Forall (fun c => exists x, c = CStr x) s) /\
    (forall l s,
       getitem out l = OneColumn s -> mem_string l (all_numeric_columns out) = true ->
       Forall (fun c => match c with
                        | CInt _ => True
                        | CFloat f => f <> FNaN
                        | CStr _ => False
                        end) s).
Proof.
  intros read.
  set (w1 := fillna_empty read).
  set (w2 := fst (clean_numeric_data w1)).
  set (out := stringify_non_numeric w2).
  destruct (fillna_empty_labels read) as [Hl1 Hi1]. fold w1 in Hl1, Hi1.
  destruct (fold_clean_labels (columns_to_clean w1)
              (w1, [MsgCleaningColumns (columns_to_clean w1)])) as [Hl2 Hi2].
  change (fst (fold_left clean_column (columns_to_clean w1)
                 (w1, [MsgCleaningColumns (columns_to_clean w1)]))) with w2 in Hl2, Hi2.
  cbn [fst] in Hl2, Hi2.
  destruct (stringify_labels w2) as [Hl3 Hi3]. fold out in Hl3, Hi3.
  assert (Hrun : exists log,
            process_cin7_excel_data (mkToggles true false) df df_multi = (Some out, log)).
  { unfold out, w2, w1, read, process_cin7_excel_data.
    cbn [verbatim_var column_mapping_var negb].
    destruct df_multi as [mf|]; cbv beta iota zeta;
      destruct (clean_numeric_data _) as [w2' log1]; cbn [fst]; eauto. }
  destruct Hrun as [log Hrun]. exists out, log.
  split; [exact Hrun |]. split; [congruence |]. split; [congruence |]. split.
  - intros l s Hin Hnum.
    rewrite (all_numeric_columns_labels w2 out Hl3) in Hnum.
    exact (stringify_strings w2 l s Hin Hnum).
  - intros l s Hget Hnum.
    rewrite (all_numeric_columns_labels w2 out Hl3) in Hnum.
    unfold out in Hget. rewrite (stringify_numeric w2 l Hnum) in Hget.
    destruct (getitem_one_labels w1 w2 l s Hl2 Hget) as [s0 Hget0].
    pose proof (fold_clean_column l (columns_to_clean w1) (columns_to_clean_nodup w1)
                  (w1, [MsgCleaningColumns (columns_to_clean w1)]) s0 Hget0) as Hclean.
    change (fst (fold_left clean_column (columns_to_clean w1)
                   (w1, [MsgCleaningColumns (columns_to_clean w1)]))) with w2 in Hclean.
    rewrite Hget in Hclean.
    assert (Hmem : mem_string l (columns_to_clean w1) = true).
    { apply mem_string_spec. unfold columns_to_clean. apply filter_In. split.
      - apply mem_string_spec. now rewrite <- (all_numeric_columns_labels w1 w2 Hl2).
      - apply mem_string_spec. eapply getitem_in_labels; eassumption. }
    rewrite Hmem in Hclean. injection Hclean as ->. apply clean_series_numbers.
Qed.

End ProcessFacts.

(** ** Sheet identifiers *)

Module UrlFacts.
Import Py PyFacts Url.
Local Open Scope nat_scope.

Lemma skip_length (n : nat) (s : string) : String.length (skip n s) = String.length s - n.
Proof.
  revert s. induction n as [|n IH]; intros [|c s]; simpl; try lia. apply IH.
Qed.

Lemma cut_shorter (sep s a b : string) :
  sep <> "" -> cut sep s = Some (a, b) -> String.length b < String.length s.
Proof.
  intros Hsep. revert a. induction s as [|c s IH]; intros a; cbn [cut]; [discriminate |].
  destruct (is_prefix sep (String c s)).
  - intros [= <- <-]. rewrite skip_length. destruct sep; [congruence |]. simpl. lia.
  - destruct (cut sep s) as [[a' b']|]; [| discriminate].
    intros [= <- <-]. specialize (IH a' eq_refl). simpl. lia.
Qed.

Lemma cut_empty (sep : string) : cut sep "" = None.
Proof. reflexivity. Qed.

Lemma contains_cut (sep s : string) :
  sep <> "" -> contains sep s = true -> exists a b, cut sep s = Some (a, b).
Proof.
  intros Hsep. induction s as [|c s IH]; cbn [contains cut].
  - destruct sep; [congruence | discriminate].
  - destruct (is_prefix sep (String c s)); [eauto |]. cbn [orb]. intros H.
    destruct (IH H) as (a & b & ->). eauto.
Qed.

Lemma split_first (sep s : string) : split sep s !! 0 = Some (before sep s).
Proof.
  unfold split, before. destruct s as [|c s]; [reflexivity |].
  cbn [String.length split_fuel]. now destruct (cut sep (String c s)) as [[a b]|].
Qed.

Lemma split_fuel_first (fuel : nat) (sep s : string) :
  String.length s <= fuel -> sep <> "" -> split_fuel fuel sep s !! 0 = Some (before sep s).
Proof.
  intros Hlen Hsep. unfold before. destruct fuel as [|fuel]; cbn [split_fuel].
  - destruct s; [reflexivity | simpl in Hlen; lia].
  - now destruct (cut sep s) as [[a b]|].
Qed.

Lemma split_second (sep s a b : string) :
  sep <> "" -> cut sep s = Some (a, b) -> split sep s !! 1 = Some (before sep b).
Proof.
  intros Hsep Hcut. pose proof (cut_shorter _ _ _ _ Hsep Hcut) as Hlen.
  unfold split. destruct (String.length s) as [|n] eqn:Hn; [lia |].
  cbn [split_fuel]. rewrite Hcut. cbn [lookup list_lookup].
  apply split_fuel_first; [lia | exact Hsep].
Qed.

Lemma before_char (d : ascii) (s : string) :
  before (String d "") s = fst (span (fun c => negb (Ascii.eqb c d)) s).
Proof.
  unfold before. induction s as [|c s IH]; [reflexivity |].
  cbn [cut is_prefix span]. rewrite (Ascii.eqb_sym c d).
  destruct (Ascii.eqb d c); cbn [andb negb]; [reflexivity |].
  destruct (cut (String d "") s) as [[a b]|]; destruct (span _ s) as [x y];
    cbn [fst] in *; now subst.
Qed.

Lemma before_app_fresh (d : ascii) (sep' id t : string) :
  all_chars (fun c => negb (Ascii.eqb c d)) id = true ->
  before (String d sep') (id +:+ t) = id +:+ before (String d sep') t.
Proof.
  intros H. unfold before. induction id as [|c id IH]; [reflexivity |].
  cbn [all_chars] in H. apply andb_true_iff in H as [Hc Hid].
  cbn [String.append cut is_prefix]. rewrite (Ascii.eqb_sym d c).
  apply negb_true_iff in Hc. rewrite Hc. cbn [andb].
  specialize (IH Hid).
  destruct (cut (String d sep') (id +:+ t)) as [[a b]|];
    destruct (cut (String d sep') t) as [[a' b']|]; simpl in *; congruence.
Qed.

Lemma before_head (sep : string) (c : ascii) (r : string) :
  before sep (String c r) = "" \/ exists r', before sep (String c r) = String c r'.
Proof.
  unfold before. cbn [cut]. destruct (is_prefix sep (String c r)); [now left | right].
  destruct (cut sep r) as [[a b]|]; eauto.
Qed.

Lemma string_app_nil_r (s : string) : s +:+ "" = s.
Proof. apply append_nil_r. Qed.

Lemma span_fresh_stop (p : ascii -> bool) (id t : string) :
  all_chars p id = true ->
  (t = "" \/ exists c r, t = String c r /\ p c = false) ->
  fst (span p (id +:+ t)) = id.
Proof.
  intros Hid [-> | (c & r & -> & Hc)].
  - rewrite append_nil_r. now rewrite span_all.
  - now rewrite span_stop.
Qed.

Lemma is_prefix_app (p q s : string) :
  is_prefix (p +:+ q) s = true -> is_prefix q (skip (String.length p) s) = true.
Proof.
  revert s. induction p as [|a p IH]; intros s; [now destruct s |].
  destruct s as [|b s]; cbn [String.append is_prefix String.length skip]; [discriminate |].
  intros H. apply andb_true_iff in H as [_ H]. now apply IH.
Qed.

Lemma contains_skip (q : string) (n : nat) (s : string) :
  contains q (skip n s) = true -> contains q s = true.
Proof.
  revert s. induction n as [|n IH]; intros s; [now destruct s |].
  destruct s as [|c s]; cbn [skip]; [auto |].
  intros H. cbn [contains]. rewrite (IH s H). apply orb_true_r.
Qed.

Lemma contains_head (q s : string) : is_prefix q s = true -> contains q s = true.
Proof. intros H. destruct s; cbn [contains]; now rewrite H. Qed.

Lemma contains_tail (p q s : string) :
  contains (p +:+ q) s = true -> contains q s = true.
Proof.
  induction s as [|c s IH]; cbn [contains]; intros H.
  - rewrite orb_false_r in H. apply is_prefix_app in H.
    apply contains_head in H. now apply contains_skip in H.
  - apply orb_true_iff in H as [H | H].
    + apply is_prefix_app in H. apply contains_head in H. now apply contains_skip in H.
    + rewrite (IH H). apply orb_true_r.
Qed.

(** X13.  The handler of [extract_sheet_id_enhanced] is never reached: for
    every text the indexings of the two [split] branches find their element.
    So an address with [/sheets/] or with the publish marker always gives a
    string, possibly empty, and never the missing value. *)
Theorem sheet_id_extraction_never_raises (url : string) :
  extract_sheet_id_enhanced url <> ExtractionError /\
  (contains "/sheets/" url = true \/ contains "/b/publish?EQBCT=" url = true ->
   exists id, extract_sheet_id_enhanced url = SheetId id).
Proof.
  assert (H1 : "/sheets/" <> "") by discriminate.
  assert (H2 : "EQBCT=" <> "") by discriminate.
  unfold extract_sheet_id_enhanced.
  destruct (contains "/sheets/" url) eqn:Hs.
  - destruct (contains_cut "/sheets/" url H1 Hs) as (a & b & Hcut).
    rewrite (split_second _ _ _ _ H1 Hcut), !split_first.
    split; [discriminate | eauto].
  - destruct (contains "/b/publish?EQBCT=" url) eqn:Hp.
    + apply (contains_tail "/b/publish?" "EQBCT=") in Hp.
      destruct (contains_cut "EQBCT=" url H2 Hp) as (a & b & Hcut).
      rewrite (split_second _ _ _ _ H2 Hcut), !split_first.
      split; [discriminate | eauto].
    + split; [| intros [H | H]; discriminate].
      destruct (search_digits 19 url); [discriminate |].
      destruct (search_digits_from 10 url); discriminate.
Qed.

Lemma skip_app (a b : string) : skip (String.length a) (a +:+ b) = b.
Proof. induction a as [|c a IH]; [now destruct b | exact IH]. Qed.

Lemma is_prefix_self (a b : string) : is_prefix a (a +:+ b) = true.
Proof.
  induction a as [|c a IH]; [reflexivity |]. cbn [String.append is_prefix].
  now rewrite Ascii.eqb_refl.
Qed.

Lemma is_prefix_shorter (p a b : string) :
  is_prefix p (a +:+ b) = true -> String.length p <= String.length a -> is_prefix p a = true.
Proof.
  revert a. induction p as [|x p IH]; intros a H Hlen; [reflexivity |].
  destruct a as [|y a]; [simpl in Hlen; lia |].
  cbn [String.append is_prefix String.length] in *.
  apply andb_true_iff in H as [-> H]. apply IH; [exact H | lia].
Qed.

Lemma cut_first (init : string) (l : ascii) (pre s : string) :
  contains (init +:+ String l "") (pre +:+ init) = false ->
  cut (init +:+ String l "") (pre +:+ (init +:+ String l "") +:+ s) = Some (pre, s).
Proof.
  set (sep := init +:+ String l "").
  assert (Hlen : String.length sep = S (String.length init)).
  { unfold sep. rewrite length_append. simpl. lia. }
  induction pre as [|c pre IH]; intros H.
  - cbn [String.append].
    destruct (sep +:+ s) as [|x t] eqn:Hs.
    { apply (f_equal String.length) in Hs. rewrite length_append in Hs. simpl in Hs. lia. }
    cbn [cut]. rewrite <- Hs, is_prefix_self, skip_app. reflexivity.
  - cbn [String.append contains] in H. apply orb_false_iff in H as [Hhead Htail].
    cbn [String.append cut].
    destruct (is_prefix sep (String c (pre +:+ sep +:+ s))) eqn:Hp.
    + exfalso.
      assert (Hsplit : String c (pre +:+ sep +:+ s)
                       = String c (pre +:+ init) +:+ (String l "" +:+ s)).
      { unfold sep. cbn [String.append]. now rewrite !append_assoc. }
      rewrite Hsplit in Hp. apply is_prefix_shorter in Hp.
      * congruence.
      * rewrite Hlen. cbn [String.length]. rewrite length_append. lia.
    + now rewrite (IH Htail).
Qed.

Lemma cut_contains (sep s a b : string) : cut sep s = Some (a, b) -> contains sep s = true.
Proof.
  revert a b. induction s as [|c s IH]; intros a b; cbn [cut contains]; [discriminate |].
  destruct (is_prefix sep (String c s)); [reflexivity |].
  destruct (cut sep s) as [[a' b']|]; [| discriminate].
  intros _. cbn [orb]. eapply IH. reflexivity.
Qed.

Lemma span_app_all (p : ascii -> bool) (a b : string) :
  all_chars p a = true ->
  span p (a +:+ b) = (a +:+ fst (span p b), snd (span p b)).
Proof.
  intros H. induction a as [|c a IH]; cbn [String.append].
  - now destruct (span p b).
  - cbn [all_chars] in H. apply andb_true_iff in H as [Hc Ha].
    cbn [span]. rewrite Hc, (IH Ha). reflexivity.
Qed.

Lemma before_nil (sep : string) : before sep "" = "".
Proof. reflexivity. Qed.

(** X14.  A [/sheets/] address gives back the identifier that follows the
    first [/sheets/]: for an identifier with no [/] and no [?] in it,
    followed by nothing or by a text that starts with one of the two, the
    function returns exactly the identifier. *)
Theorem sheet_id_of_sheets_address (pre id rest : string) :
  contains "/sheets/" (pre +:+ "/sheets") = false ->
  all_chars (fun c => negb (ends_id c)) id = true ->
  rest = "" \/ (exists c r, rest = String c r /\ ends_id c = true) ->
  extract_sheet_id_enhanced (pre +:+ "/sheets/" +:+ id +:+ rest) = SheetId id.
Proof.
  intros Hfirst Hid Hrest.
  assert (H1 : "/sheets/" <> "") by discriminate.
  pose proof (cut_first "/sheets" "/" pre (id +:+ rest) Hfirst) as Hcut.
  change ("/sheets" +:+ "/") with "/sheets/" in Hcut.
  unfold extract_sheet_id_enhanced.
  rewrite (cut_contains _ _ _ _ Hcut), (split_second _ _ _ _ H1 Hcut), !split_first.
  f_equal.
  assert (Hslash : all_chars (fun c => negb (Ascii.eqb c "/")) id = true).
  { eapply all_chars_impl; [| exact Hid]. intros c. unfold ends_id.
    now destruct (Ascii.eqb c "/"). }
  assert (Hquery : all_chars (fun c => negb (Ascii.eqb c "?")) id = true).
  { eapply all_chars_impl; [| exact Hid]. intros c. unfold ends_id.
    destruct (Ascii.eqb c "?"); [now rewrite orb_true_r | reflexivity]. }
  rewrite (before_app_fresh "/" "sheets/" id rest Hslash).
  rewrite !before_char.
  destruct Hrest as [-> | (c & r & -> & Hc)].
  - rewrite before_nil, append_nil_r, (span_all _ _ Hquery). cbn [fst].
    now rewrite (span_all _ _ Hslash).
  - destruct (before_head "/sheets/" c r) as [-> | [r' ->]].
    + rewrite append_nil_r, (span_all _ _ Hquery). cbn [fst].
      now rewrite (span_all _ _ Hslash).
    + unfold ends_id in Hc. apply orb_true_iff in Hc as [Hc | Hc];
        apply Ascii.eqb_eq in Hc; subst c.
      * rewrite (span_app_all _ _ _ Hquery). cbn [fst span Ascii.eqb Bool.eqb negb].
        destruct (span _ r') as [x y]. cbn [fst].
        now rewrite span_stop.
      * rewrite span_stop by (exact Hquery || reflexivity). cbn [fst].
        now rewrite (span_all _ _ Hslash).
Qed.

(** X14 on an address of the application. *)
Lemma sheet_id_of_sheets_address_witness :
  extract_sheet_id_enhanced "https://app.smartsheet.com/sheets/abcDEF123?view=grid"
  = SheetId "abcDEF123".
Proof.
  apply (sheet_id_of_sheets_address "https://app.smartsheet.com" "abcDEF123" "?view=grid").
  - reflexivity.
  - reflexivity.
  - right. exists "?"%char, "view=grid". split; reflexivity.
Defined.

(* ---- digits ---- *)

Lemma digit_run_cons (c : ascii) (s : string) :
  digit_run (String c s) = if is_digit c then String c (digit_run s) else "".
Proof.
  unfold digit_run. cbn [span]. destruct (is_digit c); [| reflexivity].
  now destruct (span is_digit s).
Qed.

Lemma digit_run_digits (s : string) : all_chars is_digit (digit_run s) = true.
Proof.
  induction s as [|c s IH]; [reflexivity |]. rewrite digit_run_cons.
  destruct (is_digit c) eqn:Hc; [| reflexivity]. cbn [all_chars]. now rewrite Hc.
Qed.

Lemma digit_run_prefix (s : string) : is_prefix (digit_run s) s = true.
Proof.
  induction s as [|c s IH]; [reflexivity |]. rewrite digit_run_cons.
  destruct (is_digit c); [| reflexivity]. cbn [is_prefix]. now rewrite Ascii.eqb_refl.
Qed.

Lemma substring_of_run (n : nat) :
  forall s, n <= String.length (digit_run s) ->
  all_chars is_digit (substring 0 n s) = true /\
  String.length (substring 0 n s) = n /\
  is_prefix (substring 0 n s) s = true.
Proof.
  induction n as [|n IH]; intros s H.
  - destruct s; repeat split.
  - destruct s as [|c s]; [simpl in H; lia |].
    rewrite digit_run_cons in H. destruct (is_digit c) eqn:Hc; [| simpl in H; lia].
    cbn [String.length] in H. destruct (IH s) as (Ha & Hl & Hp); [lia |].
    cbn [substring all_chars String.length is_prefix].
    rewrite Hc, Ha, Hl, Hp, Ascii.eqb_refl. repeat split.
Qed.

Lemma contains_cons (q : string) (c : ascii) (s : string) :
  contains q s = true -> contains q (String c s) = true.
Proof. intros H. cbn [contains]. rewrite H. apply orb_true_r. Qed.

Lemma search_digits_found (n : nat) (s m : string) :
  search_digits n s = Some m ->
  all_chars is_digit m = true /\ String.length m = n /\ contains m s = true.
Proof.
  induction s as [|c s IH]; cbn [search_digits]; [discriminate |].
  destruct (Nat.leb_spec n (String.length (digit_run (String c s)))) as [Hle | Hgt].
  - intros [= <-]. destruct (substring_of_run n _ Hle) as (Ha & Hl & Hp).
    repeat split; auto using contains_head.
  - intros H. destruct (IH H) as (Ha & Hl & Hc). repeat split; auto using contains_cons.
Qed.

Lemma search_digits_from_found (n : nat) (s m : string) :
  search_digits_from n s = Some m ->
  all_chars is_digit m = true /\ n <= String.length m /\ contains m s = true.
Proof.
  induction s as [|c s IH]; cbn [search_digits_from]; [discriminate |].
  destruct (Nat.leb_spec n (String.length (digit_run (String c s)))) as [Hle | Hgt].
  - intros [= <-]. repeat split; auto using digit_run_digits, contains_head, digit_run_prefix.
  - intros H. destruct (IH H) as (Ha & Hl & Hc). repeat split; auto using contains_cons.
Qed.

Lemma search_digits_bound (k n : nat) (s m : string) :
  search_digits k s = None -> search_digits_from n s = Some m -> String.length m < k.
Proof.
  induction s as [|c s IH]; cbn [search_digits search_digits_from]; [discriminate |].
  destruct (Nat.leb_spec k (String.length (digit_run (String c s)))) as [Hk | Hk];
    [discriminate |].
  destruct (Nat.leb_spec n (String.length (digit_run (String c s)))) as [Hn | Hn].
  - intros _ [= <-]. exact Hk.
  - exact IH.
Qed.

Lemma prefix_in_run (d s : string) :
  all_chars is_digit d = true -> is_prefix d s = true ->
  String.length d <= String.length (digit_run s).
Proof.
  revert s. induction d as [|x d IH]; intros s Hd Hp; [simpl; lia |].
  destruct s as [|c s]; [discriminate |].
  cbn [all_chars is_prefix] in *.
  apply andb_true_iff in Hd as [Hx Hd]. apply andb_true_iff in Hp as [Hxc Hp].
  apply Ascii.eqb_eq in Hxc. subst c. rewrite digit_run_cons, Hx.
  cbn [String.length]. specialize (IH s Hd Hp). lia.
Qed.

Lemma search_digits_from_none (n : nat) (s d : string) :
  search_digits_from n s = None ->
  all_chars is_digit d = true -> String.length d = n -> 0 < n ->
  contains d s = false.
Proof.
  intros Hnone Hd Hlen Hn. induction s as [|c s IH].
  - destruct d; [simpl in Hlen; lia | reflexivity].
  - cbn [search_digits_from] in Hnone.
    destruct (Nat.leb_spec n (String.length (digit_run (String c s)))) as [Hle | Hgt];
      [discriminate |].
    cbn [contains]. rewrite (IH Hnone), orb_false_r.
    destruct (is_prefix d (String c s)) eqn:Hp; [| reflexivity].
    pose proof (prefix_in_run d _ Hd Hp). lia.
Qed.

(** X15.  Without [/sheets/] and without the publish marker the identifier
    is looked for among the digits of the text: the result, when there is
    one, is made of digits only, at least 10 and at most 19 of them, and
    occurs in the text; there is none exactly when no 10 digits follow one
    another in the text. *)
Theorem sheet_id_from_digits (url : string) :
  contains "/sheets/" url = false ->
  contains "/b/publish?EQBCT=" url = false ->
  match extract_sheet_id_enhanced url with
  | SheetId id =>
      all_chars is_digit id = true /\
      10 <= String.length id <= 19 /\
      contains id url = true
  | NoSheetId =>
      forall d, all_chars is_digit d = true -> String.length d = 10 -> contains d url = false
  | ExtractionError => False
  end.
Proof.
  intros Hs Hp. unfold extract_sheet_id_enhanced. rewrite Hs, Hp.
  destruct (search_digits 19 url) as [id|] eqn:H19.
  - destruct (search_digits_found _ _ _ H19) as (Ha & Hl & Hc). repeat split; auto; lia.
  - destruct (search_digits_from 10 url) as [id|] eqn:H10.
    + destruct (search_digits_from_found _ _ _ H10) as (Ha & Hl & Hc).
      pose proof (search_digits_bound _ _ _ _ H19 H10). repeat split; auto; lia.
    + intros d Hd Hl. eapply search_digits_from_none; eauto. lia.
Qed.

(** X15 on a text with a run of 22 digits: a result of digits is found. *)
Lemma sheet_id_from_digits_witness :
  match extract_sheet_id_enhanced "sheet 1234567890123456789012 of 2024" with
  | SheetId id =>
      all_chars is_digit id = true /\
      10 <= String.length id <= 19 /\
      contains id "sheet 1234567890123456789012 of 2024" = true
  | NoSheetId =>
      forall d, all_chars is_digit d = true -> String.length d = 10 ->
                contains d "sheet 1234567890123456789012 of 2024" = false
  | ExtractionError => False
  end.
Proof.
  apply (sheet_id_from_digits "sheet 1234567890123456789012 of 2024").
  - reflexivity.
  - reflexivity.
Defined.

End UrlFacts.

(** ** The wait for the confirmation *)

Module SessionFacts.
Import Pandas Sync Session Scenarios SessionScenarios.
Local Open Scope nat_scope.

Lemma fold_keeps (l : list main_write) (v : shared) :
  keeps_confirmation l = true ->
  confirmation_result (fold_left apply_write l v) = confirmation_result v.
Proof.
  revert v. induction l as [|x l IH]; intros v H; [reflexivity |].
  cbn [keeps_confirmation forallb] in H. apply andb_prop in H as [Hx Hl].
  cbn [fold_left]. rewrite IH by exact Hl. now destruct x.
Qed.

Lemma wait_time_below (i : nat) :
  i < 300 -> SFltb (wait_time_after i) (of_int confirmation_timeout) = true.
Proof.
  assert (H : forallb (fun i => SFltb (wait_time_after i) (of_int confirmation_timeout))
                      (seq 0 300) = true) by (vm_compute; reflexivity).
  intros Hi. rewrite List.forallb_forall in H. apply H, in_seq. lia.
Qed.

Lemma wait_time_reached :
  SFltb (wait_time_after 300) (of_int confirmation_timeout) = false.
Proof. vm_compute. reflexivity. Qed.

Section Thread.
Context (U : ui).

Lemma sync_idle (s : session) :
  main_thread U (accesses s) = [] ->
  sync U s = mkSession (vars s) (S (accesses s)) (polls s) (notices s).
Proof. intros H. unfold sync. now rewrite H. Qed.

Lemma sync_at (s : session) (l : list main_write) :
  main_thread U (accesses s) = l ->
  sync U s = mkSession (fold_left apply_write l (vars s)) (S (accesses s)) (polls s) (notices s).
Proof. intros H. unfold sync. now rewrite H. Qed.

(** A confirmation that is stored ends the loop at its next test. *)
Lemma wait_loop_answered (fuel : nat) (wait_time : spec_float) (s : session) (b : bool) :
  confirmation_result (vars (sync U s)) = Some b ->
  wait_loop U fuel wait_time s = (LoopDone, sync U s).
Proof.
  intros H. destruct fuel; cbn [wait_loop read_confirmation]; rewrite H; reflexivity.
Qed.

(** [n] iterations during which the main thread writes nothing. *)
Lemma wait_loop_idle (n : nat) :
  forall (i fuel : nat) (s : session),
  i + n <= 300 ->
  confirmation_result (vars s) = None ->
  upload_cancelled_flag (vars s) = false ->
  (forall k, accesses s <= k < accesses s + 2 * n -> main_thread U k = []) ->
  wait_loop U (n + fuel) (wait_time_after i) s =
  wait_loop U fuel (wait_time_after (i + n))
    (mkSession (vars s) (accesses s + 2 * n) (polls s + n) (notices s)).
Proof.
  induction n as [|n IH]; intros i fuel s Hi Hc Hf Hq.
  - cbn [Nat.add]. replace (accesses s + 2 * 0) with (accesses s) by lia.
    rewrite !Nat.add_0_r. now destruct s.
  - change (S n + fuel) with (S (n + fuel)).
    cbn [wait_loop read_confirmation read_cancelled].
    rewrite (sync_idle s) by (apply Hq; lia). cbn [vars].
    rewrite Hc, wait_time_below by lia. cbn [negb andb bool_decide decide_rel].
    replace (bool_decide (is_Some (@None bool))) with false
      by (symmetry; apply bool_decide_eq_false; intros [? ?]; discriminate).
    cbn [negb andb].
    rewrite sync_idle by (cbn [sleep_tenth accesses]; apply Hq; lia).
    cbn [sleep_tenth vars accesses polls notices]. rewrite Hf.
    change (float_add (wait_time_after i) tenth) with (wait_time_after (S i)).
    rewrite IH; cbn [vars accesses polls notices]; try assumption; try lia.
    + f_equal; [f_equal; lia | f_equal; lia].
    + intros k Hk. apply Hq. lia.
Qed.

(** The loop ends before its fuel does. *)
Lemma wait_loop_ends (fuel : nat) :
  forall (i : nat) (s : session),
  i + fuel = 300 -> fst (wait_loop U fuel (wait_time_after i) s) <> OutOfFuel.
Proof.
  induction fuel as [|fuel IH]; intros i s Hi.
  - cbn [wait_loop read_confirmation]. replace i with 300 by lia.
    rewrite wait_time_reached, andb_false_r. discriminate.
  - cbn [wait_loop read_confirmation read_cancelled].
    destruct (negb _ && _); [| discriminate].
    destruct (upload_cancelled_flag _); [discriminate |].
    change (float_add (wait_time_after i) tenth) with (wait_time_after (S i)).
    apply IH. lia.
Qed.

Lemma only_at_same (m : nat) (l : list main_write) : only_at m l m = l.
Proof. unfold only_at. now rewrite Nat.eqb_refl. Qed.

Lemma only_at_other (m k : nat) (l : list main_write) : k <> m -> only_at m l k = [].
Proof. intros H. unfold only_at. now apply Nat.eqb_neq in H as ->. Qed.

Lemma half_even (k : nat) : (2 * k) / 2 = k.
Proof. symmetry. apply (Nat.div_unique _ 2 k 0); lia. Qed.

Lemma half_odd (k : nat) : (2 * k + 1) / 2 = k.
Proof. symmetry. apply (Nat.div_unique _ 2 k 1); lia. Qed.

Lemma is_some_none {A} : bool_decide (is_Some (@None A)) = false.
Proof. apply bool_decide_eq_false. intros [? ?]. discriminate. Qed.

(** The loop sleeps once for each unit of fuel it uses. *)
Lemma wait_loop_polls (fuel : nat) :
  forall (wait_time : spec_float) (s : session),
  polls (snd (wait_loop U fuel wait_time s)) <= polls s + fuel.
Proof.
  induction fuel as [|fuel IH]; intros wait_time s.
  - cbn [wait_loop read_confirmation]. destruct (negb _ && _); cbn [snd sync polls]; lia.
  - cbn [wait_loop read_confirmation read_cancelled].
    destruct (negb _ && _); [| cbn [snd sync polls]; lia].
    destruct (upload_cancelled_flag _).
    + cbn [snd sync sleep_tenth polls]. lia.
    + etransitivity; [apply IH |]. cbn [sync sleep_tenth polls]. lia.
Qed.

Section Run.
Context (E : env).

Lemma proceed_spec (processed_df : DataFrame) (s : session) (w : world) :
  main_thread U (accesses s) = [] ->
  let E' := tail_env E (mkShared (upload_cancelled_flag (vars s)) None) in
  let r := Sync.upload_process E' (overwrite_var U) processed_df w in
  proceed U E processed_df s w =
  (Finished (fst r),
   mkSession (mkShared (upload_cancelled_flag (vars s)) None)
             (S (accesses s)) (polls s) (notices s),
   snd r).
Proof.
  intros H. unfold proceed, write. rewrite (sync_idle s H). cbn [vars accesses polls notices].
  now destruct (Sync.upload_process _ _ _ _).
Qed.

Lemma proceed_eq (processed_df : DataFrame) (s : session) (w : world) :
  let s2 := write U (fun v => mkShared (upload_cancelled_flag v) None) s in
  let r := Sync.upload_process (tail_env E (vars s2)) (overwrite_var U) processed_df w in
  proceed U E processed_df s w = (Finished (fst r), s2, snd r).
Proof. unfold proceed. cbv zeta. now destruct (Sync.upload_process _ _ _ _). Qed.

(** A confirmation that is already stored: the loop is not entered. *)
Lemma confirm_at_once (processed_df : DataFrame) (s : session) (w : world) (b : bool) :
  confirmation_result (vars s) = Some b ->
  keeps_confirmation (main_thread U (accesses s)) = true ->
  keeps_confirmation (main_thread U (S (accesses s))) = true ->
  exists s',
    polls s' = polls s /\ notices s' = notices s /\
    accesses s' = S (S (accesses s)) /\
    confirmation_result (vars s') = Some b /\
    confirm_and_upload U E processed_df s w =
      if b then proceed U E processed_df s' w
      else (NotConfirmed, put [CancelledByUser] s', w).
Proof.
  intros Hc H0 H1.
  assert (Hc1 : confirmation_result (vars (sync U s)) = Some b).
  { cbn [sync vars]. now rewrite fold_keeps. }
  assert (Hc2 : confirmation_result (vars (sync U (sync U s))) = Some b).
  { cbn [sync vars accesses]. rewrite fold_keeps by exact H1. now rewrite fold_keeps. }
  exists (sync U (sync U s)). repeat split; [exact Hc2 |].
  unfold confirm_and_upload. rewrite (wait_loop_answered _ _ _ b Hc1).
  unfold after_wait, read_confirmation. rewrite Hc2. now destruct b.
Qed.

(** A run during which the main thread writes once, before the worker's
    access number [m], and stores a confirmation then. *)
Lemma confirm_one_write (processed_df : DataFrame) (s : session) (w : world)
  (m : nat) (l : list main_write) (c : bool) :
  accesses s = 1 -> polls s = 0 -> vars s = mkShared false None ->
  1 <= m <= 602 ->
  (forall k, 1 <= k -> main_thread U k = only_at m l k) ->
  confirmation_result (fold_left apply_write l (mkShared false None)) = Some c ->
  exists s',
    vars s' = fold_left apply_write l (mkShared false None) /\
    polls s' = Nat.min (m / 2) 300 /\
    notices s' = notices s /\
    m < accesses s' /\
    confirm_and_upload U E processed_df s w =
      if Nat.even m && (m <? 602) && upload_cancelled_flag (vars s')
      then (ReturnedWhileWaiting, s', w)
      else if c then proceed U E processed_df s' w
           else (NotConfirmed, put [CancelledByUser] s', w).
Proof.
  intros Ha Hp Hv Hm HU Hc.
  set (v1 := fold_left apply_write l (mkShared false None)) in *.
  assert (Hidle : forall k, 1 <= k -> k <> m -> main_thread U k = []).
  { intros k Hk Hkm. rewrite HU by exact Hk. now apply only_at_other. }
  assert (Hat : main_thread U m = l).
  { rewrite HU by lia. apply only_at_same. }
  assert (Hcs : confirmation_result (vars s) = None) by now rewrite Hv.
  assert (Hfs : upload_cancelled_flag (vars s) = false) by now rewrite Hv.
  unfold confirm_and_upload. change (of_int 0) with (wait_time_after 0).
  destruct (Nat.even m) eqn:Heven.
  - apply Nat.even_spec in Heven as [k Hk].
    replace (m / 2) with k by (rewrite Hk; symmetry; apply half_even).
    destruct (Nat.ltb_spec m 602) as [Hlt | Hge].
    + (* the write comes before a test of the cancellation flag *)
      replace wait_fuel with ((k - 1) + S (300 - k)) by (unfold wait_fuel; lia).
      rewrite wait_loop_idle; try assumption; try lia.
      2: { intros i Hi. apply Hidle; lia. }
      cbn [wait_loop read_confirmation read_cancelled].
      rewrite sync_idle by (cbn [accesses sync]; apply Hidle; lia).
      cbn [vars]. rewrite Hcs, is_some_none, wait_time_below by lia.
      cbn [negb andb].
      rewrite (sync_at (sleep_tenth _) l)
        by (cbn [sleep_tenth accesses]; rewrite <- Hat; f_equal; lia).
      cbn [sleep_tenth vars accesses polls notices]. rewrite Hv. fold v1.
      destruct (upload_cancelled_flag v1) eqn:Hflag.
      * match goal with |- context [(ReturnedWhileWaiting, ?x, w) = _] => exists x end.
        cbn [vars polls notices accesses]. rewrite Hflag.
        repeat split; try reflexivity; lia.
      * rewrite (wait_loop_answered _ _ _ c).
        2: { rewrite sync_idle by (cbn [accesses sync]; apply Hidle; lia). exact Hc. }
        unfold after_wait, read_confirmation.
        rewrite sync_idle by (cbn [accesses sync]; apply Hidle; lia).
        rewrite sync_idle by (cbn [accesses sync]; apply Hidle; lia).
        cbn [vars accesses polls notices]. rewrite Hc.
        match goal with |- context [proceed U E processed_df ?x w] => exists x end.
        cbn [vars polls notices accesses]. rewrite Hflag.
        repeat split; try reflexivity; try lia; now destruct c.
    + (* the write comes before the test that follows the loop *)
      assert (m = 602) by lia. subst m. assert (k = 301) by lia. subst k.
      replace wait_fuel with (300 + 0) by reflexivity.
      rewrite wait_loop_idle; try assumption; try lia.
      2: { intros i Hi. apply Hidle; lia. }
      cbn [wait_loop read_confirmation].
      rewrite sync_idle by (cbn [accesses sync]; apply Hidle; lia).
      cbn [vars]. change (0 + 300) with 300. rewrite wait_time_reached, andb_false_r.
      unfold after_wait, read_confirmation.
      rewrite (sync_at _ l) by (cbn [accesses]; rewrite <- Hat; f_equal; lia).
      cbn [vars accesses polls notices]. rewrite Hv. fold v1. rewrite Hc.
      match goal with |- context [proceed U E processed_df ?x w] => exists x end.
      cbn [vars polls notices accesses].
      repeat split; try reflexivity; try lia; now destruct c.
  - (* the write comes before a test of the loop *)
    apply (f_equal negb) in Heven. rewrite Nat.negb_even in Heven. cbn [negb] in Heven.
    apply Nat.odd_spec in Heven as [k Hk].
    replace (m / 2) with k by (rewrite Hk; symmetry; apply half_odd).
    replace wait_fuel with (k + (300 - k)) by (unfold wait_fuel; lia).
    rewrite wait_loop_idle; try assumption; try lia.
    2: { intros i Hi. apply Hidle; lia. }
    assert (Hsync : sync U (mkSession (vars s) (accesses s + 2 * k) (polls s + k) (notices s))
                    = mkSession v1 (S m) k (notices s)).
    { rewrite (sync_at _ l) by (cbn [accesses]; rewrite <- Hat; f_equal; lia).
      cbn [vars accesses polls notices]. rewrite Hv, Hp. fold v1. f_equal; lia. }
    rewrite (wait_loop_answered _ _ _ c) by (rewrite Hsync; exact Hc).
    rewrite Hsync. unfold after_wait, read_confirmation.
    rewrite sync_idle by (cbn [accesses sync]; apply Hidle; lia).
    cbn [vars accesses polls notices andb]. rewrite Hc.
    match goal with |- context [proceed U E processed_df ?x w] => exists x end.
    cbn [vars polls notices accesses].
    repeat split; try reflexivity; try lia; now destruct c.
Qed.

(** The dialog is left unanswered and nothing is cancelled. *)
Lemma confirm_timeout (processed_df : DataFrame) (s : session) (w : world) :
  accesses s = 1 -> polls s = 0 ->
  confirmation_result (vars s) = None -> upload_cancelled_flag (vars s) = false ->
  (forall k, 1 <= k <= 602 -> main_thread U k = []) ->
  confirm_and_upload U E processed_df s w =
  (NotConfirmed,
   mkSession (vars s) 603 300 (notices s ++ [CancelledByUser]), w).
Proof.
  intros Ha Hp Hc Hf Hidle.
  unfold confirm_and_upload. change (of_int 0) with (wait_time_after 0).
  replace wait_fuel with (300 + 0) by reflexivity.
  rewrite wait_loop_idle; try assumption; try lia.
  2: { intros i Hi. apply Hidle; lia. }
  cbn [wait_loop read_confirmation].
  rewrite sync_idle by (cbn [accesses sync]; apply Hidle; lia).
  cbn [vars]. change (0 + 300) with 300. rewrite wait_time_reached, andb_false_r.
  unfold after_wait, read_confirmation.
  rewrite sync_idle by (cbn [accesses sync]; apply Hidle; lia).
  cbn [vars accesses polls notices]. rewrite Hc, Ha, Hp. reflexivity.
Qed.

Context (df : DataFrame) (df_multi : option Cin7.MultiFrame).
Context (processed_df : DataFrame) (processing_log : list message).
Hypothesis processed :
  Cin7.process_cin7_excel_data (processing_toggles U) df df_multi
  = (Some processed_df, processing_log).
Hypothesis not_empty : is_empty processed_df = false.

(** The run on a table that is not empty: the state in which the wait
    starts. *)
Lemma thread_unfold (v : shared) (w : world) :
  exists l,
  upload_process_thread U E df df_multi v w =
  confirm_and_upload U E processed_df
    (mkSession (mkShared false
                  (confirmation_result (fold_left apply_write (main_thread U 0) v)))
               1 0 l) w.
Proof.
  eexists. unfold upload_process_thread. rewrite processed, not_empty.
  unfold write, put, sync. cbn [vars accesses polls notices]. reflexivity.
Qed.

End Run.

End Thread.

(** X20.  Whatever the main thread writes and whenever it does, the wait for
    the dialog ends: the worker sleeps 300 times at most, and the loop of
    the model ends before its fuel does.  Steps 3 and 4 are run only after
    the worker has reset [confirmation_result] to None, which it does only
    on reading True; in every other case the sheet is left as it was. *)
Theorem confirmation_wait_is_bounded (U : ui) (E : env)
  (df : DataFrame) (df_multi : option Cin7.MultiFrame) (v : shared) (w : world) :
  (forall s, fst (wait_loop U wait_fuel (of_int 0) s) <> OutOfFuel) /\
  exists e s w',
    upload_process_thread U E df df_multi v w = (e, s, w') /\
    polls s <= 300 /\
    match e with
    | Finished r =>
        confirmation_result (vars s) = None /\
        exists processed_df,
          fst (Cin7.process_cin7_excel_data (processing_toggles U) df df_multi)
            = Some processed_df /\
          is_empty processed_df = false /\
          (r, w') = Sync.upload_process (tail_env E (vars s)) (overwrite_var U)
                      processed_df w
    | _ => w' = w
    end.
Proof.
  split.
  { intros s. apply (wait_loop_ends U wait_fuel 0 s). reflexivity. }
  unfold upload_process_thread.
  destruct (Cin7.process_cin7_excel_data _ _ _) as [[processed_df |] plog] eqn:Hproc.
  2: { eexists _, _, _. split; [reflexivity |]. cbn. split; [lia | reflexivity]. }
  destruct (is_empty processed_df) eqn:Hne.
  { eexists _, _, _. split; [reflexivity |]. cbn. split; [lia | reflexivity]. }
  unfold confirm_and_upload.
  match goal with |- context [wait_loop U wait_fuel (of_int 0) ?s0] =>
    pose proof (wait_loop_polls U wait_fuel (of_int 0) s0) as Hpolls;
    destruct (wait_loop U wait_fuel (of_int 0) s0) as [e1 s1]
  end.
  cbn [snd put write sync polls] in Hpolls. unfold wait_fuel in Hpolls.
  destruct e1.
  - unfold after_wait, read_confirmation.
    destruct (confirmation_result (vars (sync U s1))) as [[|]|] eqn:Hc.
    + rewrite proceed_eq. cbv zeta. eexists _, _, _. split; [reflexivity |].
      cbn [write sync vars polls confirmation_result fst].
      split; [lia |]. split; [reflexivity |].
      exists processed_df. repeat split; try assumption.
      now destruct (Sync.upload_process _ _ _ _).
    + eexists _, _, _. split; [reflexivity |]. cbn [put sync polls]. split; [lia | reflexivity].
    + eexists _, _, _. split; [reflexivity |]. cbn [put sync polls]. split; [lia | reflexivity].
  - eexists _, _, _. split; [reflexivity |]. split; [lia | reflexivity].
  - eexists _, _, _. split; [reflexivity |]. split; [lia | reflexivity].
Qed.

(** X16.  A confirmation left in [confirmation_result] by an earlier run is
    taken for the answer of this one.  When the variable holds a Boolean as
    the run starts and the main thread stores no confirmation before the
    worker has tested it, the worker never sleeps in the wait loop.  On
    False it reports the upload as cancelled by the user, leaves the sheet
    alone and leaves the variable False; on True it resets the variable and
    runs steps 3 and 4. *)
Theorem stale_confirmation_decides_at_once (U : ui) (E : env)
  (df : DataFrame) (df_multi : option Cin7.MultiFrame)
  (processed_df : DataFrame) (processing_log : list message)
  (v : shared) (w : world) (b : bool) :
  Cin7.process_cin7_excel_data (processing_toggles U) df df_multi
    = (Some processed_df, processing_log) ->
  is_empty processed_df = false ->
  confirmation_result v = Some b ->
  (forall k, k < 3 -> keeps_confirmation (main_thread U k) = true) ->
  exists e s w',
    upload_process_thread U E df df_multi v w = (e, s, w') /\
    polls s = 0 /\
    if b then
      confirmation_result (vars s) = None /\
      e = Finished (fst (Sync.upload_process (tail_env E (vars s)) (overwrite_var U)
                           processed_df w)) /\
      w' = snd (Sync.upload_process (tail_env E (vars s)) (overwrite_var U)
                  processed_df w)
    else
      e = NotConfirmed /\ w' = w /\
      confirmation_result (vars s) = Some false /\
      last (notices s) = Some CancelledByUser.
Proof.
  intros Hproc Hne Hc Hkeep.
  destruct (thread_unfold U E df df_multi processed_df processing_log Hproc Hne v w)
    as [l ->].
  destruct (confirm_at_once U E processed_df
              (mkSession (mkShared false
                 (confirmation_result (fold_left apply_write (main_thread U 0) v))) 1 0 l)
              w b) as (s' & Hp & Hn & Ha & Hc' & ->).
  - cbn [vars confirmation_result]. rewrite fold_keeps by (apply Hkeep; lia). exact Hc.
  - apply Hkeep. cbn [accesses]. lia.
  - apply Hkeep. cbn [accesses]. lia.
  - destruct b.
    + rewrite proceed_eq. cbv zeta.
      eexists _, _, _. split; [reflexivity |].
      cbn [write vars accesses polls notices sync confirmation_result].
      repeat split. exact Hp.
    + eexists _, _, _. split; [reflexivity |].
      cbn [put vars polls notices]. repeat split; try assumption. apply last_snoc.
Qed.

(** X17.  A run that starts with no confirmation stored follows its own
    dialog.  The main thread writes once, storing the answer before the
    worker's access number [m], the dialog being answered before the worker
    gives up.  The worker has then slept m // 2 times, 300 at most; on a
    refusal it reports the upload as cancelled by the user, leaves the sheet
    alone and leaves the variable False; on an acceptance it resets the
    variable and runs steps 3 and 4 in the environment it was given. *)
Theorem fresh_run_follows_the_dialog (U : ui) (E : env)
  (df : DataFrame) (df_multi : option Cin7.MultiFrame)
  (processed_df : DataFrame) (processing_log : list message)
  (v : shared) (w : world) (m : nat) (b : bool) :
  Cin7.process_cin7_excel_data (processing_toggles U) df df_multi
    = (Some processed_df, processing_log) ->
  is_empty processed_df = false ->
  confirmation_result v = None ->
  1 <= m <= 602 ->
  (forall k, main_thread U k = only_at m [SetConfirmation b] k) ->
  exists e s w',
    upload_process_thread U E df df_multi v w = (e, s, w') /\
    polls s = Nat.min (m / 2) 300 /\
    if b then
      confirmation_result (vars s) = None /\
      e = Finished (fst (Sync.upload_process E (overwrite_var U) processed_df w)) /\
      w' = snd (Sync.upload_process E (overwrite_var U) processed_df w)
    else
      e = NotConfirmed /\ w' = w /\
      confirmation_result (vars s) = Some false /\
      last (notices s) = Some CancelledByUser.
Proof.
  intros Hproc Hne Hc Hm HU.
  destruct (thread_unfold U E df df_multi processed_df processing_log Hproc Hne v w)
    as [l ->].
  assert (H0 : main_thread U 0 = []) by (rewrite HU; apply only_at_other; lia).
  rewrite H0. cbn [fold_left]. rewrite Hc.
  destruct (confirm_one_write U E processed_df (mkSession (mkShared false None) 1 0 l) w
              m [SetConfirmation b] b) as (s' & Hv & Hp & Hn & Ha & ->);
    try reflexivity; try assumption.
  { intros k _. apply HU. }
  cbn [fold_left apply_write upload_cancelled_flag confirmation_result] in Hv.
  rewrite Hv. cbn [upload_cancelled_flag]. rewrite andb_false_r.
  destruct b.
  - rewrite proceed_spec by (rewrite HU; apply only_at_other; lia).
    rewrite Hv. cbn [upload_cancelled_flag tail_env].
    eexists _, _, _. split; [reflexivity |].
    cbn [vars polls confirmation_result]. repeat split. exact Hp.
  - eexists _, _, _. split; [reflexivity |].
    cbn [put vars polls notices]. rewrite Hv. repeat split; try assumption.
    apply last_snoc.
Qed.

(** X18.  A dialog that nobody answers.  With no confirmation stored as the
    run starts and a main thread that writes nothing, the worker sleeps 300
    times, the sum of 300 times 0.1 being the first to reach 30 in binary64
    arithmetic; it then reports the upload as cancelled by the user, leaves
    the sheet alone and leaves the variable None. *)
Theorem unanswered_dialog_times_out (U : ui) (E : env)
  (df : DataFrame) (df_multi : option Cin7.MultiFrame)
  (processed_df : DataFrame) (processing_log : list message)
  (v : shared) (w : world) :
  Cin7.process_cin7_excel_data (processing_toggles U) df df_multi
    = (Some processed_df, processing_log) ->
  is_empty processed_df = false ->
  confirmation_result v = None ->
  (forall k, k <= 602 -> main_thread U k = []) ->
  exists s,
    upload_process_thread U E df df_multi v w = (NotConfirmed, s, w) /\
    polls s = 300 /\
    confirmation_result (vars s) = None /\
    last (notices s) = Some CancelledByUser.
Proof.
  intros Hproc Hne Hc Hidle.
  destruct (thread_unfold U E df df_multi processed_df processing_log Hproc Hne v w)
    as [l ->].
  rewrite (Hidle 0) by lia. cbn [fold_left]. rewrite Hc.
  rewrite confirm_timeout; try reflexivity.
  - eexists. split; [reflexivity |]. cbn [vars polls notices confirmation_result].
    repeat split. apply last_snoc.
  - intros k Hk. apply Hidle. lia.
Qed.

(** X19.  A cancellation blocks the run that follows it.  In a first run
    that starts with no confirmation stored, the main thread calls
    [cancel_upload] before the worker's access number [m] and writes nothing
    else: the run stops without touching the sheet.  A second run, started
    from the variables the first one left, in which no confirmation is
    stored before the worker has tested the variable, is refused at once:
    the worker does not sleep, reports the upload as cancelled by the user,
    leaves the sheet alone, and the variable is still False. *)
Theorem cancelled_run_blocks_the_next (U1 U2 : ui) (E1 E2 : env)
  (df1 df2 : DataFrame) (df_multi1 df_multi2 : option Cin7.MultiFrame)
  (processed1 processed2 : DataFrame) (log1 log2 : list message)
  (v : shared) (w : world) (m : nat) :
  Cin7.process_cin7_excel_data (processing_toggles U1) df1 df_multi1
    = (Some processed1, log1) ->
  is_empty processed1 = false ->
  Cin7.process_cin7_excel_data (processing_toggles U2) df2 df_multi2
    = (Some processed2, log2) ->
  is_empty processed2 = false ->
  confirmation_result v = None ->
  1 <= m <= 602 ->
  (forall k, main_thread U1 k = only_at m cancel_upload k) ->
  (forall k, k < 3 -> keeps_confirmation (main_thread U2 k) = true) ->
  exists e1 s1 s2,
    upload_process_thread U1 E1 df1 df_multi1 v w = (e1, s1, w) /\
    (e1 = ReturnedWhileWaiting \/ e1 = NotConfirmed) /\
    upload_process_thread U2 E2 df2 df_multi2 (vars s1) w = (NotConfirmed, s2, w) /\
    polls s2 = 0 /\
    confirmation_result (vars s2) = Some false /\
    last (notices s2) = Some CancelledByUser.
Proof.
  intros Hproc1 Hne1 Hproc2 Hne2 Hc Hm HU1 Hkeep.
  destruct (thread_unfold U1 E1 df1 df_multi1 processed1 log1 Hproc1 Hne1 v w)
    as [l1 Hrun1].
  assert (H0 : main_thread U1 0 = []) by (rewrite HU1; apply only_at_other; lia).
  rewrite H0 in Hrun1. cbn [fold_left] in Hrun1. rewrite Hc in Hrun1.
  destruct (confirm_one_write U1 E1 processed1 (mkSession (mkShared false None) 1 0 l1) w
              m cancel_upload false) as (s' & Hv & _ & _ & _ & Hend);
    try reflexivity; try assumption.
  { intros k _. apply HU1. }
  cbn [cancel_upload fold_left apply_write upload_cancelled_flag confirmation_result] in Hv.
  rewrite Hend in Hrun1. clear Hend.
  assert (Hfirst : exists e1 s1,
            upload_process_thread U1 E1 df1 df_multi1 v w = (e1, s1, w) /\
            (e1 = ReturnedWhileWaiting \/ e1 = NotConfirmed) /\
            confirmation_result (vars s1) = Some false).
  { rewrite Hrun1.
    destruct (Nat.even m && (m <? 602) && upload_cancelled_flag (vars s')).
    - exists ReturnedWhileWaiting, s'. rewrite Hv. auto.
    - exists NotConfirmed, (put [CancelledByUser] s'). cbn [put vars]. rewrite Hv. auto. }
  destruct Hfirst as (e1 & s1 & Hfirst & He1 & Hc1).
  destruct (thread_unfold U2 E2 df2 df_multi2 processed2 log2 Hproc2 Hne2 (vars s1) w)
    as [l2 Hrun2].
  destruct (confirm_at_once U2 E2 processed2
              (mkSession (mkShared false
                 (confirmation_result (fold_left apply_write (main_thread U2 0) (vars s1))))
                 1 0 l2)
              w false) as (s2 & Hp2 & _ & _ & Hc2 & Hend2).
  - cbn [vars confirmation_result]. rewrite fold_keeps by (apply Hkeep; lia). exact Hc1.
  - apply Hkeep. cbn [accesses]. lia.
  - apply Hkeep. cbn [accesses]. lia.
  - rewrite Hend2 in Hrun2.
    exists e1, s1, (put [CancelledByUser] s2).
    cbn [put vars polls notices]. repeat split; try assumption. apply last_snoc.
Qed.

(** X16 on a run that follows a refusal, the user not touching anything. *)
Lemma stale_confirmation_decides_at_once_witness :
  exists e s w',
    upload_process_thread (append_verbatim idle) quiet_env one_product None declined
      (initial_world one_remote_row 1) = (e, s, w') /\
    polls s = 0 /\
    e = NotConfirmed /\ w' = initial_world one_remote_row 1 /\
    confirmation_result (vars s) = Some false /\
    last (notices s) = Some CancelledByUser.
Proof.
  eapply (stale_confirmation_decides_at_once (append_verbatim idle) quiet_env
            one_product None _ _ declined (initial_world one_remote_row 1) false).
  - vm_compute. reflexivity.
  - reflexivity.
  - reflexivity.
  - intros k _. reflexivity.
Defined.

(** X17 on a dialog answered Yes during the third sleep. *)
Lemma fresh_run_follows_the_dialog_witness :
  exists e s w',
    upload_process_thread (append_verbatim (only_at 6 [SetConfirmation true])) quiet_env
      one_product None fresh (initial_world one_remote_row 1) = (e, s, w') /\
    polls s = 3 /\
    confirmation_result (vars s) = None /\
    e = Finished (fst (Sync.upload_process quiet_env false
                         (mkFrame 1 [("ProductCode", [CStr "A1"]); ("SOH", [CInt 3])])
                         (initial_world one_remote_row 1))) /\
    w' = snd (Sync.upload_process quiet_env false
                (mkFrame 1 [("ProductCode", [CStr "A1"]); ("SOH", [CInt 3])])
                (initial_world one_remote_row 1)).
Proof.
  eapply (fresh_run_follows_the_dialog (append_verbatim (only_at 6 [SetConfirmation true]))
            quiet_env one_product None _ _ fresh (initial_world one_remote_row 1) 6 true).
  - vm_compute. reflexivity.
  - reflexivity.
  - reflexivity.
  - lia.
  - intros k. reflexivity.
Defined.

(** X18 on a user who does nothing. *)
Lemma unanswered_dialog_times_out_witness :
  exists s,
    upload_process_thread (append_verbatim idle) quiet_env one_product None fresh
      (initial_world one_remote_row 1) = (NotConfirmed, s, initial_world one_remote_row 1) /\
    polls s = 300 /\
    confirmation_result (vars s) = None /\
    last (notices s) = Some CancelledByUser.
Proof.
  eapply (unanswered_dialog_times_out (append_verbatim idle) quiet_env one_product None
            _ _ fresh (initial_world one_remote_row 1)).
  - vm_compute. reflexivity.
  - reflexivity.
  - reflexivity.
  - intros k _. reflexivity.
Defined.

(** X19 on a cancellation during the second sleep, followed by a run whose
    dialog is answered Yes during its fourth sleep. *)
Lemma cancelled_run_blocks_the_next_witness :
  exists e1 s1 s2,
    upload_process_thread (append_verbatim (only_at 4 cancel_upload)) quiet_env
      one_product None fresh (initial_world one_remote_row 1)
      = (e1, s1, initial_world one_remote_row 1) /\
    (e1 = ReturnedWhileWaiting \/ e1 = NotConfirmed) /\
    upload_process_thread (append_verbatim (only_at 8 [SetConfirmation true])) quiet_env
      one_product None (vars s1) (initial_world one_remote_row 1)
      = (NotConfirmed, s2, initial_world one_remote_row 1) /\
    polls s2 = 0 /\
    confirmation_result (vars s2) = Some false /\
    last (notices s2) = Some CancelledByUser.
Proof.
  eapply (cancelled_run_blocks_the_next
            (append_verbatim (only_at 4 cancel_upload))
            (append_verbatim (only_at 8 [SetConfirmation true]))
            quiet_env quiet_env one_product one_product None None _ _ _ _
            fresh (initial_world one_remote_row 1) 4).
  - vm_compute. reflexivity.
  - reflexivity.
  - vm_compute. reflexivity.
  - reflexivity.
  - reflexivity.
  - lia.
  - intros k. reflexivity.
  - intros k Hk. destruct k as [|[|[|k]]]; [reflexivity | reflexivity | reflexivity | lia].
Defined.

End SessionFacts.

(** ** The table that is processed *)

Module FilesFacts.
Import Pandas Files Scenarios FilesScenarios.

Lemma run_keeps_analysis (acts : list action) :
  forall (st : selection) (r : reading),
  file_analysis st = Some r ->
  no_analysis_succeeds (excel_file_path st) acts ->
  file_analysis (run acts st) = Some r /\
  excel_file_path (run acts st) = selected (excel_file_path st) acts.
Proof.
  induction acts as [|a acts IH]; intros st r Hst Hno; [now split |].
  change (run (a :: acts) st) with (run acts (step st a)).
  destruct a as [file_path | D]; cbn [step no_analysis_succeeds selected] in *.
  - unfold browse_file.
    destruct (Py.truthy file_path).
    + apply (IH (mkSelection file_path (file_analysis st)) r); assumption.
    + apply (IH st r); assumption.
  - destruct Hno as [Hfail Hno].
    unfold analyze_file. rewrite Hfail.
    destruct (negb _); apply (IH st r); assumption.
Qed.

(** X21.  The table that is processed is the one of the last analysis that
    succeeded, not the one of the file selected.  After an analysis of the
    selected file has succeeded with the reading [r], let the user select
    other files and let every later analysis fail, in any order: the upload
    and the preview still work on [r], whatever the disk holds at that
    moment, while the path shown is the one selected last. *)
Theorem processing_uses_last_successful_analysis
  (D D_now : disk) (st : selection) (r : reading) (acts : list action) :
  Py.truthy (excel_file_path st) = true ->
  D (excel_file_path st) = Some r ->
  no_analysis_succeeds (excel_file_path st) acts ->
  frames_to_process D_now (run acts (analyze_file D st)) = Some r /\
  excel_file_path (run acts (analyze_file D st)) = selected (excel_file_path st) acts.
Proof.
  intros Hpath Hread Hno.
  assert (Hst : analyze_file D st = mkSelection (excel_file_path st) (Some r)).
  { unfold analyze_file. now rewrite Hpath, Hread. }
  rewrite Hst.
  destruct (run_keeps_analysis acts (mkSelection (excel_file_path st) (Some r)) r
              eq_refl Hno) as [Ha Hp].
  split; [| exact Hp]. unfold frames_to_process. now rewrite Ha.
Qed.

(** X21 on a readable file followed by the selection of an unreadable one. *)
Lemma processing_uses_last_successful_analysis_witness :
  frames_to_process only_stock
    (run select_unreadable (analyze_file only_stock (browse_file "stock.xlsx" initial)))
    = Some (one_product, None) /\
  excel_file_path
    (run select_unreadable (analyze_file only_stock (browse_file "stock.xlsx" initial)))
    = "other.xlsx".
Proof.
  apply (processing_uses_last_successful_analysis only_stock only_stock
           (browse_file "stock.xlsx" initial) (one_product, None) select_unreadable).
  - reflexivity.
  - reflexivity.
  - simpl. split; reflexivity.
Defined.

End FilesFacts.
